(** * The element cache of the UI-automation service and the endpoints around it

    A shallow embedding of
    - [utils/element_cache.py]: class [ElementCache] and the process-wide
      [element_cache] object;
    - [utils/omnielement.py]: the [OmniElement] wrapper, its constructor,
      its property getters and [get_properties];
    - [endpoints/query.py], and the endpoints of [endpoints/widget.py],
      [window.py], [keyboard.py] and [mouse.py] of both extensions that
      resolve an element identifier through the cache.

    Python exceptions are values of [exn]; a request handler is a function of
    the process state that returns or raises and leaves a state.  The host
    application (UI toolkit, [uuid.uuid4], the web framework) is a record
    [Host] of the functions the code calls; host calls that act on a resolved
    element are arguments of the endpoint that makes them. *)

From Stdlib Require Import String Ascii List Arith Bool Lia.
From Stdlib Require Import DecimalString DecimalNat.
Import ListNotations.
Open Scope string_scope.
Open Scope list_scope.

(** ** Exceptions and results *)

(** The [detail] of an [HTTPException]: a string, or a JSON object. *)
Inductive Detail : Type :=
| Text (s : string)
| Json (d : list (string * string)).

(** The exceptions the modelled code raises or catches.  [HTTPException] is
    the web framework's; [RuntimeError] stands for every other exception and
    carries [str(e)]. *)
Inductive exn : Type :=
| KeyError
| HTTPException (status_code : nat) (detail : Detail)
| RuntimeError (msg : string).

Inductive Result (A : Type) : Type :=
| Ok (a : A)
| Raise (e : exn).
Arguments Ok {A} a.
Arguments Raise {A} e.

Definition HTTP_404_NOT_FOUND : nat := 404.
Definition HTTP_500_INTERNAL_SERVER_ERROR : nat := 500.

(** ** Python [dict] with [str] keys

    Insertion-ordered: iteration visits the entries in the order their keys
    were first bound, and binding an existing key replaces its value in
    place. *)
Module Dict.

Definition t (V : Type) : Type := list (string * V).

Definition empty {V : Type} : t V := [].

(** [d[k]], with [None] for a missing key. *)
Fixpoint get {V : Type} (k : string) (d : t V) : option V :=
  match d with
  | [] => None
  | (k', v) :: rest => if String.eqb k k' then Some v else get k rest
  end.

(** [k in d] *)
Definition contains {V : Type} (k : string) (d : t V) : bool :=
  match get k d with
  | Some _ => true
  | None => false
  end.

(** [d[k] = v] *)
Fixpoint set {V : Type} (k : string) (v : V) (d : t V) : t V :=
  match d with
  | [] => [(k, v)]
  | (k', v') :: rest =>
      if String.eqb k k' then (k, v) :: rest else (k', v') :: set k v rest
  end.

(** [d.clear()] *)
Definition clear {V : Type} (d : t V) : t V := [].

(** [d.items()], in iteration order. *)
Definition items {V : Type} (d : t V) : list (string * V) := d.

Definition keys {V : Type} (d : t V) : list string := map fst d.

(** [len(d)] *)
Definition len {V : Type} (d : t V) : nat := length d.

(** [bool(d)] *)
Definition truthy {V : Type} (d : t V) : bool :=
  match d with
  | [] => false
  | _ :: _ => true
  end.

(** A Python dict binds every key once. *)
Definition wf {V : Type} (d : t V) : Prop := NoDup (keys d).

End Dict.

(** ** Small pieces of Python *)

(** Truth value of an [Optional[str]]: [None] and the empty string are
    false. *)
Definition truthy_str (o : option string) : bool :=
  match o with
  | Some s => negb (String.eqb s "")
  | None => false
  end.

(** [f"{o}"] for an [Optional[str]]. *)
Definition str_opt (o : option string) : string :=
  match o with
  | Some s => s
  | None => "None"
  end.

(** [str(b)] *)
Definition str_bool (b : bool) : string := if b then "True" else "False".

(** Number of occurrences of a character. *)
Fixpoint count_char (c : ascii) (s : string) : nat :=
  match s with
  | EmptyString => 0
  | String a rest => (if Ascii.eqb a c then 1 else 0) + count_char c rest
  end.

(** [len(s.split(c))] for a one-character separator. *)
Definition split_len (c : ascii) (s : string) : nat := S (count_char c s).

(** [pat in s] *)
Definition substring_in (pat s : string) : bool :=
  match String.index 0 pat s with
  | Some _ => true
  | None => false
  end.

(** [s.lower()], on the letters of ASCII. *)
Definition lower_ascii (c : ascii) : ascii :=
  let n := nat_of_ascii c in
  if Nat.leb 65 n && Nat.leb n 90 then ascii_of_nat (n + 32) else c.

Fixpoint lower (s : string) : string :=
  match s with
  | EmptyString => EmptyString
  | String c rest => String (lower_ascii c) (lower rest)
  end.

(** ** Widget references *)

(** What a reference holds in its [widget] attribute: an [omni.ui] widget or
    a window handle. *)
Inductive Handle : Type :=
| Widget (n : nat)
| WindowHandle (n : nat).

Definition is_window_handle (w : Handle) : bool :=
  match w with
  | WindowHandle _ => true
  | Widget _ => false
  end.

(** [type(element)] *)
Inductive PyType : Type :=
| TWidgetRef
| TWindowRef
| TOmniElement.

Definition PyType_eqb (a b : PyType) : bool :=
  match a, b with
  | TWidgetRef, TWidgetRef => true
  | TWindowRef, TWindowRef => true
  | TOmniElement, TOmniElement => true
  | _, _ => false
  end.

(** A [WidgetRef], [WindowRef] or [OmniElement] object: its class and the
    two attributes its constructor stores. *)
Record Ref : Type := mkRef {
  type_of : PyType;
  widget : Handle;
  path : string
}.

(** [OmniElement.__init__]: [super().__init__(element.widget, element.path)] *)
Definition OmniElement (element : Ref) : Ref :=
  {| type_of := TOmniElement;
     widget := widget element;
     path := path element |}.

(** A Python value a property holds: [None], a [bool], a number by its
    [repr], a [str], a tuple, or a [Vec2] with its [x] and [y]. *)
#[warnings="-register-all"]
Inductive PyValue : Type :=
| VNone
| VBool (b : bool)
| VNum (repr : string)
| VStr (s : string)
| VTuple (items : list PyValue)
| VVec2 (x y : PyValue).

(** The properties dictionary of an element. *)
Definition Properties : Type := Dict.t PyValue.

(** ** The host application *)

Record Host : Type := {
  (** the n-th value [str(uuid.uuid4())] returns in this process *)
  uuid4 : nat -> string;
  (** [WidgetRef.realpath]: the UI toolkit computes it from the widget the
      reference holds and the window its path names *)
  realpath_of : Handle -> string -> string;
  (** [omni.kit.ui_test.find_all(locator)] *)
  ui_test_find_all : string -> list Ref;
  (** [WidgetRef.find_all(self, locator)] *)
  widget_find_all : Ref -> string -> list Ref;
  (** [type(widget).__name__] *)
  class_name : Handle -> string;
  (** [str(type(widget))] *)
  str_type : Handle -> string;
  (** [type(widget) == ui.CanvasFrame] *)
  is_CanvasFrame : Handle -> bool;
  (** what reading an attribute gives through a reference that holds this
      widget and this path, the attribute named by the expression the getter
      evaluates on [self]; [None] when the read raises the exception the
      getter around it catches *)
  attribute : Handle -> string -> string -> option PyValue;
  (** the reads of a widget no getter guards *)
  unguarded : Handle -> string -> PyValue;
  (** [str(e)] of the web framework's [HTTPException] *)
  str_HTTPException : nat -> Detail -> string
}.

(** [str(e)] *)
Definition str_exn (h : Host) (e : exn) : string :=
  match e with
  | KeyError => ""
  | HTTPException c d => str_HTTPException h c d
  | RuntimeError m => m
  end.

(** [element.realpath] *)
Definition realpath (h : Host) (element : Ref) : string :=
  realpath_of h (widget element) (path element).

(** ** The properties of [OmniElement] ([utils/omnielement.py])

    Each getter reads the toolkit and falls back to a message that names the
    widget's type and the reference's path.  A read returns, or raises what
    the getter around it catches; the three reads of a canvas frame and
    [widget.visible], which no getter guards, return. *)
Module Getters.
Section WithHost.
Context (h : Host).

(** [getattr] along the expression [expr], on [self = element]. *)
Definition read (element : Ref) (expr : string) : option PyValue :=
  attribute h (widget element) (path element) expr.

Definition get_type (element : Ref) : string := class_name h (widget element).

(** The tail every fallback message ends in. *)
Definition on_the (element : Ref) : string :=
  " on the " ++ get_type element ++ " at path " ++ path element ++ ".".

(** [try: return <expr> except ...: return message] *)
Definition read_or (element : Ref) (expr message : string) : PyValue :=
  match read element expr with
  | Some v => v
  | None => VStr message
  end.

(** ["window" in str(type(self.widget)).lower()] *)
Definition names_window (element : Ref) : bool :=
  substring_in "window" (lower (str_type h (widget element))).

Definition name (element : Ref) : PyValue :=
  read_or element "widget.name" ("The 'name' not found" ++ on_the element).

Definition visible (element : Ref) : PyValue :=
  unguarded h (widget element) "widget.visible".

Definition enabled (element : Ref) : PyValue :=
  read_or element "widget.enabled"
    ("The 'enabled' not found" ++ on_the element).

Definition width (element : Ref) : PyValue :=
  read_or element
    (if negb (names_window element) then "widget.computed_width"
     else "window.width")
    ("The 'width' attribute is not found" ++ on_the element).

Definition height (element : Ref) : PyValue :=
  read_or element
    (if negb (names_window element) then "widget.computed_content_height"
     else "window.height")
    ("The 'height' attribute is not found" ++ on_the element).

(** The message of the four getters that go through [self.model]. *)
Definition requires_model (attr : string) (element : Ref) : string :=
  "The '" ++ attr
    ++ "' attribute requires 'model' attribute to be present which is not found"
    ++ on_the element.

Definition as_string (element : Ref) : PyValue :=
  read_or element "model.get_value_as_string()"
    (requires_model "as_string" element).

Definition as_int (element : Ref) : PyValue :=
  read_or element "model.get_value_as_int()" (requires_model "as_int" element).

Definition as_float (element : Ref) : PyValue :=
  read_or element "model.get_value_as_float()"
    (requires_model "as_float" element).

Definition as_bool (element : Ref) : PyValue :=
  read_or element "model.get_value_as_bool()"
    (requires_model "as_bool" element).

Definition collapsed (element : Ref) : PyValue :=
  read_or element "widget.collapsed"
    ("The 'collapsed' attribute is not found" ++ on_the element).

Definition slider_range (element : Ref) : PyValue :=
  match read element "widget.min", read element "widget.max" with
  | Some min, Some max => VTuple [min; max]
  | _, _ =>
      match read element "widget.delegate._SliderMenuDelegate__slider.min",
            read element "widget.delegate._SliderMenuDelegate__slider.max" with
      | Some min, Some max => VTuple [min; max]
      | _, _ =>
          VStr ("The 'min, max' attributes are not found" ++ on_the element)
      end
  end.

Definition center (element : Ref) : PyValue :=
  read_or element "position + size / 2"
    ("The 'center' attribute is not found" ++ on_the element).

(** The inner [try] of [text], [selected] and [checked] returns what
    [as_string] or [as_bool] returns: those catch the exception themselves. *)
Definition text (element : Ref) : PyValue :=
  match read element "widget.text" with
  | Some v => v
  | None => as_string element
  end.

Definition selected (element : Ref) : PyValue :=
  match read element "widget.selected" with
  | Some v => v
  | None => as_bool element
  end.

Definition checked (element : Ref) : PyValue :=
  match read element "widget.checked" with
  | Some v => v
  | None => as_bool element
  end.

Definition dock (element : Ref) : PyValue :=
  match read element "window.docked", read element "window.dock_order",
        read element "window.dock_id" with
  | Some dock_status, Some dock_order, Some dock_id =>
      VTuple [dock_status; dock_order; dock_id]
  | _, _, _ => VStr ("The 'dock' attribute is not found" ++ on_the element)
  end.

Definition value (element : Ref) : PyValue :=
  read_or element "widget.value()"
    ("The 'value' attribute is not found" ++ on_the element).

Definition canvas (element : Ref) : PyValue :=
  if is_CanvasFrame h (widget element) then
    VTuple [unguarded h (widget element) "widget.zoom";
            unguarded h (widget element) "widget.pan_x";
            unguarded h (widget element) "widget.pan_y"]
  else
    VStr ("The 'canvas properties' attribute is not found" ++ on_the element).

Definition screen_position_x (element : Ref) : PyValue :=
  read_or element "widget.screen_position_x"
    ("The 'screen_position_x' attribute is not found" ++ on_the element).

Definition screen_position_y (element : Ref) : PyValue :=
  read_or element "widget.screen_position_y"
    ("The 'screen_position_y' attribute is not found" ++ on_the element).

Definition widget_position (element : Ref) : PyValue :=
  read_or element "position.to_tuple()"
    ("The 'position' attribute is not found" ++ on_the element).

Definition widget_size (element : Ref) : PyValue :=
  read_or element "size.to_tuple()"
    ("The 'size' attribute is not found" ++ on_the element).

End WithHost.
End Getters.

(** [s or ""] *)
Definition or_empty (s : string) : string :=
  match s with
  | EmptyString => ""
  | String _ _ => s
  end.

(** [OmniElement.get_properties] *)
Definition get_properties (h : Host) (element : Ref) : Properties :=
  [("name", Getters.name h element);
   ("visible", Getters.visible h element);
   ("enabled", Getters.enabled h element);
   ("height", Getters.height h element);
   ("width", Getters.width h element);
   ("as_string", Getters.as_string h element);
   ("as_int", Getters.as_int h element);
   ("as_float", Getters.as_float h element);
   ("as_bool", Getters.as_bool h element);
   ("get_type", VStr (Getters.get_type h element));
   ("collapsed", Getters.collapsed h element);
   ("slider_range", Getters.slider_range h element);
   ("center",
    match Getters.center h element with
    | VVec2 x y => VTuple [x; y]
    | center => center
    end);
   ("text", Getters.text h element);
   ("selected", Getters.selected h element);
   ("checked", Getters.checked h element);
   ("dock", Getters.dock h element);
   ("value", Getters.value h element);
   ("canvas", Getters.canvas h element);
   ("screen_position_x", Getters.screen_position_x h element);
   ("screen_position_y", Getters.screen_position_y h element);
   ("path", VStr (or_empty (path element)));
   ("real_path", VStr (or_empty (realpath h element)));
   ("position", Getters.widget_position h element);
   ("size", Getters.widget_size h element)].

(** ** Responses *)

(** [FindElementResponse(element_id=..., message=..., properties=...)] *)
Record FindElementResponse : Type := mkFindElementResponse {
  element_id : option string;
  message : string;
  properties : option Properties
}.

(** What an endpoint returns: one of the response models, or a plain JSON
    object. *)
Inductive Response : Type :=
| MessageResponse (message : string)
| FoundElement (r : FindElementResponse)
| FindElementsResponse (elements : list FindElementResponse) (count : nat)
| ComboBoxInfo (current_index : nat) (current_value : string)
    (all_options : list string) (options_count : nat)
| JsonResponse (d : list (string * string)).

(** ** Process state and the handler monad *)

(** The module-level [element_cache] object ([element_map] is its only
    attribute), together with the number of identifiers [uuid4] has handed
    out so far. *)
Record Process : Type := mkProcess {
  element_map : Dict.t Ref;
  uuid_calls : nat
}.

(** A computation that reads and updates the process and returns or raises;
    what it did to the process before raising stays done. *)
Definition M (A : Type) : Type := Process -> Result A * Process.

Definition ret {A : Type} (a : A) : M A := fun st => (Ok a, st).

Definition raise {A : Type} (e : exn) : M A := fun st => (Raise e, st).

Definition bind {A B : Type} (m : M A) (f : A -> M B) : M B :=
  fun st =>
    match m st with
    | (Ok a, st') => f a st'
    | (Raise e, st') => (Raise e, st')
    end.

(** [try: m  except ...: handler e]; a handler re-raises what its clauses do
    not catch. *)
Definition try_except {A : Type} (m : M A) (handler : exn -> M A) : M A :=
  fun st =>
    match m st with
    | (Ok a, st') => (Ok a, st')
    | (Raise e, st') => handler e st'
    end.

(** [for x in l: f x], collecting what each round yields. *)
Fixpoint for_each {A B : Type} (f : A -> M B) (l : list A) : M (list B) :=
  match l with
  | [] => ret []
  | x :: rest =>
      bind (f x) (fun y => bind (for_each f rest) (fun ys => ret (y :: ys)))
  end.

Declare Scope py_scope.
Delimit Scope py_scope with py.
Notation "x <- m ;; k" := (bind m (fun x => k))
  (at level 61, m at next level, right associativity) : py_scope.
Notation "m ;;; k" := (bind m (fun _ => k))
  (at level 61, right associativity) : py_scope.
Open Scope py_scope.

(** ** [utils/element_cache.py] *)
Module ElementCache.
Section WithHost.
Context (h : Host).

(** [ElementCache()] at import time. *)
Definition init : Process :=
  {| element_map := Dict.empty; uuid_calls := 0 |}.

(** The test of the loop of [add_element] at one entry: the [if] and the
    [elif] condition. *)
Definition matches (element cached_element : Ref) : bool :=
  if PyType_eqb (type_of element) TWindowRef
  then String.eqb (path element) (path cached_element)
  else String.eqb (realpath h element) (realpath h cached_element).

(** [for existing_id, cached_element in self.element_map.items()]: the
    identifier the loop returns, [None] when it falls through. *)
Fixpoint find_existing (element : Ref) (items : list (string * Ref))
  : option string :=
  match items with
  | [] => None
  | (existing_id, cached_element) :: rest =>
      if matches element cached_element
      then Some existing_id
      else find_existing element rest
  end.

(** The last lines of [add_element]: draw an identifier and bind it. *)
Definition insert_new (element : Ref) (st : Process) : string * Process :=
  let identifier := uuid4 h (uuid_calls st) in
  (identifier,
   {| element_map :=
        Dict.set identifier (OmniElement element) (element_map st);
      uuid_calls := S (uuid_calls st) |}).

Definition add_element (element : Ref) (exists_check : bool) (st : Process)
  : string * Process :=
  if exists_check then
    match find_existing element (Dict.items (element_map st)) with
    | Some existing_id => (existing_id, st)
    | None => insert_new element st
    end
  else insert_new element st.

Definition get_map (st : Process) : Dict.t Ref := element_map st.

Definition reset_map (st : Process) : Process :=
  {| element_map := Dict.clear (element_map st);
     uuid_calls := uuid_calls st |}.

Definition get_cached_element (identifier : string) : M Ref :=
  fun st =>
    if Dict.contains identifier (element_map st)
    then match Dict.get identifier (element_map st) with
         | Some element => (Ok element, st)
         | None => (Raise KeyError, st)
         end
    else (Raise KeyError, st).

(** The calls as steps of a handler. *)
Definition add_elementM (element : Ref) (exists_check : bool) : M string :=
  fun st =>
    let (identifier, st') := add_element element exists_check st in
    (Ok identifier, st').

Definition reset_mapM : M unit := fun st => (Ok tt, reset_map st).

Definition get_mapM : M (Dict.t Ref) := fun st => (Ok (get_map st), st).

End WithHost.
End ElementCache.

(** ** [api_models/query_models.py] *)
Module FindElementRequest.
Record t : Type := mk {
  locator : string;
  root_widget_id : option string
}.
End FindElementRequest.

Module FindElementsRequest.
Record t : Type := mk {
  locator : string;
  root_widget_id : option string;
  get_properties : bool
}.
End FindElementsRequest.

(** ** [endpoints/query.py] of the sample extension *)
Module Query.
Import ElementCache.
Section WithHost.
Context (h : Host).

(** The first block of [find_element] and of [find_elements]: search below
    the cached root widget when [root_widget_id] is given, the whole UI
    otherwise.  Yields the root widget, when there is one, and the elements
    found. *)
Definition locate (locator : string) (root_widget_id : option string)
  : M (option Ref * list Ref) :=
  if truthy_str root_widget_id then
    try_except
      (root_widget <- get_cached_element (str_opt root_widget_id) ;;
       ret (Some root_widget, widget_find_all h root_widget locator))
      (fun e =>
         match e with
         | KeyError =>
             raise (HTTPException HTTP_404_NOT_FOUND
                      (Text ("No root elements found with ID "
                               ++ str_opt root_widget_id)))
         | _ => raise e
         end)
  else ret (None, ui_test_find_all h locator).

Definition find_element_message (locator : string) (root_widget : option Ref)
  (identifier : string) : string :=
  match root_widget with
  | Some root =>
      "Element with locator '" ++ locator ++ "' and root widget "
        ++ realpath h root ++ " found and cached with ID '"
        ++ identifier ++ "'"
  | None =>
      "Element with locator '" ++ locator ++ "' found and cached with ID '"
        ++ identifier ++ "'"
  end.

Definition find_element (request : FindElementRequest.t) : M Response :=
  let locator := FindElementRequest.locator request in
  found <- locate locator (FindElementRequest.root_widget_id request) ;;
  let (root_widget, element) := found in
  match element with
  | first :: _ =>
      identifier <- add_elementM h first true ;;
      let message := find_element_message locator root_widget identifier in
      cached <- get_cached_element identifier ;;
      ret (FoundElement
             {| element_id := Some identifier;
                message := message;
                properties := Some (get_properties h cached) |})
  | [] =>
      raise (HTTPException HTTP_404_NOT_FOUND
               (Text ("No elements found with locator '" ++ locator ++ "'")))
  end.

Definition find_elements_message (locator : string) (root_widget : option Ref)
  (identifier : string) : string :=
  match root_widget with
  | Some root =>
      "Element with locator '" ++ locator ++ "' and root widget '"
        ++ path root ++ "' found and cached with ID '" ++ identifier ++ "'"
  | None =>
      "Element with locator '" ++ locator ++ "' found and cached with ID '"
        ++ identifier ++ "'"
  end.

(** [exists_check] as [find_elements] sets it from the number of elements
    found. *)
Definition exists_check_for (element_list : list Ref) : bool :=
  if Nat.ltb (List.length element_list) 50 then true else false.

(** One round of the loop of [find_elements]. *)
Definition find_elements_round (locator : string) (root_widget : option Ref)
  (with_properties exists_check : bool) (element : Ref)
  : M FindElementResponse :=
  identifier <- add_elementM h element exists_check ;;
  let message := find_elements_message locator root_widget identifier in
  if with_properties then
    cached <- get_cached_element identifier ;;
    ret {| element_id := Some identifier;
           message := message;
           properties := Some (get_properties h cached) |}
  else
    ret {| element_id := Some identifier;
           message := message;
           properties := None |}.

Definition find_elements (request : FindElementsRequest.t) : M Response :=
  let locator := FindElementsRequest.locator request in
  found <- locate locator (FindElementsRequest.root_widget_id request) ;;
  let (root_widget, element_list) := found in
  let exists_check := exists_check_for element_list in
  response_list <-
    for_each
      (find_elements_round locator root_widget
         (FindElementsRequest.get_properties request) exists_check)
      element_list ;;
  match element_list with
  | [] =>
      raise (HTTPException HTTP_404_NOT_FOUND
               (Text ("No elements found with locator '" ++ locator ++ "'")))
  | _ :: _ =>
      ret (FindElementsResponse response_list (List.length response_list))
  end.

Definition widget_properties (element_id : string) : M Response :=
  fetched <-
    try_except
      (cached <- get_cached_element element_id ;;
       ret (get_properties h cached, "Successfully fetched element properties"))
      (fun _ =>
         raise (HTTPException HTTP_404_NOT_FOUND
                  (Text ("No elements found with ID " ++ element_id)))) ;;
  let (properties, message) := fetched in
  ret (FoundElement
         {| element_id := Some element_id;
            message := message;
            properties := Some properties |}).

End WithHost.
End Query.

(** ** Request models of the other endpoints *)
Module ComboBoxRequest.
Record t : Type := mk {
  identifier : string;
  index : option nat;
  name : option string
}.
End ComboBoxRequest.

Module SendKeysRequest.
Record t : Type := mk {
  element_id : string;
  text : string;
  human_delay_speed : option nat
}.
End SendKeysRequest.

Module ClickRequest.
Record t : Type := mk {
  element_id : string;
  bring_to_front : option bool
}.
End ClickRequest.

(** The [except KeyError] clause shared by the endpoints below: answer 404
    with the given detail, let every other exception pass. *)
Definition on_KeyError {A : Type} (detail : string) (e : exn) : M A :=
  match e with
  | KeyError => raise (HTTPException HTTP_404_NOT_FOUND (Text detail))
  | _ => raise e
  end.

(** ** [endpoints/widget.py] of the sample extension *)
Module WidgetEndpoints.
Import ElementCache.
Section WithHost.
(** What the endpoint does with the resolved element through the toolkit:
    reading the combobox model, [element.bring_to_front(undock)], selecting
    the combobox item. *)
Variable read_combobox : Ref -> M Response.
Variable element_bring_to_front : Ref -> bool -> M unit.
Variable select_item : ComboBoxRequest.t -> Ref -> M Response.

Definition LOG_ELEMENT_NOT_FOUND : string :=
  "Element with ID not found in element cache".

Definition reset_widget_cache : M Response :=
  reset_mapM ;;;
  map <- get_mapM ;;
  if Dict.truthy map then
    raise (HTTPException 500
             (Json [("message", "Server cache reset operation failed.")]))
  else
    ret (JsonResponse
           [("message", "Server widget cache has been successfully reset.")]).

Definition combobox_info (identifier : string) : M Response :=
  element <-
    try_except (get_cached_element identifier)
      (on_KeyError (LOG_ELEMENT_NOT_FOUND ++ ": " ++ identifier)) ;;
  read_combobox element.

Definition bring_to_front (id : string) (undock : bool) : M Response :=
  try_except
    (element <- get_cached_element id ;;
     element_bring_to_front element undock ;;;
     ret (MessageResponse
            ("Element with ID " ++ id ++ " brought to front with undock:"
               ++ str_bool undock)))
    (on_KeyError (LOG_ELEMENT_NOT_FOUND ++ ": " ++ id)).

Definition select_combobox_item (request : ComboBoxRequest.t) : M Response :=
  omni_element <-
    try_except (get_cached_element (ComboBoxRequest.identifier request))
      (on_KeyError ("Element with Identifier "
                      ++ ComboBoxRequest.identifier request ++ " not found")) ;;
  select_item request omni_element.

End WithHost.
End WidgetEndpoints.

(** ** [endpoints/window.py] of the sample extension *)
Module WindowEndpoints.
Import ElementCache.
Section WithHost.
(** The body of the [try] after the lookup: the window test, the toolkit
    calls with the request's coordinates or sizes, and the answer built from
    them. *)
Variable set_position : Ref -> M Response.
Variable resize : Ref -> M Response.

Definition LOG_ELEMENT_NOT_FOUND : string :=
  "Element with ID not found in element cache".

Definition window_position (identifier : string) : M Response :=
  try_except
    (element <- get_cached_element identifier ;; set_position element)
    (on_KeyError (LOG_ELEMENT_NOT_FOUND ++ ": " ++ identifier)).

Definition resize_window (id : string) : M Response :=
  try_except
    (element <- get_cached_element id ;; resize element)
    (on_KeyError ("Element with ID " ++ id ++ " not found in element cache.")).

End WithHost.
End WindowEndpoints.

(** ** [endpoints/keyboard.py] of the sample extension *)
Module KeyboardEndpoints.
Import ElementCache.
Section WithHost.
(** [element.input(text, human_delay_speed=...)] and [element.text]. *)
Variable element_input : Ref -> string -> option nat -> M unit.
Variable element_text : Ref -> M string.

Definition send_keys_to_element (request : SendKeysRequest.t) : M Response :=
  let element_id := SendKeysRequest.element_id request in
  let text := SendKeysRequest.text request in
  result <-
    try_except
      (element <- get_cached_element element_id ;;
       element_input element text (SendKeysRequest.human_delay_speed request) ;;;
       shown <- element_text element ;;
       ret (String.eqb shown text))
      (on_KeyError ("Element with Identifier " ++ element_id ++ " not found")) ;;
  if result : bool then
    ret (MessageResponse
           ("Keys '" ++ text ++ "' sent to Element with Identifier "
              ++ element_id ++ " and action validation passed."))
  else
    raise (HTTPException HTTP_500_INTERNAL_SERVER_ERROR
             (Text (text ++ " was sent to Element with Identifier "
                      ++ element_id ++ " but action validation failed."))).

End WithHost.
End KeyboardEndpoints.

(** ** The [kit_control] extension

    Its endpoints import [element_cache] from the extension's own
    [utils/element_cache.py]; they are modelled over the methods of that
    object they call, which are variables of each endpoint's section. *)
Module KitControl.

(** *** [kit_control/endpoints/widget.py] *)
Module WidgetEndpoints.
Section WithHost.
Variable get_cached_element : string -> M Ref.
Variable reset_mapM : M unit.
Variable get_mapM : M (Dict.t Ref).
Variable read_combobox : Ref -> M Response.
Variable element_bring_to_front : Ref -> bool -> M unit.
Variable select_item : ComboBoxRequest.t -> Ref -> M Response.

Definition reset_widget_cache : M Response :=
  reset_mapM ;;;
  map <- get_mapM ;;
  if Dict.truthy map then
    raise (HTTPException 500
             (Json [("message", "Server cache reset operation failed.")]))
  else
    ret (JsonResponse
           [("message", "Server widget cache has been successfully reset.")]).

Definition combobox_info (identifier : string) : M Response :=
  element <-
    try_except (get_cached_element identifier)
      (on_KeyError ("Element with ID " ++ identifier
                      ++ " not found in element cache.")) ;;
  read_combobox element.

Definition bring_to_front (id : string) (undock : bool) : M Response :=
  try_except
    (element <- get_cached_element id ;;
     element_bring_to_front element undock ;;;
     ret (MessageResponse
            ("Element with ID " ++ id ++ " brought to front with undock:"
               ++ str_bool undock)))
    (on_KeyError ("Element with ID " ++ id ++ " not found in element cache.")).

Definition select_combobox_item (request : ComboBoxRequest.t) : M Response :=
  omni_element <-
    try_except (get_cached_element (ComboBoxRequest.identifier request))
      (on_KeyError ("Element with Identifier "
                      ++ ComboBoxRequest.identifier request ++ " not found")) ;;
  select_item request omni_element.

End WithHost.
End WidgetEndpoints.

(** *** [kit_control/endpoints/window.py] *)
Module WindowEndpoints.
Section WithHost.
Variable get_cached_element : string -> M Ref.
Variable set_position : Ref -> M Response.
Variable resize : Ref -> M Response.

Definition window_position (identifier : string) : M Response :=
  try_except
    (element <- get_cached_element identifier ;; set_position element)
    (on_KeyError ("Element with ID " ++ identifier
                    ++ " not found in element cache.")).

(** The handler formats the builtin [id], not [request.id], into its
    message. *)
Definition resize_window (id : string) : M Response :=
  try_except
    (element <- get_cached_element id ;; resize element)
    (on_KeyError
       "Element with ID <built-in function id> not found in element cache.").

End WithHost.
End WindowEndpoints.

(** *** [kit_control/endpoints/keyboard.py] *)
Module KeyboardEndpoints.
Section WithHost.
Variable get_cached_element : string -> M Ref.
Variable element_input : Ref -> string -> option nat -> M unit.
Variable element_text : Ref -> M string.

Definition send_keys_to_element (request : SendKeysRequest.t) : M Response :=
  let element_id := SendKeysRequest.element_id request in
  let text := SendKeysRequest.text request in
  result <-
    try_except
      (element <- get_cached_element element_id ;;
       element_input element text (SendKeysRequest.human_delay_speed request) ;;;
       shown <- element_text element ;;
       ret (String.eqb shown text))
      (on_KeyError ("Element with Identifier " ++ element_id ++ " not found")) ;;
  if result : bool then
    ret (MessageResponse
           ("Keys '" ++ text ++ "' sent to Element with Identifier "
              ++ element_id ++ " and action validation passed."))
  else
    raise (HTTPException HTTP_500_INTERNAL_SERVER_ERROR
             (Text (text ++ " was sent to Element with Identifier "
                      ++ element_id ++ " but action validation failed."))).

End WithHost.
End KeyboardEndpoints.

(** *** [kit_control/endpoints/mouse.py] *)
Module MouseEndpoints.
Section WithHost.
Context (h : Host).
Variable get_cached_element : string -> M Ref.
(** [element.click(bring_to_front=...)], [element.double_click()],
    [element.right_click()]; for [drag_and_drop] and [scroll_into_view] the
    body of the [try] after the lookup (the second refreshes the cached
    elements of the scrolled window). *)
Variable element_click : Ref -> option bool -> M unit.
Variable element_double_click : Ref -> M unit.
Variable element_right_click : Ref -> M unit.
Variable drag : Ref -> M Response.
Variable scroll : Ref -> M Response.

(** The [if len(element.path.split("/")) == 1: raise RuntimeError(...)]
    guard of the three click endpoints. *)
Definition reject_window (element : Ref) : M unit :=
  if Nat.eqb (split_len "/"%char (path element)) 1 then
    raise (RuntimeError
             ("Clicking on OmniUI window is not valid, try clicking on a widget instead. Path of window: "
                ++ path element))
  else ret tt.

Definition not_found (element_id : string) : exn :=
  HTTPException HTTP_404_NOT_FOUND
    (Text ("Element with identifier " ++ element_id ++ " not found")).

Definition click (request : ClickRequest.t) : M Response :=
  let element_id := ClickRequest.element_id request in
  try_except
    (element <- get_cached_element element_id ;;
     reject_window element ;;;
     element_click element (ClickRequest.bring_to_front request) ;;;
     ret (MessageResponse
            ("Click event has been sent to element with identifier "
               ++ element_id ++ " at path " ++ realpath h element)))
    (fun e =>
       match e with
       | KeyError => raise (not_found element_id)
       | _ =>
           if substring_in "OmniUI window" (str_exn h e) then
             raise (HTTPException HTTP_500_INTERNAL_SERVER_ERROR
                      (Text (str_exn h e)))
           else
             raise (HTTPException HTTP_500_INTERNAL_SERVER_ERROR
                      (Text ("Click event not sent to Element with ID "
                               ++ element_id ++ ": " ++ str_exn h e)))
       end).

Definition double_click (request : ClickRequest.t) : M Response :=
  let element_id := ClickRequest.element_id request in
  try_except
    (element <- get_cached_element element_id ;;
     reject_window element ;;;
     element_double_click element ;;;
     ret (MessageResponse
            ("Double Click event has been sent to element with identifier "
               ++ element_id ++ " at path " ++ realpath h element)))
    (fun e =>
       match e with
       | KeyError => raise (not_found element_id)
       | _ =>
           if substring_in "OmniUI window" (str_exn h e) then
             raise (HTTPException HTTP_500_INTERNAL_SERVER_ERROR
                      (Text (str_exn h e)))
           else
             raise (HTTPException HTTP_500_INTERNAL_SERVER_ERROR
                      (Text "Internal Server Error"))
       end).

Definition right_click (request : ClickRequest.t) : M Response :=
  let element_id := ClickRequest.element_id request in
  try_except
    (element <- get_cached_element element_id ;;
     reject_window element ;;;
     element_right_click element ;;;
     ret (MessageResponse
            ("Right Click event has been sent to element with identifier "
               ++ element_id ++ " at path " ++ realpath h element)))
    (fun e =>
       match e with
       | KeyError => raise (not_found element_id)
       | _ =>
           if substring_in "OmniUI window" (str_exn h e) then
             raise (HTTPException HTTP_500_INTERNAL_SERVER_ERROR
                      (Text (str_exn h e)))
           else
             raise (HTTPException HTTP_500_INTERNAL_SERVER_ERROR
                      (Text "Internal Server Error"))
       end).

Definition drag_and_drop (element_id : string) : M Response :=
  try_except
    (element <- get_cached_element element_id ;; drag element)
    (fun e =>
       match e with
       | KeyError => raise (not_found element_id)
       | _ =>
           raise (HTTPException HTTP_500_INTERNAL_SERVER_ERROR
                    (Text "Internal Server Error"))
       end).

Definition scroll_into_view (element_id : string) : M Response :=
  try_except
    (element <- get_cached_element element_id ;; scroll element)
    (fun e =>
       match e with
       | KeyError => raise (not_found element_id)
       | _ => raise e
       end).

End WithHost.
End MouseEndpoints.

End KitControl.

(** ** Notions the statements use *)
Section Notions.
Context (h : Host).

(** [cached] addresses the widget [element] addresses: the same [path] for
    a window reference, the same [realpath] for any other reference -- the
    comparison [add_element] makes. *)
Definition same_widget_path (element cached : Ref) : Prop :=
  if PyType_eqb (type_of element) TWindowRef
  then path cached = path element
  else realpath h cached = realpath h element.

(** [uuid4] never hands out the same identifier twice. *)
Definition unique_uuid4 : Prop :=
  forall i j : nat, uuid4 h i = uuid4 h j -> i = j.

(** The states of the process: the cache starts empty and changes through
    [add_element] and [reset_map]; besides, an endpoint may bind an identifier
    the map already has to a re-located element, as
    [update_cached_elements_after_scroll] of [kit_control] does. *)
Inductive reachable : Process -> Prop :=
| reachable_init : reachable ElementCache.init
| reachable_add (element : Ref) (exists_check : bool) (st : Process) :
    reachable st ->
    reachable (snd (ElementCache.add_element h element exists_check st))
| reachable_reset (st : Process) :
    reachable st -> reachable (ElementCache.reset_map st)
| reachable_rebind (element_key : string) (element : Ref) (st : Process) :
    reachable st ->
    In element_key (Dict.keys (element_map st)) ->
    reachable
      {| element_map :=
           Dict.set element_key (OmniElement element) (element_map st);
         uuid_calls := uuid_calls st |}.

(** A reference as the toolkit's queries build it: it is a [WindowRef]
    exactly when it holds a window handle. *)
Definition toolkit_ref (element : Ref) : Prop :=
  is_window_handle (widget element) = PyType_eqb (type_of element) TWindowRef.

(** The states reached when every insertion goes through [add_element] with
    [exists_check=True]. *)
Inductive reachable_checked : Process -> Prop :=
| checked_init : reachable_checked ElementCache.init
| checked_add (element : Ref) (st : Process) :
    toolkit_ref element ->
    reachable_checked st ->
    reachable_checked (snd (ElementCache.add_element h element true st))
| checked_reset (st : Process) :
    reachable_checked st -> reachable_checked (ElementCache.reset_map st).

(** The key the dedup lookup compares a cached element by: the [path] of a
    window, the [realpath] of a widget. *)
Definition dedup_key (cached : Ref) : string + string :=
  if is_window_handle (widget cached)
  then inl (path cached)
  else inr (realpath h cached).

(** Every identifier in the map was handed out by [uuid4] earlier. *)
Definition keys_drawn (st : Process) : Prop :=
  forall k : string,
    In k (Dict.keys (element_map st)) ->
    exists i : nat, i < uuid_calls st /\ k = uuid4 h i.

(** [root_widget_id] is given and is not an identifier of the cache. *)
Definition root_missing (root_widget_id : option string) (st : Process)
  : Prop :=
  truthy_str root_widget_id = true
  /\ Dict.get (str_opt root_widget_id) (element_map st) = None.

(** The claim's words for the first case: a [root_widget_id] is supplied
    and is not an identifier of the cache. *)
Definition supplied_and_absent (root_widget_id : option string)
  (st : Process) : Prop :=
  exists id : string,
    root_widget_id = Some id /\ Dict.get id (element_map st) = None.

(** The keys of the dictionary [get_properties] returns, in its order. *)
Definition property_names : list string :=
  ["name"; "visible"; "enabled"; "height"; "width"; "as_string"; "as_int";
   "as_float"; "as_bool"; "get_type"; "collapsed"; "slider_range"; "center";
   "text"; "selected"; "checked"; "dock"; "value"; "canvas";
   "screen_position_x"; "screen_position_y"; "path"; "real_path"; "position";
   "size"].

(** The elements the locator matches: below the cached root widget when
    [root_widget_id] is given, in the whole UI otherwise. *)
Definition searched (locator : string) (root_widget_id : option string)
  (st : Process) : list Ref :=
  if truthy_str root_widget_id then
    match Dict.get (str_opt root_widget_id) (element_map st) with
    | Some root_widget => widget_find_all h root_widget locator
    | None => []
    end
  else ui_test_find_all h locator.

(** The root widget the messages name. *)
Definition root_of (root_widget_id : option string) (st : Process)
  : option Ref :=
  if truthy_str root_widget_id
  then Dict.get (str_opt root_widget_id) (element_map st)
  else None.

(** The process after [add_element] on each element in turn. *)
Definition add_all (exists_check : bool) (elements : list Ref) (st : Process)
  : Process :=
  fold_left
    (fun s element => snd (ElementCache.add_element h element exists_check s))
    elements st.

(** The identifiers these calls return. *)
Fixpoint ids_of (exists_check : bool) (elements : list Ref) (st : Process)
  : list string :=
  match elements with
  | [] => []
  | element :: rest =>
      let r := ElementCache.add_element h element exists_check st in
      fst r :: ids_of exists_check rest (snd r)
  end.

End Notions.

(** The answer is an [HTTPException] with status 404. *)
Definition is_404 {A : Type} (r : Result A) : Prop :=
  exists detail : Detail, r = Raise (HTTPException HTTP_404_NOT_FOUND detail).

(** An endpoint answers 404, and leaves the process as it was, whenever the
    identifier its request carries is not in the cache. *)
Definition translates_missing_lookup {Req : Type}
  (endpoint : Req -> M Response) (id_of : Req -> string) : Prop :=
  forall (request : Req) (st : Process),
    Dict.get (id_of request) (element_map st) = None ->
    is_404 (fst (endpoint request st)) /\ snd (endpoint request st) = st.

(** An endpoint written against the lookup [lookup] answers 404, and leaves
    the process as it was, whenever [lookup] raises [KeyError] at the
    identifier its request carries. *)
Definition translates_KeyError {Req : Type} (lookup : string -> M Ref)
  (endpoint : Req -> M Response) (id_of : Req -> string) : Prop :=
  forall (request : Req) (st : Process),
    lookup (id_of request) st = (Raise KeyError, st) ->
    is_404 (fst (endpoint request st)) /\ snd (endpoint request st) = st.

(** ** A concrete host, for examples *)
Module Demo.

Definition uuid4 (n : nat) : string :=
  "uuid-" ++ NilEmpty.string_of_uint (Nat.to_uint n).

(** Widgets sit at their index below the frame of the window [Stage]; a
    window's realpath is its title. *)
Definition realpath_of (w : Handle) (p : string) : string :=
  match w with
  | Widget n =>
      "Stage//Frame/Button[" ++ NilEmpty.string_of_uint (Nat.to_uint n) ++ "]"
  | WindowHandle _ => p
  end.

Definition button (n : nat) (found_with : string) : Ref :=
  {| type_of := TWidgetRef; widget := Widget n; path := found_with |}.

Definition stage_window : Ref :=
  {| type_of := TWindowRef; widget := WindowHandle 0; path := "Stage" |}.

Definition ui_test_find_all (locator : string) : list Ref :=
  if String.eqb locator "Stage" then [stage_window]
  else if String.eqb locator "Stage//Frame/Button[0]"
  then [button 0 locator]
  else if String.eqb locator "Stage//Frame/**/Button[*]"
  then map (fun n => button n locator) (seq 0 50)
  else if String.eqb locator "Stage//Frame/HStack[0]/Button[*]"
  then [button 0 locator; button 1 locator]
  else [].

Definition class_name (w : Handle) : string :=
  match w with
  | Widget _ => "Button"
  | WindowHandle _ => "Window"
  end.

Definition str_type (w : Handle) : string :=
  match w with
  | Widget _ => "<class 'omni.ui._ui.Button'>"
  | WindowHandle _ => "<class 'omni.ui._ui.Window'>"
  end.

(** What the reads give on a button: it has no model, no range and nothing
    to collapse or call. *)
Definition button_attributes : Dict.t PyValue :=
  [("widget.name", VStr "");
   ("widget.enabled", VBool true);
   ("widget.computed_width", VNum "80.0");
   ("widget.computed_content_height", VNum "24.0");
   ("widget.text", VStr "OK");
   ("widget.selected", VBool false);
   ("widget.checked", VBool false);
   ("position + size / 2", VVec2 (VNum "50.0") (VNum "32.0"));
   ("window.docked", VBool true);
   ("window.dock_order", VNum "0");
   ("window.dock_id", VNum "1");
   ("widget.screen_position_x", VNum "10.0");
   ("widget.screen_position_y", VNum "20.0");
   ("position.to_tuple()", VTuple [VNum "10.0"; VNum "20.0"]);
   ("size.to_tuple()", VTuple [VNum "80.0"; VNum "24.0"])].

(** What they give on a window. *)
Definition window_attributes : Dict.t PyValue :=
  [("window.width", VNum "400.0");
   ("window.height", VNum "600.0");
   ("position + size / 2", VVec2 (VNum "200.0") (VNum "300.0"));
   ("window.docked", VBool true);
   ("window.dock_order", VNum "0");
   ("window.dock_id", VNum "1");
   ("position.to_tuple()", VTuple [VNum "0.0"; VNum "0.0"]);
   ("size.to_tuple()", VTuple [VNum "400.0"; VNum "600.0"])].

Definition attribute (w : Handle) (p expr : string) : option PyValue :=
  match w with
  | Widget _ => Dict.get expr button_attributes
  | WindowHandle _ => Dict.get expr window_attributes
  end.

Definition unguarded (w : Handle) (expr : string) : PyValue :=
  if String.eqb expr "widget.visible" then VBool true else VNone.

Definition host : Host :=
  Build_Host uuid4 realpath_of ui_test_find_all
    (fun _ _ => []) class_name str_type (fun _ => false) attribute unguarded
    (fun _ _ => "").

(** The properties of the window [Stage] on this host. *)
Definition stage_window_properties : Properties :=
  [("name", VStr "The 'name' not found on the Window at path Stage.");
   ("visible", VBool true);
   ("enabled", VStr "The 'enabled' not found on the Window at path Stage.");
   ("height", VNum "600.0");
   ("width", VNum "400.0");
   ("as_string",
    VStr "The 'as_string' attribute requires 'model' attribute to be present which is not found on the Window at path Stage.");
   ("as_int",
    VStr "The 'as_int' attribute requires 'model' attribute to be present which is not found on the Window at path Stage.");
   ("as_float",
    VStr "The 'as_float' attribute requires 'model' attribute to be present which is not found on the Window at path Stage.");
   ("as_bool",
    VStr "The 'as_bool' attribute requires 'model' attribute to be present which is not found on the Window at path Stage.");
   ("get_type", VStr "Window");
   ("collapsed",
    VStr "The 'collapsed' attribute is not found on the Window at path Stage.");
   ("slider_range",
    VStr "The 'min, max' attributes are not found on the Window at path Stage.");
   ("center", VTuple [VNum "200.0"; VNum "300.0"]);
   ("text",
    VStr "The 'as_string' attribute requires 'model' attribute to be present which is not found on the Window at path Stage.");
   ("selected",
    VStr "The 'as_bool' attribute requires 'model' attribute to be present which is not found on the Window at path Stage.");
   ("checked",
    VStr "The 'as_bool' attribute requires 'model' attribute to be present which is not found on the Window at path Stage.");
   ("dock", VTuple [VBool true; VNum "0"; VNum "1"]);
   ("value",
    VStr "The 'value' attribute is not found on the Window at path Stage.");
   ("canvas",
    VStr "The 'canvas properties' attribute is not found on the Window at path Stage.");
   ("screen_position_x",
    VStr "The 'screen_position_x' attribute is not found on the Window at path Stage.");
   ("screen_position_y",
    VStr "The 'screen_position_y' attribute is not found on the Window at path Stage.");
   ("path", VStr "Stage");
   ("real_path", VStr "Stage");
   ("position", VTuple [VNum "0.0"; VNum "0.0"]);
   ("size", VTuple [VNum "400.0"; VNum "600.0"])].

(** The cache after [find_element] located the first button once. *)
Definition one_button : Process :=
  snd (ElementCache.add_element host (button 0 "Stage//Frame/Button[0]") true
         ElementCache.init).

End Demo.

(** ** More of Python's [str] *)

(** [s.split(c)] for a one-character separator: the pieces between the
    occurrences of [c], at least one. *)
Fixpoint split_on (c : ascii) (s : string) : list string :=
  match s with
  | EmptyString => [EmptyString]
  | String a rest =>
      if Ascii.eqb a c then EmptyString :: split_on c rest
      else match split_on c rest with
           | piece :: pieces => String a piece :: pieces
           | [] => [String a EmptyString]
           end
  end.

(** [s.replace(old, new)], for a non-empty [old]: occurrences are found left
    to right and do not overlap.  [skip] counts the characters of an
    occurrence still to drop. *)
Fixpoint replace_from (skip : nat) (old new s : string) : string :=
  match s with
  | EmptyString => EmptyString
  | String a rest =>
      match skip with
      | S n => replace_from n old new rest
      | O =>
          if String.prefix old s
          then new ++ replace_from (String.length old - 1) old new rest
          else String a (replace_from 0 old new rest)
      end
  end.

Definition replace (old new s : string) : string := replace_from 0 old new s.

(** ** [update_cached_elements_after_scroll] of [kit_control/endpoints/mouse.py] *)
Module ScrollRefresh.
Section WithHost.
Context (h : Host).
(** [cached_element.realpath is not None] and
    [isinstance(cached_element.widget, ui.ComboBox)], as the toolkit answers
    them. *)
Variable has_realpath : Ref -> bool.
Variable is_ComboBox : Handle -> bool.

(** [path.split("/")[0]] *)
Definition window_of (p : string) : string := hd EmptyString (split_on "/"%char p).

(** What the [try] and its [except] bind the identifier to, [None] when they
    leave it alone: the first element the search finds, the search being by
    the realpath with [Frame[0]] widened (by the path, for a combo box), and
    again by the path when that finds nothing. *)
Definition relocated (cached_element : Ref) : option Ref :=
  let found :=
    if is_ComboBox (widget cached_element)
    then ui_test_find_all h (path cached_element)
    else ui_test_find_all h
           (replace "Frame[0]" "Frame[*]" (realpath h cached_element)) in
  match found with
  | first :: _ => Some (OmniElement first)
  | [] =>
      match ui_test_find_all h (path cached_element) with
      | first :: _ => Some (OmniElement first)
      | [] => None
      end
  end.

(** One round of the loop, on the map as it stands. *)
Definition refresh_entry (scroll_window : string) (element_map : Dict.t Ref)
  (entry : string * Ref) : Dict.t Ref :=
  let (element_key, cached_element) := entry in
  if String.eqb (window_of (path cached_element)) scroll_window
     && has_realpath cached_element
  then match relocated cached_element with
       | Some element => Dict.set element_key element element_map
       | None => element_map
       end
  else element_map.

(** The loop runs over the items of the map it updates; it binds only the
    key it is visiting, so each round sees the value its key had at the
    start. *)
Definition update_cached_elements_after_scroll (element : Ref)
  (element_map : Dict.t Ref) : Dict.t Ref :=
  let scroll_window := window_of (path element) in
  fold_left (refresh_entry scroll_window) (Dict.items element_map) element_map.

(** The same, as a step on the process. *)
Definition update_cache (element : Ref) (st : Process) : Process :=
  {| element_map := update_cached_elements_after_scroll element (element_map st);
     uuid_calls := uuid_calls st |}.

End WithHost.
End ScrollRefresh.

(** ** The responses of [find_elements], said without the monad *)
Section Responses.
Context (h : Host).

(** The response of one round, from the identifier [add_element] returned
    and the process it left. *)
Definition round_response (locator : string) (root_widget : option Ref)
  (with_properties : bool) (identifier : string) (st : Process)
  : FindElementResponse :=
  {| element_id := Some identifier;
     message := Query.find_elements_message locator root_widget identifier;
     properties :=
       if with_properties
       then match Dict.get identifier (element_map st) with
            | Some cached => Some (get_properties h cached)
            | None => None
            end
       else None |}.

Fixpoint responses_of (locator : string) (root_widget : option Ref)
  (with_properties exists_check : bool) (elements : list Ref) (st : Process)
  : list FindElementResponse :=
  match elements with
  | [] => []
  | element :: rest =>
      let r := ElementCache.add_element h element exists_check st in
      round_response locator root_widget with_properties (fst r) (snd r)
        :: responses_of locator root_widget with_properties exists_check
             rest (snd r)
  end.

End Responses.

(** ** Calls into the host, with a record of what was called *)

From Stdlib Require Import ZArith Permutation.

(** A computation that calls the host: the calls it made, in order, and what
    it returned or raised.  A call that raises is in the record too. *)
Definition Eff (E A : Type) : Type := list E * Result A.

Definition eret {E A : Type} (a : A) : Eff E A := ([], Ok a).

Definition eraise {E A : Type} (e : exn) : Eff E A := ([], Raise e).

Definition ebind {E A B : Type} (m : Eff E A) (f : A -> Eff E B) : Eff E B :=
  match m with
  | (calls, Ok a) => let (calls', r) := f a in (calls ++ calls', r)
  | (calls, Raise e) => (calls, Raise e)
  end.

Definition etry {E A : Type} (m : Eff E A) (handler : exn -> Eff E A)
  : Eff E A :=
  match m with
  | (calls, Ok a) => (calls, Ok a)
  | (calls, Raise e) => let (calls', r) := handler e in (calls ++ calls', r)
  end.

(** One call, with the outcome the host gives it. *)
Definition call {E A : Type} (event : E) (outcome : Result A) : Eff E A :=
  ([event], outcome).

Declare Scope eff_scope.
Delimit Scope eff_scope with eff.
Notation "x <- m ;; k" := (ebind m (fun x => k))
  (at level 61, m at next level, right associativity) : eff_scope.
Notation "m ;;; k" := (ebind m (fun _ => k))
  (at level 61, right associativity) : eff_scope.

(** ** [endpoints/keyboard.py]: key presses *)
Module KeyPressRequest.
Record t : Type := mk {
  combo : string;
  hold : bool;
  release : bool;
  hold_duration : Z
}.
End KeyPressRequest.

Module Keyboard.

(** The two members of [carb.input.KeyboardEventType] the code uses. *)
Inductive KeyboardEventType : Type :=
| KEY_PRESS
| KEY_RELEASE.

Section WithHost.
Context (h : Host).
(** [carb.input.KeyboardInput] and the lookup [KeyboardInput.__members__.get]. *)
Variable KeyboardInput : Type.
Variable members : string -> option KeyboardInput.
(** Whether the toolkit's [emulate_keyboard] and [emulate_key_combo] return
    or raise. *)
Variable keyboard_outcome : KeyboardEventType -> KeyboardInput -> Result unit.
Variable key_combo_outcome : string -> Result unit.
(** Python's [str.strip], [str.upper], [len] and [str.isalnum]. *)
Variable strip : string -> string.
Variable upper : string -> string.
Variable len : string -> nat.
Variable isalnum : string -> bool.

Inductive Event : Type :=
| emulate_keyboard (event_type : KeyboardEventType) (key : KeyboardInput)
| sleep (seconds : Z)
| emulate_key_combo (key_combo : string).

Local Open Scope eff_scope.

Definition send_key_press (key : KeyboardInput) (hold release : bool)
  (hold_duration : Z) : Eff Event unit :=
  if hold && release then
    eraise (RuntimeError "Both `hold` and `release` cannot be True.")
  else if hold then
    call (emulate_keyboard KEY_PRESS key) (keyboard_outcome KEY_PRESS key)
  else if release then
    call (emulate_keyboard KEY_RELEASE key) (keyboard_outcome KEY_RELEASE key)
  else
    call (emulate_keyboard KEY_PRESS key) (keyboard_outcome KEY_PRESS key) ;;;
    call (sleep hold_duration) (Ok tt) ;;;
    call (emulate_keyboard KEY_PRESS key) (keyboard_outcome KEY_PRESS key).

(** The [for key in keys] loop of [key_events]. *)
Fixpoint press_keys (keys : list string) (hold release : bool)
  (hold_duration : Z) : Eff Event unit :=
  match keys with
  | [] => eret tt
  | key :: rest =>
      match members key with
      | None => eraise (RuntimeError ("Invalid key: " ++ key))
      | Some input_button =>
          send_key_press input_button hold release hold_duration ;;;
          press_keys rest hold release hold_duration
      end
  end.

Definition key_events (request : KeyPressRequest.t) : Eff Event Response :=
  let combo := KeyPressRequest.combo request in
  etry
    (press_keys (split_on "+"%char combo) (KeyPressRequest.hold request)
       (KeyPressRequest.release request)
       (KeyPressRequest.hold_duration request) ;;;
     eret (MessageResponse ("Key combo '" ++ combo ++ "' pressed.")))
    (fun e =>
       eraise (HTTPException HTTP_500_INTERNAL_SERVER_ERROR
                 (Text ("Failed to press key combo " ++ combo ++ " due to "
                          ++ str_exn h e ++ ".")))).

(** *** [send_key_combo] of the sample extension *)

Definition valid_modifiers : list string :=
  ["CTRL"; "SHIFT"; "ALT"; "META"; "CMD"].

Definition LOG_KEY_COMBO_FAILED : string := "Failed to press key combo".

Definition in_list (s : string) (l : list string) : bool :=
  existsb (String.eqb s) l.

(** [key in valid_keys] *)
Definition is_member (key : string) : bool :=
  match members key with
  | Some _ => true
  | None => false
  end.

(** The validation loop: it returns, or raises the 400 for the first key it
    does not let pass. *)
Fixpoint validate_keys (key_combo : string) (keys : list string)
  : Eff Event unit :=
  match keys with
  | [] => eret tt
  | raw :: rest =>
      let key := upper (strip raw) in
      if negb (is_member key) && negb (in_list key valid_modifiers) then
        if Nat.eqb (len key) 1 && negb (isalnum key) then
          validate_keys key_combo rest
        else if Nat.eqb (len key) 1 && isalnum key then
          validate_keys key_combo rest
        else
          eraise (HTTPException 400
                    (Text ("Invalid key '" ++ key ++ "' in key combo '"
                             ++ key_combo
                             ++ "'. Use the key_bindings API to get valid keys.")))
      else validate_keys key_combo rest
  end.

Definition send_key_combo (key_combo : string) : Eff Event Response :=
  validate_keys key_combo (split_on "+"%char key_combo) ;;;
  etry
    (call (emulate_key_combo key_combo) (key_combo_outcome key_combo) ;;;
     eret (MessageResponse ("Key combo '" ++ key_combo ++ "' pressed.")))
    (fun e =>
       eraise (HTTPException HTTP_500_INTERNAL_SERVER_ERROR
                 (Text (LOG_KEY_COMBO_FAILED ++ ": " ++ key_combo
                          ++ ". Error: " ++ str_exn h e)))).

End WithHost.
Arguments send_key_press {KeyboardInput} keyboard_outcome key hold release
  hold_duration.
Arguments press_keys {KeyboardInput} members keyboard_outcome keys hold release
  hold_duration.
Arguments key_events h {KeyboardInput} members keyboard_outcome request.
Arguments is_member {KeyboardInput} members key.
Arguments validate_keys {KeyboardInput} members strip upper len isalnum
  key_combo keys.
Arguments send_key_combo h {KeyboardInput} members key_combo_outcome strip
  upper len isalnum key_combo.
Arguments emulate_keyboard {KeyboardInput} event_type key.
Arguments sleep {KeyboardInput} seconds.
Arguments emulate_key_combo {KeyboardInput} key_combo.
End Keyboard.

(** ** [kit_control/endpoints/mouse.py]: mouse buttons *)
Module Mouse.

(** The members of [carb.input.MouseEventType] the code uses. *)
Inductive MouseEventType : Type :=
| MOVE
| LEFT_BUTTON_DOWN
| LEFT_BUTTON_UP
| RIGHT_BUTTON_DOWN
| RIGHT_BUTTON_UP.

Section WithHost.
(** Python's [float], which the code only passes on and prints. *)
Variable float : Type.
Variable str_float : float -> string.
(** Whether the toolkit's [emulate_mouse] returns or raises. *)
Variable mouse_outcome : MouseEventType -> option (float * float) -> Result unit.

Inductive Event : Type :=
| emulate_mouse (event_type : MouseEventType) (pos : option (float * float))
| human_delay (frames : nat).

(** [ClickHold] of [api_models/mouse_models.py]. *)
Record ClickHold : Type := mkClickHold {
  x : float;
  y : float;
  right : bool;
  hold : bool;
  release : bool
}.

Local Open Scope eff_scope.

Definition send_mouse_event (hold release : bool) (x y : float)
  (mouse_down mouse_up : MouseEventType) : Eff Event unit :=
  if hold && release then
    eraise (RuntimeError "Both `hold` and `release` cannot be True.")
  else if hold then
    call (emulate_mouse MOVE (Some (x, y))) (mouse_outcome MOVE (Some (x, y))) ;;;
    call (emulate_mouse mouse_down None) (mouse_outcome mouse_down None)
  else if release then
    call (emulate_mouse mouse_up None) (mouse_outcome mouse_up None)
  else
    call (emulate_mouse MOVE (Some (x, y))) (mouse_outcome MOVE (Some (x, y))) ;;;
    call (emulate_mouse mouse_down None) (mouse_outcome mouse_down None) ;;;
    call (human_delay 5) (Ok tt) ;;;
    call (emulate_mouse mouse_up None) (mouse_outcome mouse_up None).

Definition send_mouse_events (request : ClickHold) : Eff Event Response :=
  etry
    ((if right request then
        send_mouse_event (hold request) (release request) (x request)
          (y request) RIGHT_BUTTON_DOWN RIGHT_BUTTON_UP
      else
        send_mouse_event (hold request) (release request) (x request)
          (y request) LEFT_BUTTON_DOWN LEFT_BUTTON_UP) ;;;
     eret (MessageResponse
             ("Mouse Press Operation Performed - X:" ++ str_float (x request)
                ++ ", Y:" ++ str_float (y request)
                ++ ", Release:" ++ str_bool (release request)
                ++ ", Hold:" ++ str_bool (hold request))))
    (fun _ =>
       eraise (HTTPException HTTP_500_INTERNAL_SERVER_ERROR
                 (Text "Internal Server Error"))).

End WithHost.
Arguments send_mouse_event {float} mouse_outcome hold release x y mouse_down
  mouse_up.
Arguments send_mouse_events {float} str_float mouse_outcome request.
Arguments mkClickHold {float} x y right hold release.
Arguments x {float} c.
Arguments y {float} c.
Arguments right {float} c.
Arguments hold {float} c.
Arguments release {float} c.
Arguments emulate_mouse {float} event_type pos.
Arguments human_delay {float} frames.
End Mouse.

(** ** [close_window] of the sample extension's [endpoints/window.py] *)
Module CloseWindow.

(** A window of the workspace, as [ui.Workspace.get_windows()] lists it:
    which object it is, its title, whether it is visible. *)
Record Window : Type := mkWindow {
  handle : nat;
  title : string;
  visible : bool
}.

Definition LOG_WINDOW_NOT_FOUND : string := "Failed to find visible window".
Definition LOG_WINDOW_CLOSE_ERROR : string :=
  "Error occurred while closing window".

(** [window.visible = False], on the object [window] is. *)
Definition hide (window : Window) (windows : list Window) : list Window :=
  map (fun w =>
         if Nat.eqb (handle w) (handle window)
         then {| handle := handle w; title := title w; visible := false |}
         else w)
      windows.

(** The window the [try] settles on: the only one with the title, or else
    the first visible one with the title. *)
Definition chosen (window_name : string) (windows : list Window)
  : option Window :=
  let window_list :=
    filter (fun window => String.eqb (title window) window_name) windows in
  if Nat.eqb (List.length window_list) 1 then hd_error window_list
  else find visible window_list.

(** The body of the [try]: it raises the 404 of a window not found itself. *)
Definition close_window_try (window_name : string) (windows : list Window)
  : Result Response * list Window :=
  match chosen window_name windows with
  | Some window =>
      (Ok (MessageResponse (window_name ++ " window closed.")),
       hide window windows)
  | None =>
      (Raise (HTTPException HTTP_404_NOT_FOUND
                (Text (LOG_WINDOW_NOT_FOUND ++ ": " ++ window_name))),
       windows)
  end.

(** [except Exception] catches that 404 like any other exception. *)
Definition close_window (window_name : string) (windows : list Window)
  : Result Response * list Window :=
  match close_window_try window_name windows with
  | (Ok response, windows') => (Ok response, windows')
  | (Raise _, windows') =>
      (Raise (HTTPException HTTP_404_NOT_FOUND
                (Text (LOG_WINDOW_CLOSE_ERROR ++ ": " ++ window_name))),
       windows')
  end.

End CloseWindow.

(** ** [dock_window] of the sample extension's [endpoints/window.py] *)
Module DockWindowRequest.
Record t : Type := mk {
  first_window : string;
  second_window : string;
  dock_position : string
}.
End DockWindowRequest.

Module DockWindow.
Section WithHost.
(** [ui.Workspace.get_window], the table [ui.DockPosition.__members__], and
    Python's [str.upper]. *)
Variable WindowHandle : Type.
Variable DockPosition : Type.
Variable get_window : string -> option WindowHandle.
Variable DockPosition_members : Dict.t DockPosition.
Variable upper : string -> string.

Inductive Event : Type :=
| dock_in (window target : WindowHandle) (position : DockPosition).

(** The [errors] list when the three checks are through. *)
Definition errors_of (request : DockWindowRequest.t)
  (win_to_be_docked win_to_dock_into : option WindowHandle)
  (dock_position : option DockPosition) : list string :=
  (match win_to_be_docked with
   | None =>
       [("first_window '" ++ DockWindowRequest.first_window request
          ++ "' not found")%string]
   | Some _ => []
   end)
  ++ (match win_to_dock_into with
      | None =>
          [("second_window '" ++ DockWindowRequest.second_window request
             ++ "' not found")%string]
      | Some _ => []
      end)
  ++ (match dock_position with
      | None =>
          [("dock_position '" ++ DockWindowRequest.dock_position request
             ++ "' is invalid (valid positions: "
             ++ String.concat ", " (Dict.keys DockPosition_members) ++ ")")%string]
      | Some _ => []
      end).

(** The [valid_info] list. *)
Definition valid_info_of (request : DockWindowRequest.t)
  (win_to_be_docked win_to_dock_into : option WindowHandle)
  (dock_position : option DockPosition) : list string :=
  (match win_to_be_docked with
   | None => []
   | Some _ =>
       [("first_window '" ++ DockWindowRequest.first_window request
          ++ "' is valid")%string]
   end)
  ++ (match win_to_dock_into with
      | None => []
      | Some _ =>
          [("second_window '" ++ DockWindowRequest.second_window request
             ++ "' is valid")%string]
      end)
  ++ (match dock_position with
      | None => []
      | Some _ =>
          [("dock_position '" ++ DockWindowRequest.dock_position request
             ++ "' is valid")%string]
      end).

Definition dock_window (request : DockWindowRequest.t) : Eff Event Response :=
  let win_to_be_docked := get_window (DockWindowRequest.first_window request) in
  let win_to_dock_into := get_window (DockWindowRequest.second_window request) in
  let dock_position :=
    Dict.get (upper (DockWindowRequest.dock_position request))
      DockPosition_members in
  let errors :=
    errors_of request win_to_be_docked win_to_dock_into dock_position in
  let valid_info :=
    valid_info_of request win_to_be_docked win_to_dock_into dock_position in
  match errors with
  | _ :: _ =>
      let error_msg := ("Bad request - " ++ String.concat "; " errors)%string in
      let error_msg :=
        match valid_info with
        | _ :: _ =>
            (error_msg ++ ". Valid parameters: "
               ++ String.concat "; " valid_info)%string
        | [] => error_msg
        end in
      eraise (HTTPException 400 (Text error_msg))
  | [] =>
      match win_to_be_docked, win_to_dock_into, dock_position with
      | Some window, Some target, Some position =>
          ebind (call (dock_in window target position) (Ok tt))
            (fun _ =>
               eret (MessageResponse
                       (DockWindowRequest.first_window request
                          ++ " docked into "
                          ++ DockWindowRequest.second_window request
                          ++ " with dock position as "
                          ++ DockWindowRequest.dock_position request)%string))
      | _, _, _ =>
          (* not reached: an absent window or position is an error above *)
          eraise (RuntimeError "'NoneType' object has no attribute 'dock_in'")
      end
  end.

End WithHost.
Arguments dock_in {WindowHandle DockPosition} window target position.
Arguments dock_window {WindowHandle DockPosition} get_window
  DockPosition_members upper request.
Arguments errors_of {WindowHandle DockPosition} DockPosition_members request
  win_to_be_docked win_to_dock_into dock_position.
Arguments valid_info_of {WindowHandle DockPosition} request
  win_to_be_docked win_to_dock_into dock_position.
End DockWindow.

(** ** [get_visible_prims] and [get_invisible_prims] of [utils/usd_helper.py] *)
Module UsdHelper.
Section WithHost.
(** A prim of the stage, [UsdGeom.Imageable(prim).ComputeVisibility()] as a
    token, [str(prim.GetPath())], and the token [UsdGeom.Tokens.invisible]. *)
Variable Prim : Type.
Variable ComputeVisibility : Prim -> string.
Variable GetPath : Prim -> string.
Variable invisible : string.

(** [stage] is [stage.Traverse()], the prims in traversal order. *)
Definition get_visible_prims (stage : list Prim) : list string :=
  map GetPath
    (filter (fun prim => negb (String.eqb (ComputeVisibility prim) invisible))
       stage).

Definition get_invisible_prims (stage : list Prim) : list string :=
  map GetPath
    (filter (fun prim => String.eqb (ComputeVisibility prim) invisible) stage).

End WithHost.
End UsdHelper.

(** ** The body of [select_combobox_item] of [endpoints/widget.py] *)
Module ComboBox.

(** [str] of a Python [int]. *)
Definition str_int (i : Z) : string := NilEmpty.string_of_int (Z.to_int i).

(** [str] of an [Optional[int]]. *)
Definition str_opt_int (o : option Z) : string :=
  match o with
  | Some i => str_int i
  | None => "None"
  end.

(** [l[i]]: a negative index counts from the end, [IndexError] otherwise. *)
Definition py_index {A : Type} (l : list A) (i : Z) : option A :=
  let len := Z.of_nat (List.length l) in
  if (0 <=? i)%Z then nth_error l (Z.to_nat i)
  else if (- len <=? i)%Z then nth_error l (Z.to_nat (len + i))
  else None.

Section WithHost.
(** An item of the model, its [get_item_value_model(item=value,
    column_id=None).as_string] and its [get_item_value_model(item, 0).as_string];
    how the assignment of the index (with its two fallbacks) ends. *)
Variable Item : Type.
Variable name_of : Item -> string.
Variable value_of : Item -> string.
Variable set_index_outcome : Z -> Result unit.

Inductive Event : Type :=
| set_index (as_int : Z).

(** [next((i for i, value in enumerate(string_items) if request.name == ...),
    len(string_items))], counting from [i]. *)
Fixpoint next_index (name : option string) (string_items : list Item)
  (i : nat) : nat :=
  match string_items with
  | [] => i
  | value :: rest =>
      match name with
      | Some n =>
          if String.eqb n (name_of value) then i
          else next_index name rest (S i)
      | None => next_index name rest (S i)
      end
  end.

Local Open Scope eff_scope.

Definition select_item (index : option Z) (name : option string)
  (combobox_model : option (list Item)) : Eff Event Response :=
  match combobox_model with
  | None =>
      eraise (HTTPException HTTP_404_NOT_FOUND
                (Text "Unable to fetch combobox model not found"))
  | Some string_items =>
      let str_index :=
        match index with
        | Some i => i
        | None => Z.of_nat (next_index name string_items 0)
        end in
      if (Z.of_nat (List.length string_items) <=? str_index)%Z then
        eraise (HTTPException HTTP_404_NOT_FOUND
                  (Text ("Item with name " ++ str_opt name ++ " and index "
                           ++ str_opt_int index
                           ++ " not present in combobox.")))
      else
        call (set_index str_index) (set_index_outcome str_index) ;;;
        match py_index string_items str_index with
        | None => eraise (RuntimeError "list index out of range")
        | Some item =>
            eret (MessageResponse
                    ("Selected item at index " ++ str_int str_index
                       ++ " with value " ++ value_of item ++ "."))
        end
  end.

End WithHost.
Arguments select_item {Item} name_of value_of set_index_outcome index name
  combobox_model.
Arguments next_index {Item} name_of name string_items i.
End ComboBox.

(** ** [find_context_menu_item] of [endpoints/query.py] *)
Module ContextMenu.

(** Strings are the UTF-8 bytes of the Python text: a character outside
    [\x00-\x7F] is a run of bytes with the high bit set, and no such byte
    occurs in a character inside that range. *)
Definition is_ascii (c : ascii) : bool :=
  match c with
  | Ascii _ _ _ _ _ _ _ b7 => negb b7
  end.

(** [re.sub(r"[^\x00-\x7F]+", " ", text)]: [in_run] says that the bytes just
    before belong to a run already replaced. *)
Fixpoint sub_non_ascii (in_run : bool) (text : string) : string :=
  match text with
  | EmptyString => EmptyString
  | String c rest =>
      if is_ascii c then String c (sub_non_ascii false rest)
      else if in_run then sub_non_ascii true rest
      else String " " (sub_non_ascii true rest)
  end.

(** [str.isspace] on a character of [\x00-\x7F]. *)
Definition isspace (c : ascii) : bool :=
  let n := nat_of_ascii c in
  (Nat.leb 9 n && Nat.leb n 13) || (Nat.leb 28 n && Nat.leb n 32).

Fixpoint lstrip (s : string) : string :=
  match s with
  | EmptyString => EmptyString
  | String c rest => if isspace c then lstrip rest else s
  end.

Definition clean (text : string) : string := lstrip (sub_non_ascii false text).

Section WithHost.
(** A widget of the menu tree, [ui.Inspector.get_children], the test
    [isinstance(_, ui.MenuItem) or isinstance(_, ui.Menu)], and [.text]. *)
Variable MenuWidget : Type.
Variable get_children : MenuWidget -> list MenuWidget.
Variable is_menu : MenuWidget -> bool.
Variable text : MenuWidget -> string.

Definition find_menu_item (query : string) (menu_root : MenuWidget)
  : option MenuWidget :=
  find (fun menu_item =>
          is_menu menu_item && String.eqb query (clean (text menu_item)))
       (get_children menu_root).

(** The loop over [tokens], from [child]. *)
Fixpoint descend (tokens : list string) (child : MenuWidget)
  : option MenuWidget :=
  match tokens with
  | [] => Some child
  | token :: rest =>
      match find_menu_item token child with
      | Some child' => descend rest child'
      | None => None
      end
  end.

Definition find_context_menu_item (query : string) (menu_root : MenuWidget)
  : option MenuWidget :=
  descend (split_on "/" query) menu_root.

End WithHost.
End ContextMenu.

(** ** Notions the further statements use *)

(** The process [t] has the entries of [s], in their order, and maybe more
    after them. *)
Definition extends (s t : Process) : Prop :=
  exists more, element_map t = element_map s ++ more.

Section ScrollNotions.
Import ScrollRefresh.
Context (h : Host).
Variable has_realpath : Ref -> bool.
Variable is_ComboBox : Handle -> bool.

(** What a round binds its key to, [None] when it leaves the map alone. *)
Definition rebound (scroll_window : string) (cached_element : Ref) : option Ref :=
  if String.eqb (window_of (path cached_element)) scroll_window
     && has_realpath cached_element
  then relocated h is_ComboBox cached_element
  else None.

End ScrollNotions.

Section KeyboardNotions.
Import Keyboard.
Variable KeyboardInput : Type.
Variable members : string -> option KeyboardInput.
Variable keyboard_outcome : KeyboardEventType -> KeyboardInput -> Result unit.
Variable strip upper : string -> string.
Variable len : string -> nat.

(** The calls [send_key_press] makes for one key when the toolkit lets
    every call return. *)
Definition presses (hold release : bool) (hold_duration : Z)
  (key : KeyboardInput) : list (Event KeyboardInput) :=
  if hold then [emulate_keyboard KEY_PRESS key]
  else if release then [emulate_keyboard KEY_RELEASE key]
  else [emulate_keyboard KEY_PRESS key; sleep hold_duration;
        emulate_keyboard KEY_PRESS key].

Definition toolkit_returns : Prop :=
  forall event_type key, keyboard_outcome event_type key = Ok tt.

(** A piece of the combo passes the validation: stripped and upper-cased it
    is a member of [KeyboardInput], one of the modifier names, or a single
    character. *)
Definition key_passes (raw : string) : bool :=
  let key := upper (strip raw) in
  is_member members key || in_list key valid_modifiers || Nat.eqb (len key) 1.

End KeyboardNotions.

Section WindowNotions.
Import CloseWindow.

Definition titled (window_name : string) (windows : list Window)
  : list Window :=
  filter (fun window => String.eqb (title window) window_name) windows.

Definition hidden (window : Window) : Window :=
  {| handle := handle window; title := title window; visible := false |}.

End WindowNotions.

Section DockNotions.
Variable WindowHandle : Type.
Variable DockPosition : Type.
Variable get_window : string -> option WindowHandle.
Variable DockPosition_members : Dict.t DockPosition.
Variable upper : string -> string.

(** How many of the three parameters fail their check. *)
Definition failing (request : DockWindowRequest.t) : nat :=
  (match get_window (DockWindowRequest.first_window request) with
   | Some _ => 0
   | None => 1
   end)
  + (match get_window (DockWindowRequest.second_window request) with
     | Some _ => 0
     | None => 1
     end)
  + (match Dict.get (upper (DockWindowRequest.dock_position request))
             DockPosition_members with
     | Some _ => 0
     | None => 1
     end).

End DockNotions.

Section MenuNotions.
Import ContextMenu.

Definition ascii_only (s : string) : Prop :=
  Forall (fun c => is_ascii c = true) (list_ascii_of_string s).

Definition non_ascii_only (s : string) : Prop :=
  Forall (fun c => is_ascii c = false) (list_ascii_of_string s).

(** A name as a query can give it: it does not start with white space. *)
Definition no_leading_space (name : string) : Prop :=
  match name with
  | EmptyString => True
  | String c _ => isspace c = false
  end.

Variable MenuWidget : Type.
Variable get_children : MenuWidget -> list MenuWidget.
Variable is_menu : MenuWidget -> bool.
Variable text : MenuWidget -> string.

(** [item] is reached from [root] along [tokens]: each step goes to a child
    that is a menu or a menu item and whose cleaned text is the token. *)
Inductive reaches : list string -> MenuWidget -> MenuWidget -> Prop :=
| reaches_here (root : MenuWidget) : reaches [] root root
| reaches_step (token : string) (tokens : list string)
    (root child item : MenuWidget) :
    In child (get_children root) ->
    is_menu child = true ->
    clean (text child) = token ->
    reaches tokens child item ->
    reaches (token :: tokens) root item.

End MenuNotions.

(** ** Fixtures for the further statements *)

(** A keyboard with the keys CTRL and A. *)
Definition demo_members (key : string) : option string :=
  if String.eqb key "CTRL" then Some "CTRL"
  else if String.eqb key "A" then Some "A"
  else None.

Definition demo_keyboard_outcome (_ : Keyboard.KeyboardEventType)
  (_ : string) : Result unit := Ok tt.

(** A mouse whose positions are whole numbers and whose events all pass. *)
Definition demo_mouse_outcome (_ : Mouse.MouseEventType)
  (_ : option (nat * nat)) : Result unit := Ok tt.

Definition demo_str_float (x : nat) : string :=
  NilEmpty.string_of_uint (Nat.to_uint x).

(** A workspace with two windows titled Content, both visible. *)
Definition demo_windows : list CloseWindow.Window :=
  [CloseWindow.mkWindow 0 "Stage" false;
   CloseWindow.mkWindow 1 "Content" true;
   CloseWindow.mkWindow 2 "Content" true].

(** A combobox of three items, each with a name and a value; two share the
    name High. *)
Definition demo_items : list (string * string) :=
  [("Low", "0.25"); ("High", "0.75"); ("High", "1.0")].

Definition demo_set_index_outcome (_ : Z) : Result unit := Ok tt.

(** The three bytes of a star in UTF-8. *)
Definition demo_icon : string :=
  String (ascii_of_nat 226)
    (String (ascii_of_nat 152) (String (ascii_of_nat 133) EmptyString)).

(** A menu: under the root 0 the menus File (1) and Edit (2), under File the
    item Open (3) with an icon. *)
Definition demo_menu_children (w : nat) : list nat :=
  match w with
  | 0 => [1; 2]
  | 1 => [3]
  | _ => []
  end.

Definition demo_menu_text (w : nat) : string :=
  match w with
  | 1 => "File"
  | 2 => "Edit"
  | 3 => demo_icon ++ " Open"
  | _ => ""
  end.

(** ** The endpoints on the demo host *)

(** A window is located and cached beside the button already there. *)
Example find_element_caches_window :
  Query.find_element Demo.host (FindElementRequest.mk "Stage" None)
    Demo.one_button
  = (Ok (FoundElement
           {| element_id := Some "uuid-1";
              message :=
                "Element with locator 'Stage' found and cached with ID 'uuid-1'";
              properties := Some Demo.stage_window_properties |}),
     {| element_map :=
          [("uuid-0", OmniElement (Demo.button 0 "Stage//Frame/Button[0]"));
           ("uuid-1", OmniElement Demo.stage_window)];
        uuid_calls := 2 |}).
Proof. reflexivity. Qed.

(** An empty [root_widget_id] is no root widget: the whole UI is searched. *)
Example find_element_empty_root_id :
  Query.find_element Demo.host (FindElementRequest.mk "Stage" (Some ""))
    Demo.one_button
  = Query.find_element Demo.host (FindElementRequest.mk "Stage" None)
      Demo.one_button.
Proof. reflexivity. Qed.

Example find_element_unknown_root :
  Query.find_element Demo.host
    (FindElementRequest.mk "Button[0]" (Some "uuid-9")) Demo.one_button
  = (Raise (HTTPException 404 (Text "No root elements found with ID uuid-9")),
     Demo.one_button).
Proof. reflexivity. Qed.

Example find_element_no_match :
  Query.find_element Demo.host
    (FindElementRequest.mk "Viewport//Frame/Label[0]" None) Demo.one_button
  = (Raise (HTTPException 404
              (Text "No elements found with locator 'Viewport//Frame/Label[0]'")),
     Demo.one_button).
Proof. reflexivity. Qed.

(** Two buttons found by a wildcard: the first is in the cache already and
    keeps its identifier, the second gets a new one. *)
Example find_elements_reuses_identifier :
  fst (Query.find_elements Demo.host
         (FindElementsRequest.mk "Stage//Frame/HStack[0]/Button[*]" None false)
         Demo.one_button)
  = Ok (FindElementsResponse
          [ {| element_id := Some "uuid-0";
               message :=
                 "Element with locator 'Stage//Frame/HStack[0]/Button[*]' found and cached with ID 'uuid-0'";
               properties := None |};
            {| element_id := Some "uuid-1";
               message :=
                 "Element with locator 'Stage//Frame/HStack[0]/Button[*]' found and cached with ID 'uuid-1'";
               properties := None |} ]
          2).
Proof. reflexivity. Qed.

Example widget_properties_unknown_id :
  Query.widget_properties Demo.host "uuid-9" Demo.one_button
  = (Raise (HTTPException 404 (Text "No elements found with ID uuid-9")),
     Demo.one_button).
Proof. reflexivity. Qed.

(** [kit_control]'s [click] on this cache: a window cannot be clicked. *)
Example click_on_window :
  fst (KitControl.MouseEndpoints.click Demo.host
         ElementCache.get_cached_element (fun _ _ => ret tt)
         (ClickRequest.mk "uuid-1" None)
         (snd (ElementCache.add_element Demo.host Demo.stage_window true
                 Demo.one_button)))
  = Raise (HTTPException 500
             (Text "Clicking on OmniUI window is not valid, try clicking on a widget instead. Path of window: Stage")).
Proof. reflexivity. Qed.

(** * Properties *)

(** ** The dictionary *)
Module DictFacts.
Section Facts.
Context {V : Type}.
Implicit Types (d : Dict.t V) (k : string) (v : V).

Lemma get_set_same k v d : Dict.get k (Dict.set k v d) = Some v.
Proof.
  induction d as [|[k' v'] rest IH]; simpl.
  - now rewrite String.eqb_refl.
  - destruct (String.eqb k k') eqn:E; simpl.
    + now rewrite String.eqb_refl.
    + now rewrite E.
Qed.

Lemma get_set_other k k' v d :
  k <> k' -> Dict.get k' (Dict.set k v d) = Dict.get k' d.
Proof.
  intros Hne. induction d as [|[k0 v0] rest IH]; simpl.
  - destruct (String.eqb k' k) eqn:E; [|reflexivity].
    apply String.eqb_eq in E. congruence.
  - destruct (String.eqb k k0) eqn:E; simpl.
    + apply String.eqb_eq in E. subst k0.
      destruct (String.eqb k' k) eqn:E'; [|reflexivity].
      apply String.eqb_eq in E'. congruence.
    + destruct (String.eqb k' k0); [reflexivity|exact IH].
Qed.

Lemma get_None_keys k d : Dict.get k d = None <-> ~ In k (Dict.keys d).
Proof.
  induction d as [|[k' v'] rest IH]; simpl.
  - split; [intros _ []|reflexivity].
  - destruct (String.eqb k k') eqn:E.
    + apply String.eqb_eq in E. subst. split; [discriminate|].
      intros Hn. exfalso. apply Hn. now left.
    + apply String.eqb_neq in E. rewrite IH. split.
      * intros Hn [Heq|Hin]; [congruence|auto].
      * intros Hn Hin. apply Hn. now right.
Qed.

Lemma get_Some_keys k d :
  (exists v, Dict.get k d = Some v) <-> In k (Dict.keys d).
Proof.
  split.
  - intros [v Hv]. destruct (in_dec string_dec k (Dict.keys d)) as [Hin|Hn];
      [exact Hin|]. apply get_None_keys in Hn. congruence.
  - intros Hin. destruct (Dict.get k d) as [v|] eqn:E; [now exists v|].
    apply get_None_keys in E. contradiction.
Qed.

Lemma get_In k v d : Dict.get k d = Some v -> In (k, v) d.
Proof.
  induction d as [|[k' v'] rest IH]; simpl; [discriminate|].
  destruct (String.eqb k k') eqn:E.
  - apply String.eqb_eq in E. subst. intros [= ->]. now left.
  - intros Hg. right. auto.
Qed.

Lemma get_middle k v (pre post : Dict.t V) :
  ~ In k (Dict.keys pre) -> Dict.get k (pre ++ (k, v) :: post) = Some v.
Proof.
  induction pre as [|[k' v'] rest IH]; simpl; intros Hn.
  - now rewrite String.eqb_refl.
  - destruct (String.eqb k k') eqn:E.
    + apply String.eqb_eq in E. subst. exfalso. apply Hn. now left.
    + apply IH. intros Hin. apply Hn. now right.
Qed.

Lemma contains_get k d :
  Dict.contains k d = true <-> exists v, Dict.get k d = Some v.
Proof.
  unfold Dict.contains. destruct (Dict.get k d) as [v|].
  - split; [intros _; now exists v|reflexivity].
  - split; [discriminate|intros [v Hv]; discriminate].
Qed.

Lemma keys_set k v d k' :
  In k' (Dict.keys (Dict.set k v d)) <-> k' = k \/ In k' (Dict.keys d).
Proof.
  induction d as [|[k0 v0] rest IH]; simpl.
  - split; [intros [H|[]]; auto|intros [H|[]]; auto].
  - destruct (String.eqb k k0) eqn:E; simpl.
    + apply String.eqb_eq in E. subst k0. split.
      * intros [H|H]; auto.
      * intros [H|[H|H]]; auto.
    + rewrite IH. split.
      * intros [H|[H|H]]; auto.
      * intros [H|[H|H]]; auto.
Qed.

Lemma length_set_absent k v d :
  Dict.get k d = None -> Dict.len (Dict.set k v d) = S (Dict.len d).
Proof.
  unfold Dict.len.
  induction d as [|[k' v'] rest IH]; simpl; [reflexivity|].
  destruct (String.eqb k k'); [discriminate|].
  intros Hg. simpl. now rewrite IH.
Qed.

Lemma length_set_present k v d :
  In k (Dict.keys d) -> Dict.len (Dict.set k v d) = Dict.len d.
Proof.
  unfold Dict.len.
  induction d as [|[k' v'] rest IH]; simpl; [intros []|].
  destruct (String.eqb k k') eqn:E; [reflexivity|].
  apply String.eqb_neq in E.
  intros [Heq|Hin]; [congruence|]. simpl. now rewrite IH.
Qed.

Lemma wf_set k v d : Dict.wf d -> Dict.wf (Dict.set k v d).
Proof.
  unfold Dict.wf.
  induction d as [|[k' v'] rest IH]; simpl; intros Hwf.
  - constructor; [intros []|constructor].
  - inversion Hwf as [|? ? Hnin Hrest]; subst.
    destruct (String.eqb k k') eqn:E; simpl.
    + apply String.eqb_eq in E. subst k'. now constructor.
    + apply String.eqb_neq in E. constructor; [|auto].
      intros Hin. apply (keys_set k v rest k') in Hin.
      destruct Hin as [Heq|Hin]; [congruence|contradiction].
Qed.

Lemma wf_empty : Dict.wf (@Dict.empty V).
Proof. constructor. Qed.

End Facts.
End DictFacts.

(** ** The cache *)
Section CacheFacts.
Import ElementCache.
Context (h : Host).

Lemma realpath_OmniElement (e : Ref) : realpath h (OmniElement e) = realpath h e.
Proof. reflexivity. Qed.

Lemma matches_OmniElement (e : Ref) : matches h e (OmniElement e) = true.
Proof.
  unfold matches. destruct (PyType_eqb (type_of e) TWindowRef);
    apply String.eqb_refl.
Qed.

Lemma matches_same_widget_path (e c : Ref) :
  matches h e c = true <-> same_widget_path h e c.
Proof.
  unfold matches, same_widget_path.
  destruct (PyType_eqb (type_of e) TWindowRef); rewrite String.eqb_eq;
    split; congruence.
Qed.

(** The loop returns at the first entry that passes the test. *)
Lemma find_existing_Some (e : Ref) (items : list (string * Ref)) (id : string) :
  find_existing h e items = Some id ->
  exists pre c post,
    items = pre ++ (id, c) :: post
    /\ matches h e c = true
    /\ Forall (fun entry => matches h e (snd entry) = false) pre.
Proof.
  induction items as [|[k c] rest IH]; simpl; [discriminate|].
  destruct (matches h e c) eqn:E.
  - intros [= ->]. exists [], c, rest. repeat split; auto.
  - intros Hf. destruct (IH Hf) as (pre & c' & post & -> & Hm & Hpre).
    exists ((k, c) :: pre), c', post. repeat split; auto.
Qed.

Lemma find_existing_None (e : Ref) (items : list (string * Ref)) :
  find_existing h e items = None <->
  Forall (fun entry => matches h e (snd entry) = false) items.
Proof.
  induction items as [|[k c] rest IH]; simpl.
  - split; auto.
  - destruct (matches h e c) eqn:E.
    + split; [discriminate|]. intros Hall. inversion Hall; subst.
      simpl in *. congruence.
    + rewrite IH. split.
      * intros Hr. constructor; auto.
      * intros Hall. now inversion Hall.
Qed.

Lemma find_existing_key (e : Ref) (items : list (string * Ref)) (id : string) :
  find_existing h e items = Some id -> In id (Dict.keys items).
Proof.
  intros Hf. destruct (find_existing_Some _ _ _ Hf) as (pre & c & post & -> & _).
  unfold Dict.keys. rewrite map_app. apply in_or_app. right. now left.
Qed.

(** After a miss has bound the element, the loop finds it at the identifier
    it was bound to. *)
Lemma find_existing_after_set (e : Ref) (d : Dict.t Ref) (u : string) :
  find_existing h e d = None ->
  find_existing h e (Dict.set u (OmniElement e) d) = Some u.
Proof.
  induction d as [|[k c] rest IH]; simpl.
  - intros _. now rewrite matches_OmniElement.
  - destruct (matches h e c) eqn:E; [discriminate|].
    intros Hn. destruct (String.eqb u k); simpl.
    + now rewrite matches_OmniElement.
    + rewrite E. auto.
Qed.

Lemma get_cached_element_Some (id : string) (st : Process) (c : Ref) :
  Dict.get id (element_map st) = Some c ->
  get_cached_element id st = (Ok c, st).
Proof.
  intros Hg. unfold get_cached_element, Dict.contains. now rewrite Hg.
Qed.

Lemma get_cached_element_None (id : string) (st : Process) :
  Dict.get id (element_map st) = None ->
  get_cached_element id st = (Raise KeyError, st).
Proof.
  intros Hg. unfold get_cached_element, Dict.contains. now rewrite Hg.
Qed.

(** Whatever [add_element] returns is a key of the map it leaves. *)
Lemma add_element_key (e : Ref) (chk : bool) (st : Process) :
  In (fst (add_element h e chk st))
     (Dict.keys (element_map (snd (add_element h e chk st)))).
Proof.
  unfold add_element, insert_new.
  destruct chk; [destruct (find_existing h e _) eqn:E|]; simpl.
  - eapply find_existing_key; eauto.
  - apply DictFacts.keys_set. now left.
  - apply DictFacts.keys_set. now left.
Qed.

Lemma add_element_wf (e : Ref) (chk : bool) (st : Process) :
  Dict.wf (element_map st) ->
  Dict.wf (element_map (snd (add_element h e chk st))).
Proof.
  intros Hwf. unfold add_element, insert_new.
  destruct chk; [destruct (find_existing h e _)|]; simpl; auto;
    now apply DictFacts.wf_set.
Qed.

Lemma add_element_keys_drawn (e : Ref) (chk : bool) (st : Process) :
  keys_drawn h st -> keys_drawn h (snd (add_element h e chk st)).
Proof.
  intros Hk.
  assert (Hins : keys_drawn h (snd (insert_new h e st))).
  { unfold insert_new, keys_drawn. simpl. intros k Hin.
    apply DictFacts.keys_set in Hin. destruct Hin as [->|Hin].
    - exists (uuid_calls st). split; [lia|reflexivity].
    - destruct (Hk k Hin) as (i & Hi & ->). exists i. split; [lia|reflexivity]. }
  unfold add_element.
  destruct chk; [destruct (find_existing h e _)|]; simpl; auto.
Qed.

Lemma reachable_wf (st : Process) : reachable h st -> Dict.wf (element_map st).
Proof.
  induction 1; simpl.
  - apply DictFacts.wf_empty.
  - now apply add_element_wf.
  - constructor.
  - now apply DictFacts.wf_set.
Qed.

Lemma reachable_keys_drawn (st : Process) : reachable h st -> keys_drawn h st.
Proof.
  induction 1 as [|e chk st Hr IH|st Hr IH|k e st Hr IH Hin].
  - intros k [].
  - now apply add_element_keys_drawn.
  - intros k [].
  - intros k' Hk'. simpl in Hk'. apply DictFacts.keys_set in Hk'.
    simpl. destruct Hk' as [->|Hk']; auto.
Qed.

(** A miss of the lookup, said with the comparison it makes. *)
Lemma find_existing_no_match (e : Ref) (items : list (string * Ref)) :
  (forall k c, In (k, c) items -> ~ same_widget_path h e c) ->
  find_existing h e items = None.
Proof.
  intros Hnone. apply find_existing_None, Forall_forall.
  intros [k c] Hin. simpl.
  destruct (matches h e c) eqn:E; [|reflexivity].
  apply matches_same_widget_path in E. now apply Hnone in Hin.
Qed.

Lemma add_element_miss (e : Ref) (st : Process) :
  find_existing h e (Dict.items (element_map st)) = None ->
  add_element h e true st = insert_new h e st.
Proof. intros E. unfold add_element. now rewrite E. Qed.

(** [add_element] does not test the identifier it draws: were it in use,
    binding it would replace that entry and the map would not grow. *)
Lemma insert_new_in_use (e : Ref) (st : Process) :
  In (uuid4 h (uuid_calls st)) (Dict.keys (element_map st)) ->
  Dict.len (element_map (snd (insert_new h e st))) = Dict.len (element_map st).
Proof. intros Hin. simpl. now apply DictFacts.length_set_present. Qed.

(** With [uuid4] never repeating, the identifier drawn next is not in use. *)
Lemma next_uuid_fresh (st : Process) :
  unique_uuid4 h -> keys_drawn h st ->
  Dict.get (uuid4 h (uuid_calls st)) (element_map st) = None.
Proof.
  intros Hu Hk. apply DictFacts.get_None_keys. intros Hin.
  destruct (Hk _ Hin) as (i & Hi & Heq). apply Hu in Heq. lia.
Qed.

End CacheFacts.

(** The demo host's [uuid4] never repeats. *)
Lemma demo_uuid4_unique : unique_uuid4 Demo.host.
Proof.
  intros i j Heq. simpl in Heq. unfold Demo.uuid4 in Heq.
  simpl in Heq. injection Heq as Heq.
  apply (f_equal NilEmpty.uint_of_string) in Heq.
  rewrite !NilEmpty.usu in Heq. injection Heq as Heq.
  apply (f_equal Nat.of_uint) in Heq.
  now rewrite !DecimalNat.Unsigned.of_to in Heq.
Qed.

Section CacheClaims.
Import ElementCache.
Context (h : Host).

(** C1. For every element [e] and every cache state, the identifier
    [add_element e] returns is one [get_cached_element] resolves: the lookup
    returns (it does not raise [KeyError]) a cached element that addresses
    the widget [e] addresses -- the same realpath, or the same path when [e]
    is a window reference; it is [OmniElement e] itself when the call changed
    the cache. *)
Theorem add_element_get_cached_element
  (e : Ref) (exists_check : bool) (st : Process) :
  Dict.wf (element_map st) ->
  exists cached : Ref,
    get_cached_element (fst (add_element h e exists_check st))
      (snd (add_element h e exists_check st))
    = (Ok cached, snd (add_element h e exists_check st))
    /\ same_widget_path h e cached
    /\ (snd (add_element h e exists_check st) <> st ->
        cached = OmniElement e).
Proof.
  intros Hwf.
  assert (Hins : exists cached : Ref,
             get_cached_element (fst (insert_new h e st)) (snd (insert_new h e st))
             = (Ok cached, snd (insert_new h e st))
             /\ same_widget_path h e cached
             /\ (snd (insert_new h e st) <> st -> cached = OmniElement e)).
  { exists (OmniElement e). repeat apply conj.
    - apply get_cached_element_Some. simpl. apply DictFacts.get_set_same.
    - apply matches_same_widget_path, matches_OmniElement.
    - reflexivity. }
  unfold add_element. destruct exists_check; [|exact Hins].
  destruct (find_existing h e (Dict.items (element_map st))) as [id|] eqn:E;
    [|exact Hins].
  destruct (find_existing_Some h _ _ _ E) as (pre & c & post & Hitems & Hm & _).
  exists c. simpl. repeat apply conj.
  - apply get_cached_element_Some. unfold Dict.items in Hitems.
    rewrite Hitems. apply DictFacts.get_middle.
    unfold Dict.wf, Dict.keys in Hwf. rewrite Hitems, map_app in Hwf.
    simpl in Hwf. now apply NoDup_remove_2 in Hwf as Hn; intros Hin;
      apply Hn, in_or_app; left.
  - now apply matches_same_widget_path.
  - intros Hneq. now contradiction Hneq.
Qed.

(** C2. [add_element e] with [exists_check=True] looks the element up by
    path first.  If some cached entry has the same realpath as [e] (the same
    path, when [e] is a window reference), the identifier of the first such
    entry is returned and the process is unchanged; when no entry has, a new
    identifier is drawn and bound to [OmniElement e]. *)
Theorem add_element_exists_check_dedup (e : Ref) (st : Process) :
  ((exists k c, In (k, c) (Dict.items (element_map st))
                /\ same_widget_path h e c) ->
   exists pre id c post,
     Dict.items (element_map st) = pre ++ (id, c) :: post
     /\ same_widget_path h e c
     /\ Forall (fun entry => ~ same_widget_path h e (snd entry)) pre
     /\ add_element h e true st = (id, st))
  /\
  ((forall k c, In (k, c) (Dict.items (element_map st))
                -> ~ same_widget_path h e c) ->
   add_element h e true st
   = (uuid4 h (uuid_calls st),
      {| element_map :=
           Dict.set (uuid4 h (uuid_calls st)) (OmniElement e) (element_map st);
         uuid_calls := S (uuid_calls st) |})).
Proof.
  unfold add_element. split.
  - intros (k & c & Hin & Hsame).
    destruct (find_existing h e (Dict.items (element_map st))) as [id|] eqn:E.
    + destruct (find_existing_Some h _ _ _ E) as (pre & c' & post & Hi & Hm & Hp).
      exists pre, id, c', post. repeat split; auto.
      * now apply matches_same_widget_path.
      * eapply Forall_impl; [|exact Hp]. intros entry Hf Hs.
        apply matches_same_widget_path in Hs. congruence.
    + apply find_existing_None in E. rewrite Forall_forall in E.
      specialize (E _ Hin). simpl in E.
      apply matches_same_widget_path in Hsame. congruence.
  - intros Hnone.
    destruct (find_existing h e (Dict.items (element_map st))) as [id|] eqn:E;
      [|reflexivity].
    destruct (find_existing_Some h _ _ _ E) as (pre & c & post & Hi & Hm & _).
    exfalso. apply (Hnone id c).
    + rewrite Hi. apply in_or_app. right. now left.
    + now apply matches_same_widget_path.
Qed.

(** C6. Whenever [add_element] inserts -- [exists_check] is false, or no
    cached entry matched the lookup -- the identifier it generates was not a
    key of the map, every identifier that was in the map still maps to the
    same element, and the map has exactly one entry more.  ([uuid4] hands out
    no identifier twice, and the cache is one the program can be in.) *)
Theorem add_element_insert_frame (e : Ref) (exists_check : bool) (st : Process) :
  unique_uuid4 h ->
  reachable h st ->
  (exists_check = false
   \/ forall k c, In (k, c) (Dict.items (element_map st))
                  -> ~ same_widget_path h e c) ->
  Dict.get (fst (add_element h e exists_check st)) (element_map st) = None
  /\ (forall k c,
        Dict.get k (element_map st) = Some c ->
        Dict.get k (element_map (snd (add_element h e exists_check st)))
        = Some c)
  /\ Dict.len (element_map (snd (add_element h e exists_check st)))
     = S (Dict.len (element_map st))
  /\ Dict.get (fst (add_element h e exists_check st))
       (element_map (snd (add_element h e exists_check st)))
     = Some (OmniElement e).
Proof.
  intros Hu Hr Hins.
  assert (Hfresh := next_uuid_fresh h st Hu (reachable_keys_drawn h st Hr)).
  assert (Heq : add_element h e exists_check st = insert_new h e st).
  { destruct Hins as [->|Hnone]; [reflexivity|].
    destruct exists_check; [|reflexivity].
    apply add_element_miss, find_existing_no_match, Hnone. }
  rewrite Heq. simpl. repeat split.
  - exact Hfresh.
  - intros k c Hg. rewrite DictFacts.get_set_other; [exact Hg|].
    intros <-. congruence.
  - now apply DictFacts.length_set_absent.
  - apply DictFacts.get_set_same.
Qed.

(** C7. [add_element] with [exists_check=True] is idempotent: called twice
    in a row on the same element, it returns the same identifier both times
    and the second call leaves the cache as the first left it. *)
Theorem add_element_idempotent (e : Ref) (st : Process) :
  fst (add_element h e true (snd (add_element h e true st)))
  = fst (add_element h e true st)
  /\ snd (add_element h e true (snd (add_element h e true st)))
     = snd (add_element h e true st).
Proof.
  destruct (find_existing h e (Dict.items (element_map st))) as [id|] eqn:E.
  - assert (H1 : add_element h e true st = (id, st))
      by (unfold add_element; now rewrite E).
    rewrite H1. cbn [fst snd]. rewrite H1. now split.
  - assert (H1 : add_element h e true st = insert_new h e st)
      by (unfold add_element; now rewrite E).
    rewrite H1. unfold add_element, insert_new. cbn [fst snd element_map].
    unfold Dict.items in *.
    rewrite (find_existing_after_set h e _ _ E). now split.
Qed.

(** C10. When every insertion goes through [add_element] with
    [exists_check=True], no two distinct identifiers of a reachable cache map
    to elements with the same dedup key (the realpath of a widget, the path
    of a window): the map is injective with respect to that key. *)
Theorem exists_check_keeps_dedup_keys_distinct (st : Process) :
  reachable_checked h st ->
  forall (i j : string) (ci cj : Ref),
    i <> j ->
    Dict.get i (element_map st) = Some ci ->
    Dict.get j (element_map st) = Some cj ->
    dedup_key h ci <> dedup_key h cj.
Proof.
  induction 1 as [|e st Ht Hr IH|st Hr IH]; simpl.
  - discriminate.
  - unfold add_element.
    destruct (find_existing h e (Dict.items (element_map st))) as [id|] eqn:E;
      [exact IH|].
    simpl. apply find_existing_None in E. rewrite Forall_forall in E.
    assert (Hnew : forall k c, Dict.get k (element_map st) = Some c ->
                   dedup_key h (OmniElement e) <> dedup_key h c).
    { intros k c Hg. apply DictFacts.get_In in Hg.
      specialize (E _ Hg). simpl in E. unfold matches in E.
      unfold dedup_key, toolkit_ref in *. simpl. rewrite Ht.
      destruct (PyType_eqb (type_of e) TWindowRef);
        destruct (is_window_handle (widget c));
        try discriminate; apply String.eqb_neq in E.
      - intros [= Heq]. auto.
      - intros [= Heq]. apply E. exact Heq. }
    intros i j ci cj Hne Hi Hj.
    destruct (string_dec (uuid4 h (uuid_calls st)) i) as [<-|Hni];
      destruct (string_dec (uuid4 h (uuid_calls st)) j) as [<-|Hnj].
    + congruence.
    + rewrite DictFacts.get_set_same in Hi. injection Hi as <-.
      rewrite DictFacts.get_set_other in Hj by assumption.
      exact (Hnew j cj Hj).
    + rewrite DictFacts.get_set_same in Hj. injection Hj as <-.
      rewrite DictFacts.get_set_other in Hi by assumption.
      intros Heq. symmetry in Heq. exact (Hnew i ci Hi Heq).
    + rewrite DictFacts.get_set_other in Hi, Hj by assumption.
      exact (IH i j ci cj Hne Hi Hj).
  - discriminate.
Qed.

End CacheClaims.

(** ** The query endpoints *)
Section QueryFacts.
Import ElementCache Query.
Context (h : Host).

(** [locate] never touches the process; it raises exactly when the root
    widget is missing, with status 404. *)
Lemma locate_missing (locator : string) (root : option string) (st : Process) :
  root_missing root st ->
  locate h locator root st
  = (Raise (HTTPException HTTP_404_NOT_FOUND
              (Text ("No root elements found with ID " ++ str_opt root))), st).
Proof.
  intros [Ht Hg]. unfold locate. rewrite Ht.
  unfold try_except, bind. now rewrite (get_cached_element_None _ _ Hg).
Qed.

Lemma locate_found (locator : string) (root : option string) (st : Process) :
  ~ root_missing root st ->
  locate h locator root st
  = (Ok (root_of root st, searched h locator root st), st).
Proof.
  intros Hn. unfold locate, searched, root_of, root_missing in *.
  destruct (truthy_str root); [|reflexivity].
  destruct (Dict.get (str_opt root) (element_map st)) as [r|] eqn:E.
  - unfold try_except, bind. now rewrite (get_cached_element_Some _ _ _ E).
  - exfalso. apply Hn. now split.
Qed.

Lemma root_missing_dec (root : option string) (st : Process) :
  root_missing root st \/ ~ root_missing root st.
Proof.
  unfold root_missing. destruct (truthy_str root).
  - destruct (Dict.get (str_opt root) (element_map st)).
    + right. intros [_ H]. discriminate.
    + left. now split.
  - right. intros [H _]. discriminate.
Qed.

Lemma searched_missing (locator : string) (root : option string) (st : Process) :
  root_missing root st -> searched h locator root st = [].
Proof. intros [Ht Hg]. unfold searched. now rewrite Ht, Hg. Qed.

(** The lookup that follows [add_element] succeeds. *)
Lemma get_after_add (e : Ref) (chk : bool) (st : Process) :
  exists cached : Ref,
    Dict.get (fst (add_element h e chk st))
      (element_map (snd (add_element h e chk st))) = Some cached.
Proof. apply DictFacts.get_Some_keys, add_element_key. Qed.

(** Under the identifier [add_element] returns sits an element for the
    widget path of [e]: [OmniElement e] itself when the call changed the
    process. *)
Lemma add_element_cached (e : Ref) (chk : bool) (st : Process)
  (cached : Ref) :
  Dict.wf (element_map st) ->
  Dict.get (fst (add_element h e chk st))
    (element_map (snd (add_element h e chk st))) = Some cached ->
  same_widget_path h e cached
  /\ (snd (add_element h e chk st) <> st -> cached = OmniElement e).
Proof.
  intros Hwf.
  assert (Hins : Dict.get (fst (insert_new h e st))
                   (element_map (snd (insert_new h e st))) = Some cached ->
                 same_widget_path h e cached
                 /\ (snd (insert_new h e st) <> st -> cached = OmniElement e)).
  { simpl. rewrite DictFacts.get_set_same. intros [= <-]. split; [|reflexivity].
    apply matches_same_widget_path, matches_OmniElement. }
  unfold add_element. destruct chk; [|exact Hins].
  destruct (find_existing h e (Dict.items (element_map st))) as [id|] eqn:E;
    [|exact Hins].
  destruct (find_existing_Some h _ _ _ E) as (pre & c & post & Hitems & Hm & _).
  simpl. unfold Dict.items in Hitems. rewrite Hitems.
  rewrite DictFacts.get_middle.
  - intros [= <-]. split; [now apply matches_same_widget_path|].
    intros Hneq. now contradiction Hneq.
  - unfold Dict.wf, Dict.keys in Hwf. rewrite Hitems, map_app in Hwf.
    simpl in Hwf. apply NoDup_remove_2 in Hwf. intros Hin.
    apply Hwf, in_or_app. now left.
Qed.

Lemma or_empty_id (s : string) : or_empty s = s.
Proof. now destruct s. Qed.

(** What [get_properties] always holds: its twenty-five keys, and the path,
    the realpath and the type of the element it is read from. *)
Lemma get_properties_entries (element : Ref) :
  Dict.keys (get_properties h element) = property_names
  /\ Dict.get "path" (get_properties h element) = Some (VStr (path element))
  /\ Dict.get "real_path" (get_properties h element)
     = Some (VStr (realpath h element))
  /\ Dict.get "get_type" (get_properties h element)
     = Some (VStr (class_name h (widget element))).
Proof.
  repeat apply conj; try reflexivity.
  - cbn. now rewrite or_empty_id.
  - cbn. now rewrite or_empty_id.
Qed.

(** What [find_element] does once the search has found something. *)
Lemma find_element_found (request : FindElementRequest.t) (st : Process)
  (first : Ref) (rest : list Ref) :
  ~ root_missing (FindElementRequest.root_widget_id request) st ->
  searched h (FindElementRequest.locator request)
    (FindElementRequest.root_widget_id request) st = first :: rest ->
  exists cached : Ref,
    Dict.get (fst (add_element h first true st))
      (element_map (snd (add_element h first true st))) = Some cached
    /\ find_element h request st
       = (Ok (FoundElement
                {| element_id := Some (fst (add_element h first true st));
                   message :=
                     find_element_message h
                       (FindElementRequest.locator request)
                       (root_of (FindElementRequest.root_widget_id request) st)
                       (fst (add_element h first true st));
                   properties := Some (get_properties h cached) |}),
          snd (add_element h first true st)).
Proof.
  intros Hn Hs. destruct (get_after_add first true st) as [cached Hc].
  exists cached. split; [exact Hc|].
  unfold find_element, bind at 1. rewrite (locate_found _ _ _ Hn), Hs.
  unfold bind, add_elementM.
  destruct (add_element h first true st) as [id st'] eqn:Ea. simpl in *.
  now rewrite (get_cached_element_Some _ _ _ Hc).
Qed.

Lemma find_element_empty (request : FindElementRequest.t) (st : Process) :
  ~ root_missing (FindElementRequest.root_widget_id request) st ->
  searched h (FindElementRequest.locator request)
    (FindElementRequest.root_widget_id request) st = [] ->
  find_element h request st
  = (Raise (HTTPException HTTP_404_NOT_FOUND
              (Text ("No elements found with locator '"
                       ++ FindElementRequest.locator request ++ "'"))), st).
Proof.
  intros Hn Hs. unfold find_element, bind at 1.
  now rewrite (locate_found _ _ _ Hn), Hs.
Qed.

Lemma find_element_missing (request : FindElementRequest.t) (st : Process) :
  root_missing (FindElementRequest.root_widget_id request) st ->
  find_element h request st
  = (Raise (HTTPException HTTP_404_NOT_FOUND
              (Text ("No root elements found with ID "
                       ++ str_opt (FindElementRequest.root_widget_id request)))),
     st).
Proof.
  intros Hm. unfold find_element, bind at 1.
  now rewrite (locate_missing _ _ _ Hm).
Qed.

(** One round of the loop of [find_elements] returns, having called
    [add_element] once. *)
Lemma find_elements_round_ok (locator : string) (root : option Ref)
  (with_properties chk : bool) (e : Ref) (st : Process) :
  exists r : FindElementResponse,
    find_elements_round h locator root with_properties chk e st
    = (Ok r, snd (add_element h e chk st))
    /\ element_id r = Some (fst (add_element h e chk st)).
Proof.
  destruct (get_after_add e chk st) as [cached Hc].
  unfold find_elements_round, bind, add_elementM.
  destruct (add_element h e chk st) as [id st'] eqn:Ea. simpl in *.
  destruct with_properties.
  - rewrite (get_cached_element_Some _ _ _ Hc). eexists. split; reflexivity.
  - eexists. split; reflexivity.
Qed.

(** So does the whole loop. *)
Lemma find_elements_loop (locator : string) (root : option Ref)
  (with_properties chk : bool) (els : list Ref) (st : Process) :
  exists rs : list FindElementResponse,
    for_each (find_elements_round h locator root with_properties chk) els st
    = (Ok rs, add_all h chk els st)
    /\ map element_id rs = map Some (ids_of h chk els st).
Proof.
  revert st. induction els as [|e rest IH]; intros st; simpl.
  - exists []. split; reflexivity.
  - destruct (find_elements_round_ok locator root with_properties chk e st)
      as (r & Hr & Hid).
    destruct (IH (snd (add_element h e chk st))) as (rs & Hrs & Hids).
    exists (r :: rs). unfold bind. rewrite Hr, Hrs. split; [reflexivity|].
    simpl. now rewrite Hid, Hids.
Qed.

Lemma find_elements_found (request : FindElementsRequest.t) (st : Process) :
  ~ root_missing (FindElementsRequest.root_widget_id request) st ->
  searched h (FindElementsRequest.locator request)
    (FindElementsRequest.root_widget_id request) st <> [] ->
  let els := searched h (FindElementsRequest.locator request)
               (FindElementsRequest.root_widget_id request) st in
  exists rs : list FindElementResponse,
    find_elements h request st
    = (Ok (FindElementsResponse rs (List.length rs)),
       add_all h (exists_check_for els) els st)
    /\ map element_id rs = map Some (ids_of h (exists_check_for els) els st).
Proof.
  intros Hn Hne. cbv zeta.
  remember (searched h (FindElementsRequest.locator request)
              (FindElementsRequest.root_widget_id request) st) as els eqn:Hels.
  destruct (find_elements_loop (FindElementsRequest.locator request)
              (root_of (FindElementsRequest.root_widget_id request) st)
              (FindElementsRequest.get_properties request)
              (exists_check_for els) els st) as (rs & Hrs & Hids).
  exists rs. split; [|exact Hids].
  unfold find_elements, bind at 1. rewrite (locate_found _ _ _ Hn).
  rewrite <- Hels. unfold bind. rewrite Hrs.
  destruct els; [congruence|reflexivity].
Qed.

Lemma find_elements_empty (request : FindElementsRequest.t) (st : Process) :
  ~ root_missing (FindElementsRequest.root_widget_id request) st ->
  searched h (FindElementsRequest.locator request)
    (FindElementsRequest.root_widget_id request) st = [] ->
  find_elements h request st
  = (Raise (HTTPException HTTP_404_NOT_FOUND
              (Text ("No elements found with locator '"
                       ++ FindElementsRequest.locator request ++ "'"))), st).
Proof.
  intros Hn Hs. unfold find_elements, bind at 1.
  now rewrite (locate_found _ _ _ Hn), Hs.
Qed.

Lemma find_elements_missing (request : FindElementsRequest.t) (st : Process) :
  root_missing (FindElementsRequest.root_widget_id request) st ->
  find_elements h request st
  = (Raise (HTTPException HTTP_404_NOT_FOUND
              (Text ("No root elements found with ID "
                       ++ str_opt (FindElementsRequest.root_widget_id request)))),
     st).
Proof.
  intros Hm. unfold find_elements, bind at 1.
  now rewrite (locate_missing _ _ _ Hm).
Qed.

(** [widget_properties] reads the cache and never writes it. *)
Lemma widget_properties_state (element_id : string) (st : Process) :
  snd (widget_properties h element_id st) = st.
Proof.
  unfold widget_properties, bind, try_except, raise, ret.
  destruct (Dict.get element_id (element_map st)) as [c|] eqn:E.
  - now rewrite (get_cached_element_Some _ _ _ E).
  - now rewrite (get_cached_element_None _ _ E).
Qed.

End QueryFacts.

(** ** Unchecked insertion of a list of elements *)
Section Unchecked.
Import ElementCache.
Context (h : Host).

Lemma ids_of_unchecked (els : list Ref) (st : Process) :
  ids_of h false els st
  = map (fun i => uuid4 h (uuid_calls st + i)) (seq 0 (List.length els)).
Proof.
  revert st. induction els as [|e rest IH]; intros st; simpl; [reflexivity|].
  rewrite Nat.add_0_r. f_equal. rewrite IH. simpl.
  rewrite <- seq_shift, map_map. apply map_ext. intros i.
  now rewrite Nat.add_succ_r.
Qed.

Lemma add_all_unchecked (els : list Ref) (st : Process) :
  unique_uuid4 h ->
  keys_drawn h st ->
  keys_drawn h (add_all h false els st)
  /\ Dict.len (element_map (add_all h false els st))
     = Dict.len (element_map st) + List.length els
  /\ (forall k c,
        Dict.get k (element_map st) = Some c ->
        Dict.get k (element_map (add_all h false els st)) = Some c)
  /\ (forall i e,
        nth_error els i = Some e ->
        Dict.get (uuid4 h (uuid_calls st + i))
          (element_map (add_all h false els st)) = Some (OmniElement e)).
Proof.
  intros Hu. revert st. induction els as [|e0 rest IH]; intros st Hk.
  - simpl. repeat split; auto.
    intros [|i] e; discriminate.
  - assert (Hfresh := next_uuid_fresh h st Hu Hk).
    assert (Hk1 := add_element_keys_drawn h e0 false st Hk).
    destruct (IH _ Hk1) as (Hkf & Hlen & Hold & Hnew).
    unfold add_all in *. simpl fold_left. simpl in Hlen, Hold, Hnew.
    repeat split.
    + exact Hkf.
    + rewrite Hlen, (DictFacts.length_set_absent _ _ _ Hfresh). simpl. lia.
    + intros k c Hg. apply Hold.
      rewrite DictFacts.get_set_other; [exact Hg|]. intros <-. congruence.
    + intros [|i] e Hn; simpl in Hn.
      * injection Hn as <-. rewrite Nat.add_0_r.
        apply Hold, DictFacts.get_set_same.
      * rewrite Nat.add_succ_r. exact (Hnew i e Hn).
Qed.

End Unchecked.

(** ** The endpoints *)

(** C9. [reset_map] empties the cache whatever it held, so [get_map] right
    after it returns an empty mapping; the failure branch of
    [reset_widget_cache] (HTTP 500, "Server cache reset operation failed.")
    is therefore never taken, and the endpoint -- the sample extension's,
    and [kit_control]'s run on this cache -- always returns its success
    message. *)
Theorem reset_widget_cache_always_succeeds (st : Process) :
  ElementCache.get_map (ElementCache.reset_map st) = Dict.empty
  /\ WidgetEndpoints.reset_widget_cache st
     = (Ok (JsonResponse
              [("message", "Server widget cache has been successfully reset.")]),
        ElementCache.reset_map st)
  /\ KitControl.WidgetEndpoints.reset_widget_cache
       ElementCache.reset_mapM ElementCache.get_mapM st
     = (Ok (JsonResponse
              [("message", "Server widget cache has been successfully reset.")]),
        ElementCache.reset_map st)
  /\ (forall detail : Detail,
        fst (WidgetEndpoints.reset_widget_cache st)
        <> Raise (HTTPException 500 detail)
        /\ fst (KitControl.WidgetEndpoints.reset_widget_cache
       ElementCache.reset_mapM ElementCache.get_mapM st)
           <> Raise (HTTPException 500 detail)).
Proof.
  assert (H1 : WidgetEndpoints.reset_widget_cache st
               = (Ok (JsonResponse
                        [("message",
                          "Server widget cache has been successfully reset.")]),
                  ElementCache.reset_map st)) by reflexivity.
  assert (H2 : KitControl.WidgetEndpoints.reset_widget_cache
       ElementCache.reset_mapM ElementCache.get_mapM st
               = (Ok (JsonResponse
                        [("message",
                          "Server widget cache has been successfully reset.")]),
                  ElementCache.reset_map st)) by reflexivity.
  repeat split; try assumption; rewrite ?H1, ?H2; discriminate.
Qed.

(** Closes the goal that an endpoint answers 404 and keeps the process when
    its lookup misses. *)
Ltac missing_lookup :=
  let request := fresh "request" in
  let st := fresh "st" in
  let Hg := fresh "Hg" in
  intros request st Hg;
  cbv beta delta [try_except bind on_KeyError raise ret] in *;
  rewrite (get_cached_element_None _ _ Hg); simpl;
  split; [eexists; reflexivity | reflexivity].

(** Closes the goal that an endpoint of [kit_control] answers 404 and keeps
    the process when the lookup it is given raises [KeyError]. *)
Ltac key_error_404 :=
  let request := fresh "request" in
  let st := fresh "st" in
  let Hg := fresh "Hg" in
  intros request st Hg;
  cbv beta delta [try_except bind on_KeyError raise ret] in *;
  rewrite Hg; simpl;
  split; [eexists; reflexivity | reflexivity].

(** C3. [get_cached_element identifier] raises [KeyError] if and only if
    [identifier] is not a key of the cache map, and returns the stored
    element otherwise; and every endpoint that resolves an identifier the
    client sent through the cache answers the [KeyError] of a missing lookup
    with HTTP 404: [widget_properties], [find_element] and [find_elements]
    (for their root widget), [combobox_info], [bring_to_front],
    [select_combobox_item], [window_position], [resize_window] and
    [send_keys_to_element] of the sample extension, and, whatever cache
    lookup they run on, the same six endpoints of [kit_control] and its
    [click], [double_click], [right_click], [drag_and_drop] and
    [scroll_into_view]. *)
Theorem missing_lookup_is_404
  (h : Host)
  (read_combobox set_position resize drag scroll : Ref -> M Response)
  (element_bring_to_front : Ref -> bool -> M unit)
  (select_item : ComboBoxRequest.t -> Ref -> M Response)
  (element_input : Ref -> string -> option nat -> M unit)
  (element_text : Ref -> M string)
  (element_click : Ref -> option bool -> M unit)
  (element_double_click element_right_click : Ref -> M unit)
  (lookup : string -> M Ref) :
  (forall (identifier : string) (st : Process),
      (fst (ElementCache.get_cached_element identifier st) = Raise KeyError
       <-> ~ In identifier (Dict.keys (element_map st)))
      /\ (forall stored : Ref,
            Dict.get identifier (element_map st) = Some stored ->
            ElementCache.get_cached_element identifier st = (Ok stored, st)))
  /\ translates_missing_lookup (Query.widget_properties h) (fun id => id)
  /\ (forall request : FindElementRequest.t,
        truthy_str (FindElementRequest.root_widget_id request) = true ->
        translates_missing_lookup
          (fun _ : unit => Query.find_element h request)
          (fun _ => str_opt (FindElementRequest.root_widget_id request)))
  /\ (forall request : FindElementsRequest.t,
        truthy_str (FindElementsRequest.root_widget_id request) = true ->
        translates_missing_lookup
          (fun _ : unit => Query.find_elements h request)
          (fun _ => str_opt (FindElementsRequest.root_widget_id request)))
  /\ translates_missing_lookup
       (WidgetEndpoints.combobox_info read_combobox) (fun id => id)
  /\ translates_missing_lookup
       (fun r => WidgetEndpoints.bring_to_front element_bring_to_front
                   (fst r) (snd r)) fst
  /\ translates_missing_lookup
       (WidgetEndpoints.select_combobox_item select_item)
       ComboBoxRequest.identifier
  /\ translates_missing_lookup
       (WindowEndpoints.window_position set_position) (fun id => id)
  /\ translates_missing_lookup
       (WindowEndpoints.resize_window resize) (fun id => id)
  /\ translates_missing_lookup
       (KeyboardEndpoints.send_keys_to_element element_input element_text)
       SendKeysRequest.element_id
  /\ translates_KeyError lookup
       (KitControl.WidgetEndpoints.combobox_info lookup read_combobox)
       (fun id => id)
  /\ translates_KeyError lookup
       (fun r => KitControl.WidgetEndpoints.bring_to_front lookup
                   element_bring_to_front (fst r) (snd r)) fst
  /\ translates_KeyError lookup
       (KitControl.WidgetEndpoints.select_combobox_item lookup select_item)
       ComboBoxRequest.identifier
  /\ translates_KeyError lookup
       (KitControl.WindowEndpoints.window_position lookup set_position)
       (fun id => id)
  /\ translates_KeyError lookup
       (KitControl.WindowEndpoints.resize_window lookup resize) (fun id => id)
  /\ translates_KeyError lookup
       (KitControl.KeyboardEndpoints.send_keys_to_element lookup
          element_input element_text)
       SendKeysRequest.element_id
  /\ translates_KeyError lookup
       (KitControl.MouseEndpoints.click h lookup element_click)
       ClickRequest.element_id
  /\ translates_KeyError lookup
       (KitControl.MouseEndpoints.double_click h lookup element_double_click)
       ClickRequest.element_id
  /\ translates_KeyError lookup
       (KitControl.MouseEndpoints.right_click h lookup element_right_click)
       ClickRequest.element_id
  /\ translates_KeyError lookup
       (KitControl.MouseEndpoints.drag_and_drop lookup drag) (fun id => id)
  /\ translates_KeyError lookup
       (KitControl.MouseEndpoints.scroll_into_view lookup scroll)
       (fun id => id).
Proof.
  repeat apply conj.
  - intros identifier st. split.
    + rewrite <- DictFacts.get_None_keys. split.
      * intros Hr. destruct (Dict.get identifier (element_map st)) eqn:E;
          [|reflexivity].
        rewrite (get_cached_element_Some _ _ _ E) in Hr. discriminate.
      * intros Hg. now rewrite (get_cached_element_None _ _ Hg).
    + intros stored. apply get_cached_element_Some.
  - unfold Query.widget_properties. missing_lookup.
  - intros request Hsupplied u st Hg.
    rewrite (find_element_missing h request st (conj Hsupplied Hg)).
    split; [eexists; reflexivity|reflexivity].
  - intros request Hsupplied u st Hg.
    rewrite (find_elements_missing h request st (conj Hsupplied Hg)).
    split; [eexists; reflexivity|reflexivity].
  - unfold WidgetEndpoints.combobox_info. missing_lookup.
  - unfold WidgetEndpoints.bring_to_front. missing_lookup.
  - unfold WidgetEndpoints.select_combobox_item. missing_lookup.
  - unfold WindowEndpoints.window_position. missing_lookup.
  - unfold WindowEndpoints.resize_window. missing_lookup.
  - unfold KeyboardEndpoints.send_keys_to_element. missing_lookup.
  - unfold KitControl.WidgetEndpoints.combobox_info. key_error_404.
  - unfold KitControl.WidgetEndpoints.bring_to_front. key_error_404.
  - unfold KitControl.WidgetEndpoints.select_combobox_item. key_error_404.
  - unfold KitControl.WindowEndpoints.window_position. key_error_404.
  - unfold KitControl.WindowEndpoints.resize_window. key_error_404.
  - unfold KitControl.KeyboardEndpoints.send_keys_to_element. key_error_404.
  - unfold KitControl.MouseEndpoints.click,
      KitControl.MouseEndpoints.not_found. key_error_404.
  - unfold KitControl.MouseEndpoints.double_click,
      KitControl.MouseEndpoints.not_found. key_error_404.
  - unfold KitControl.MouseEndpoints.right_click,
      KitControl.MouseEndpoints.not_found. key_error_404.
  - unfold KitControl.MouseEndpoints.drag_and_drop,
      KitControl.MouseEndpoints.not_found. key_error_404.
  - unfold KitControl.MouseEndpoints.scroll_into_view,
      KitControl.MouseEndpoints.not_found. key_error_404.
Qed.

Section QueryClaims.
Import ElementCache Query.
Context (h : Host).

(** C4. [find_element] answers HTTP 404 in exactly two cases: the request
    gives a non-empty [root_widget_id] that is not in the cache, or no UI
    element matches the locator (an absent or empty [root_widget_id] means a
    search of the whole UI).  In every other case it passes the first
    element located to [add_element] and returns a response carrying the
    identifier that gave, a message, and the properties of the element
    cached under that identifier: the twenty-five entries of
    [get_properties], among them that element's own path, realpath and
    type.  The element is the first one located itself when the call cached
    it, and else the one already cached for the same widget path. *)
Theorem find_element_404_cases (request : FindElementRequest.t) (st : Process) :
  (is_404 (fst (find_element h request st))
   <-> root_missing (FindElementRequest.root_widget_id request) st
       \/ searched h (FindElementRequest.locator request)
            (FindElementRequest.root_widget_id request) st = [])
  /\ (forall (first : Ref) (rest : list Ref),
        ~ root_missing (FindElementRequest.root_widget_id request) st ->
        searched h (FindElementRequest.locator request)
          (FindElementRequest.root_widget_id request) st = first :: rest ->
        exists cached : Ref,
          Dict.get (fst (add_element h first true st))
            (element_map (snd (add_element h first true st))) = Some cached
          /\ find_element h request st
             = (Ok (FoundElement
                      {| element_id := Some (fst (add_element h first true st));
                         message :=
                           find_element_message h
                             (FindElementRequest.locator request)
                             (root_of (FindElementRequest.root_widget_id request)
                                st)
                             (fst (add_element h first true st));
                         properties := Some (get_properties h cached) |}),
                snd (add_element h first true st))
          /\ Dict.keys (get_properties h cached) = property_names
          /\ Dict.get "path" (get_properties h cached)
             = Some (VStr (path cached))
          /\ Dict.get "real_path" (get_properties h cached)
             = Some (VStr (realpath h cached))
          /\ Dict.get "get_type" (get_properties h cached)
             = Some (VStr (class_name h (widget cached)))
          /\ (Dict.wf (element_map st) ->
              same_widget_path h first cached
              /\ (snd (add_element h first true st) <> st ->
                  cached = OmniElement first))).
Proof.
  split.
  - destruct (root_missing_dec (FindElementRequest.root_widget_id request) st)
      as [Hm|Hn].
    + rewrite (find_element_missing h request st Hm). split; [now left|].
      intros _. eexists. reflexivity.
    + destruct (searched h (FindElementRequest.locator request)
                  (FindElementRequest.root_widget_id request) st)
        as [|first rest] eqn:Hs.
      * rewrite (find_element_empty h request st Hn Hs). split; [now right|].
        intros _. eexists. reflexivity.
      * destruct (find_element_found h request st first rest Hn Hs)
          as (cached & _ & Hr).
        rewrite Hr. split.
        -- intros [d Hd]. discriminate.
        -- intros [Hm|He]; [contradiction|discriminate].
  - intros first rest Hn Hs.
    destruct (find_element_found h request st first rest Hn Hs)
      as (cached & Hget & Hrun).
    destruct (get_properties_entries h cached) as (Hkeys & Hpath & Hreal & Hty).
    exists cached. repeat apply conj; try assumption.
    intros Hwf. exact (add_element_cached h first true st cached Hwf Hget).
Qed.

(** C5. Whenever [find_element], [find_elements] or [widget_properties]
    fails with HTTP 404, the process -- the element cache with it -- is
    exactly as it was before the request. *)
Theorem not_found_leaves_cache (st : Process) :
  (forall request : FindElementRequest.t,
      is_404 (fst (find_element h request st)) ->
      snd (find_element h request st) = st)
  /\ (forall request : FindElementsRequest.t,
        is_404 (fst (find_elements h request st)) ->
        snd (find_elements h request st) = st)
  /\ (forall element_id : string,
        is_404 (fst (widget_properties h element_id st)) ->
        snd (widget_properties h element_id st) = st).
Proof.
  repeat apply conj.
  - intros request H404.
    destruct (root_missing_dec (FindElementRequest.root_widget_id request) st)
      as [Hm|Hn].
    + now rewrite (find_element_missing h request st Hm).
    + destruct (searched h (FindElementRequest.locator request)
                  (FindElementRequest.root_widget_id request) st)
        as [|first rest] eqn:Hs.
      * now rewrite (find_element_empty h request st Hn Hs).
      * destruct (find_element_found h request st first rest Hn Hs)
          as (cached & _ & Hr).
        rewrite Hr in H404. destruct H404 as [d Hd]. discriminate.
  - intros request H404.
    destruct (root_missing_dec (FindElementsRequest.root_widget_id request) st)
      as [Hm|Hn].
    + now rewrite (find_elements_missing h request st Hm).
    + destruct (searched h (FindElementsRequest.locator request)
                  (FindElementsRequest.root_widget_id request) st)
        as [|first rest] eqn:Hs.
      * now rewrite (find_elements_empty h request st Hn Hs).
      * assert (Hne : searched h (FindElementsRequest.locator request)
                        (FindElementsRequest.root_widget_id request) st <> [])
          by (rewrite Hs; discriminate).
        destruct (find_elements_found h request st Hn Hne) as (rs & Hr & _).
        rewrite Hr in H404. destruct H404 as [d Hd]. discriminate.
  - intros element_id _. apply widget_properties_state.
Qed.

(** C8. [find_elements] turns the dedup lookup on exactly when fewer than
    50 elements match the locator.  With 50 or more, every matched element is
    cached by [add_element] with [exists_check=False] under an identifier of
    its own, fresh from [uuid4]; an element whose path equals that of an
    element already cached thus gets a second, duplicate entry beside the
    old one.  ([uuid4] hands out no identifier twice, and the cache is one
    the program can be in.) *)
Theorem find_elements_exists_check
  (request : FindElementsRequest.t) (st : Process) :
  unique_uuid4 h ->
  reachable h st ->
  forall els : list Ref,
    els = searched h (FindElementsRequest.locator request)
            (FindElementsRequest.root_widget_id request) st ->
    (exists_check_for els = true <-> List.length els < 50)
    /\ snd (find_elements h request st)
       = add_all h (exists_check_for els) els st
    /\ (50 <= List.length els ->
        (exists rs : list FindElementResponse,
            fst (find_elements h request st)
            = Ok (FindElementsResponse rs (List.length els))
            /\ map element_id rs
               = map (fun i => Some (uuid4 h (uuid_calls st + i)))
                   (seq 0 (List.length els)))
        /\ Dict.len (element_map (snd (find_elements h request st)))
           = Dict.len (element_map st) + List.length els
        /\ forall (i : nat) (e : Ref),
             nth_error els i = Some e ->
             Dict.get (uuid4 h (uuid_calls st + i)) (element_map st) = None
             /\ Dict.get (uuid4 h (uuid_calls st + i))
                  (element_map (snd (find_elements h request st)))
                = Some (OmniElement e)
             /\ forall (k : string) (c : Ref),
                  Dict.get k (element_map st) = Some c ->
                  same_widget_path h e c ->
                  k <> uuid4 h (uuid_calls st + i)
                  /\ Dict.get k
                       (element_map (snd (find_elements h request st)))
                     = Some c).
Proof.
  intros Hu Hr els Hels.
  assert (Hk := reachable_keys_drawn h st Hr).
  assert (Hchk : exists_check_for els = true <-> List.length els < 50).
  { unfold exists_check_for.
    destruct (Nat.ltb (List.length els) 50) eqn:E.
    - apply Nat.ltb_lt in E. tauto.
    - apply Nat.ltb_ge in E. split; [discriminate|lia]. }
  assert (Hstate : snd (find_elements h request st)
                   = add_all h (exists_check_for els) els st).
  { destruct (root_missing_dec (FindElementsRequest.root_widget_id request) st)
      as [Hm|Hn].
    - rewrite (find_elements_missing h request st Hm).
      rewrite Hels, (searched_missing h _ _ st Hm). reflexivity.
    - destruct els as [|first rest].
      + rewrite (find_elements_empty h request st Hn (eq_sym Hels)). reflexivity.
      + assert (Hne : searched h (FindElementsRequest.locator request)
                        (FindElementsRequest.root_widget_id request) st <> [])
          by (rewrite <- Hels; discriminate).
        destruct (find_elements_found h request st Hn Hne) as (rs & Hf & _).
        rewrite Hf, <- Hels. reflexivity. }
  split; [exact Hchk|]. split; [exact Hstate|].
  intros H50.
  assert (Hfalse : exists_check_for els = false).
  { destruct (exists_check_for els); [|reflexivity].
    destruct Hchk as [Hlt _]. specialize (Hlt eq_refl). lia. }
  rewrite Hstate, Hfalse.
  destruct (add_all_unchecked h els st Hu Hk) as (_ & Hlen & Hold & Hnew).
  assert (Hfresh : forall i, Dict.get (uuid4 h (uuid_calls st + i))
                               (element_map st) = None).
  { intros i. apply DictFacts.get_None_keys. intros Hin.
    destruct (Hk _ Hin) as (j & Hj & Heq). apply Hu in Heq. lia. }
  repeat apply conj.
  - assert (Hn : ~ root_missing (FindElementsRequest.root_widget_id request) st).
    { intros Hm. rewrite Hels, (searched_missing h _ _ st Hm) in H50.
      simpl in H50. lia. }
    assert (Hne : searched h (FindElementsRequest.locator request)
                    (FindElementsRequest.root_widget_id request) st <> []).
    { rewrite <- Hels. intros ->. simpl in H50. lia. }
    destruct (find_elements_found h request st Hn Hne) as (rs & Hf & Hids).
    rewrite <- Hels, Hfalse, ids_of_unchecked in Hids.
    exists rs. rewrite Hf. simpl.
    assert (Hl : List.length rs = List.length els).
    { apply (f_equal (@List.length _)) in Hids.
      now rewrite !length_map, length_seq in Hids. }
    rewrite Hl. split; [reflexivity|].
    rewrite Hids. now rewrite map_map.
  - exact Hlen.
  - intros i e Hn. repeat apply conj.
    + apply Hfresh.
    + exact (Hnew i e Hn).
    + intros k c Hg _. split; [|exact (Hold k c Hg)].
      intros ->. rewrite Hfresh in Hg. discriminate.
Qed.

End QueryClaims.

(** ** The statements at work on the demo host *)

Lemma demo_one_button_reachable : reachable Demo.host Demo.one_button.
Proof. apply reachable_add, reachable_init. Qed.

(** The first button, cached after it was found by its own path, is found
    again by a wildcard locator: [add_element] hands back the identifier it
    has, and the lookup resolves it. *)
Lemma add_element_get_cached_element_witness :
  Dict.wf (element_map Demo.one_button)
  /\ exists cached : Ref,
       ElementCache.get_cached_element
         (fst (ElementCache.add_element Demo.host
                 (Demo.button 0 "Stage//Frame/**/Button[*]") true
                 Demo.one_button))
         (snd (ElementCache.add_element Demo.host
                 (Demo.button 0 "Stage//Frame/**/Button[*]") true
                 Demo.one_button))
       = (Ok cached,
          snd (ElementCache.add_element Demo.host
                 (Demo.button 0 "Stage//Frame/**/Button[*]") true
                 Demo.one_button))
       /\ same_widget_path Demo.host
            (Demo.button 0 "Stage//Frame/**/Button[*]") cached
       /\ (snd (ElementCache.add_element Demo.host
                  (Demo.button 0 "Stage//Frame/**/Button[*]") true
                  Demo.one_button) <> Demo.one_button ->
           cached = OmniElement (Demo.button 0 "Stage//Frame/**/Button[*]")).
Proof.
  assert (Hwf : Dict.wf (element_map Demo.one_button)).
  { vm_compute. constructor; [intros []|constructor]. }
  split; [exact Hwf|].
  exact (add_element_get_cached_element Demo.host
           (Demo.button 0 "Stage//Frame/**/Button[*]") true
           Demo.one_button Hwf).
Defined.

Lemma add_element_exists_check_dedup_witness :
  exists pre id c post,
    Dict.items (element_map Demo.one_button) = pre ++ (id, c) :: post
    /\ same_widget_path Demo.host
         (Demo.button 0 "Stage//Frame/**/Button[*]") c
    /\ Forall
         (fun entry =>
            ~ same_widget_path Demo.host
                (Demo.button 0 "Stage//Frame/**/Button[*]") (snd entry)) pre
    /\ ElementCache.add_element Demo.host
         (Demo.button 0 "Stage//Frame/**/Button[*]") true Demo.one_button
       = (id, Demo.one_button).
Proof.
  apply (proj1 (add_element_exists_check_dedup Demo.host
                  (Demo.button 0 "Stage//Frame/**/Button[*]")
                  Demo.one_button)).
  exists "uuid-0", (OmniElement (Demo.button 0 "Stage//Frame/Button[0]")).
  split; [left; reflexivity|reflexivity].
Defined.

Lemma missing_lookup_is_404_witness :
  is_404 (fst (Query.widget_properties Demo.host "uuid-7" Demo.one_button))
  /\ is_404
       (fst (KitControl.MouseEndpoints.click Demo.host
               ElementCache.get_cached_element (fun _ _ => ret tt)
               (ClickRequest.mk "uuid-7" (Some true)) Demo.one_button)).
Proof.
  pose proof (missing_lookup_is_404 Demo.host
                (fun _ => ret (MessageResponse ""))
                (fun _ => ret (MessageResponse ""))
                (fun _ => ret (MessageResponse ""))
                (fun _ => ret (MessageResponse ""))
                (fun _ => ret (MessageResponse ""))
                (fun _ _ => ret tt)
                (fun _ _ => ret (MessageResponse ""))
                (fun _ _ _ => ret tt)
                (fun _ => ret "")
                (fun _ _ => ret tt)
                (fun _ => ret tt)
                (fun _ => ret tt)
                ElementCache.get_cached_element) as H.
  split.
  - exact (proj1 (proj1 (proj2 H) "uuid-7" Demo.one_button eq_refl)).
  - destruct H as (_ & _ & _ & _ & _ & _ & _ & _ & _ & _ & _ & _ & _ & _ & _
                   & _ & Hclick & _).
    exact (proj1 (Hclick (ClickRequest.mk "uuid-7" (Some true))
                    Demo.one_button eq_refl)).
Defined.

(** The window is located and newly cached: the response carries its own
    properties. *)
Lemma find_element_404_cases_witness :
  Query.find_element Demo.host (FindElementRequest.mk "Stage" None)
    Demo.one_button
  = (Ok (FoundElement
           {| element_id := Some "uuid-1";
              message :=
                "Element with locator 'Stage' found and cached with ID 'uuid-1'";
              properties := Some Demo.stage_window_properties |}),
     snd (ElementCache.add_element Demo.host Demo.stage_window true
            Demo.one_button))
  /\ Dict.keys Demo.stage_window_properties = property_names
  /\ same_widget_path Demo.host Demo.stage_window
       (OmniElement Demo.stage_window).
Proof.
  destruct (proj2 (find_element_404_cases Demo.host
                     (FindElementRequest.mk "Stage" None) Demo.one_button)
              Demo.stage_window [])
    as (cached & Hget & Hrun & Hkeys & _ & _ & _ & Hsame).
  - intros [Ht _]. discriminate.
  - reflexivity.
  - vm_compute in Hget. injection Hget as <-.
    repeat apply conj; [exact Hrun|exact Hkeys|].
    apply Hsame. vm_compute. constructor; [intros []|constructor].
Defined.

(** The claim as worded fails twice on the demo host.  An empty
    [root_widget_id] is supplied and is not in the cache, and the answer is
    no 404.  And the first button, located by a wildcard locator while it is
    cached under the path it was first found by, is answered with the
    properties of the cached reference: their path is not the path of the
    element located. *)
Lemma find_element_404_cases_counterexample :
  supplied_and_absent (Some "") Demo.one_button
  /\ ~ is_404 (fst (Query.find_element Demo.host
                      (FindElementRequest.mk "Stage" (Some ""))
                      Demo.one_button))
  /\ exists (first : Ref) (rest : list Ref) (message : string)
        (properties : Properties),
       ui_test_find_all Demo.host "Stage//Frame/**/Button[*]" = first :: rest
       /\ Query.find_element Demo.host
            (FindElementRequest.mk "Stage//Frame/**/Button[*]" None)
            Demo.one_button
          = (Ok (FoundElement
                   {| element_id := Some "uuid-0";
                      message := message;
                      properties := Some properties |}),
             Demo.one_button)
       /\ path first = "Stage//Frame/**/Button[*]"
       /\ Dict.get "path" properties = Some (VStr "Stage//Frame/Button[0]")
       /\ properties <> get_properties Demo.host (OmniElement first).
Proof.
  split; [now exists ""|]. split.
  - intros [detail Hd]. vm_compute in Hd. discriminate.
  - eexists _, _, _, _. split; [reflexivity|].
    split; [vm_compute; reflexivity|].
    split; [reflexivity|]. split; [reflexivity|].
    intros Heq. apply (f_equal (Dict.get "path")) in Heq.
    vm_compute in Heq. discriminate.
Defined.

Lemma not_found_leaves_cache_witness :
  is_404 (fst (Query.find_elements Demo.host
                 (FindElementsRequest.mk "Viewport//Frame/Label[*]" None true)
                 Demo.one_button))
  /\ snd (Query.find_elements Demo.host
            (FindElementsRequest.mk "Viewport//Frame/Label[*]" None true)
            Demo.one_button) = Demo.one_button.
Proof.
  assert (H404 : is_404 (fst (Query.find_elements Demo.host
                   (FindElementsRequest.mk "Viewport//Frame/Label[*]" None true)
                   Demo.one_button))) by (eexists; reflexivity).
  split; [exact H404|].
  exact (proj1 (proj2 (not_found_leaves_cache Demo.host Demo.one_button))
           _ H404).
Defined.

Lemma add_element_insert_frame_witness :
  Dict.get "uuid-1" (element_map Demo.one_button) = None
  /\ Dict.len
       (element_map
          (snd (ElementCache.add_element Demo.host Demo.stage_window true
                  Demo.one_button))) = 2.
Proof.
  destruct (add_element_insert_frame Demo.host Demo.stage_window true
              Demo.one_button demo_uuid4_unique demo_one_button_reachable)
    as (Hfresh & _ & Hlen & _).
  - right. intros k c [Heq|[]]. injection Heq as <- <-.
    vm_compute. discriminate.
  - split; [exact Hfresh|exact Hlen].
Defined.

Lemma find_elements_exists_check_witness :
  Dict.len
    (element_map
       (snd (Query.find_elements Demo.host
               (FindElementsRequest.mk "Stage//Frame/**/Button[*]" None false)
               Demo.one_button))) = 51
  /\ Dict.get "uuid-0"
       (element_map
          (snd (Query.find_elements Demo.host
                  (FindElementsRequest.mk "Stage//Frame/**/Button[*]" None false)
                  Demo.one_button)))
     = Some (OmniElement (Demo.button 0 "Stage//Frame/Button[0]"))
  /\ Dict.get "uuid-1"
       (element_map
          (snd (Query.find_elements Demo.host
                  (FindElementsRequest.mk "Stage//Frame/**/Button[*]" None false)
                  Demo.one_button)))
     = Some (OmniElement (Demo.button 0 "Stage//Frame/**/Button[*]")).
Proof.
  destruct (find_elements_exists_check Demo.host
              (FindElementsRequest.mk "Stage//Frame/**/Button[*]" None false)
              Demo.one_button demo_uuid4_unique demo_one_button_reachable
              _ eq_refl) as (_ & _ & H50).
  destruct H50 as (_ & Hlen & Hentries).
  - vm_compute. repeat constructor.
  - destruct (Hentries 0 (Demo.button 0 "Stage//Frame/**/Button[*]") eq_refl)
      as (_ & Hnew & Hold).
    split; [exact Hlen|]. split; [|exact Hnew].
    exact (proj2 (Hold "uuid-0"
                    (OmniElement (Demo.button 0 "Stage//Frame/Button[0]"))
                    eq_refl eq_refl)).
Defined.

(** A cache filled through [find_element] three times: a button, the window,
    another button. *)
Lemma exists_check_keeps_dedup_keys_distinct_witness :
  reachable_checked Demo.host
    (snd (ElementCache.add_element Demo.host
            (Demo.button 1 "Stage//Frame/**/Button[*]") true
            (snd (ElementCache.add_element Demo.host Demo.stage_window true
                    Demo.one_button))))
  /\ dedup_key Demo.host (OmniElement (Demo.button 0 "Stage//Frame/Button[0]"))
     <> dedup_key Demo.host
          (OmniElement (Demo.button 1 "Stage//Frame/**/Button[*]")).
Proof.
  assert (Hr : reachable_checked Demo.host
                 (snd (ElementCache.add_element Demo.host
                         (Demo.button 1 "Stage//Frame/**/Button[*]") true
                         (snd (ElementCache.add_element Demo.host
                                 Demo.stage_window true Demo.one_button))))).
  { apply checked_add; [reflexivity|].
    apply checked_add; [reflexivity|].
    apply checked_add; [reflexivity|]. apply checked_init. }
  split; [exact Hr|].
  apply (exists_check_keeps_dedup_keys_distinct Demo.host _ Hr
           "uuid-0" "uuid-2"); [discriminate|reflexivity|reflexivity].
Defined.

(** * More of the code *)

(** ** Appending to the dictionary *)
Section AppendFacts.
Context {V : Type}.

Lemma set_absent_app (k : string) (v : V) (d : Dict.t V) :
  Dict.get k d = None -> Dict.set k v d = d ++ [(k, v)].
Proof.
  induction d as [|[k' v'] rest IH]; simpl; [reflexivity|].
  destruct (String.eqb k k'); [discriminate|].
  intros Hg. now rewrite IH.
Qed.

Lemma get_app_Some (k : string) (v : V) (d d' : Dict.t V) :
  Dict.get k d = Some v -> Dict.get k (d ++ d') = Some v.
Proof.
  induction d as [|[k' v'] rest IH]; simpl; [discriminate|].
  destruct (String.eqb k k'); auto.
Qed.

Lemma keys_set_present (k : string) (v : V) (d : Dict.t V) :
  In k (Dict.keys d) -> Dict.keys (Dict.set k v d) = Dict.keys d.
Proof.
  induction d as [|[k' v'] rest IH]; simpl; [intros []|].
  destruct (String.eqb k k') eqn:E; simpl.
  - apply String.eqb_eq in E. now subst.
  - apply String.eqb_neq in E. intros [Heq|Hin]; [congruence|].
    now rewrite IH.
Qed.

End AppendFacts.

(** ** Asking for the same elements again *)
Section Repeat.
Import ElementCache Query.
Context (h : Host).

Lemma find_existing_app (e : Ref) (l l' : list (string * Ref)) (id : string) :
  find_existing h e l = Some id -> find_existing h e (l ++ l') = Some id.
Proof.
  induction l as [|[k c] rest IH]; simpl; [discriminate|].
  destruct (matches h e c); auto.
Qed.

Lemma extends_refl (s : Process) : extends s s.
Proof. exists []. now rewrite app_nil_r. Qed.

Lemma extends_trans (s t u : Process) : extends s t -> extends t u -> extends s u.
Proof.
  intros [m1 H1] [m2 H2]. exists (m1 ++ m2). now rewrite H2, H1, app_assoc.
Qed.

Lemma extends_get (s t : Process) (k : string) (c : Ref) :
  extends s t ->
  Dict.get k (element_map s) = Some c -> Dict.get k (element_map t) = Some c.
Proof. intros [m ->]. apply get_app_Some. Qed.

(** With identifiers never repeating, [add_element] only ever appends, and
    the element it was given is found under the identifier it returned. *)
Lemma add_element_extends (e : Ref) (chk : bool) (s : Process) :
  unique_uuid4 h -> keys_drawn h s ->
  extends s (snd (add_element h e chk s)).
Proof.
  intros Hu Hk.
  assert (Hins : extends s (snd (insert_new h e s))).
  { exists [(uuid4 h (uuid_calls s), OmniElement e)]. simpl.
    apply set_absent_app, next_uuid_fresh; assumption. }
  unfold add_element.
  destruct chk; [destruct (find_existing h e _)|]; simpl; auto using extends_refl.
Qed.

Lemma add_element_found (e : Ref) (s : Process) :
  find_existing h e (element_map (snd (add_element h e true s)))
  = Some (fst (add_element h e true s)).
Proof.
  unfold add_element.
  destruct (find_existing h e (Dict.items (element_map s))) as [id|] eqn:E;
    simpl.
  - exact E.
  - now apply find_existing_after_set.
Qed.

Lemma add_all_extends (chk : bool) (els : list Ref) (s : Process) :
  unique_uuid4 h -> keys_drawn h s ->
  extends s (add_all h chk els s) /\ keys_drawn h (add_all h chk els s).
Proof.
  intros Hu. revert s. induction els as [|e rest IH]; intros s Hk; simpl.
  - split; [apply extends_refl|exact Hk].
  - assert (Hk1 := add_element_keys_drawn h e chk s Hk).
    destruct (IH _ Hk1) as [Hext Hkf]. split; [|exact Hkf].
    eapply extends_trans; [|exact Hext]. now apply add_element_extends.
Qed.

(** The loop of [find_elements], in full. *)
Lemma find_elements_loop_responses (locator : string) (root : option Ref)
  (wp chk : bool) (els : list Ref) (st : Process) :
  for_each (find_elements_round h locator root wp chk) els st
  = (Ok (responses_of h locator root wp chk els st), add_all h chk els st).
Proof.
  revert st. induction els as [|e rest IH]; intros st; simpl; [reflexivity|].
  unfold bind at 1.
  assert (Hr : find_elements_round h locator root wp chk e st
               = (Ok (round_response h locator root wp
                        (fst (add_element h e chk st))
                        (snd (add_element h e chk st))),
                  snd (add_element h e chk st))).
  { destruct (get_after_add h e chk st) as [cached Hc].
    unfold find_elements_round, bind, add_elementM, round_response.
    destruct (add_element h e chk st) as [id st'] eqn:Ea. simpl in *.
    destruct wp; [|reflexivity].
    now rewrite (get_cached_element_Some _ _ _ Hc), Hc. }
  rewrite Hr. unfold bind. now rewrite IH.
Qed.

(** A second pass with the dedup lookup, over a process that extends what
    the first pass left, finds every element where the first pass put or
    found it. *)
Lemma second_pass (locator : string) (root : option Ref) (wp : bool)
  (els : list Ref) (s t : Process) :
  unique_uuid4 h -> keys_drawn h s ->
  extends (add_all h true els s) t ->
  add_all h true els t = t
  /\ responses_of h locator root wp true els t
     = responses_of h locator root wp true els s.
Proof.
  intros Hu. revert s. induction els as [|e rest IH]; intros s Hk Hext.
  - split; reflexivity.
  - change (add_all h true (e :: rest) s)
      with (add_all h true rest (snd (add_element h e true s))) in Hext.
    change (add_all h true (e :: rest) t)
      with (add_all h true rest (snd (add_element h e true t))).
    cbn [responses_of].
    assert (Hk1 := add_element_keys_drawn h e true s Hk).
    assert (Hs1t : extends (snd (add_element h e true s)) t).
    { eapply extends_trans; [|exact Hext].
      apply (add_all_extends true rest _ Hu Hk1). }
    assert (Hhit : add_element h e true t = (fst (add_element h e true s), t)).
    { destruct Hs1t as [more Hmore]. unfold add_element at 1.
      unfold Dict.items. rewrite Hmore.
      now rewrite (find_existing_app e _ more _ (add_element_found e s)). }
    rewrite Hhit. cbn [fst snd].
    destruct (IH _ Hk1 Hext) as [Hstate Hresp]. split; [exact Hstate|].
    rewrite Hresp. f_equal.
    unfold round_response. f_equal. destruct wp; [|reflexivity].
    destruct (get_after_add h e true s) as [cached Hc].
    now rewrite Hc, (extends_get _ _ _ _ Hs1t Hc).
Qed.

(** Extending the process keeps the root widget and what is found below
    it. *)
Lemma extends_search (locator : string) (root : option string) (s t : Process) :
  extends s t -> ~ root_missing root s ->
  ~ root_missing root t
  /\ root_of root t = root_of root s
  /\ searched h locator root t = searched h locator root s.
Proof.
  intros Hext Hn. unfold root_missing, root_of, searched in *.
  destruct (truthy_str root); [|repeat split; auto; intros [? _]; discriminate].
  destruct (Dict.get (str_opt root) (element_map s)) as [r|] eqn:E.
  - rewrite (extends_get _ _ _ _ Hext E). repeat split; auto.
  - exfalso. apply Hn. now split.
Qed.

(** X1. Asking [find_element] for the same element again gives the same
    answer -- the same identifier, message and properties -- and leaves the
    cache as the first request left it.  (The UI is the same for both
    requests, [uuid4] hands out no identifier twice, and the cache is one
    the program can be in.) *)
Theorem find_element_again (request : FindElementRequest.t)
  (st st1 : Process) (r : Response) :
  unique_uuid4 h ->
  reachable h st ->
  find_element h request st = (Ok r, st1) ->
  find_element h request st1 = (Ok r, st1).
Proof.
  intros Hu Hr H1.
  assert (Hk := reachable_keys_drawn h st Hr).
  destruct (root_missing_dec (FindElementRequest.root_widget_id request) st)
    as [Hm|Hn]; [rewrite (find_element_missing h request st Hm) in H1;
                  discriminate|].
  destruct (searched h (FindElementRequest.locator request)
              (FindElementRequest.root_widget_id request) st)
    as [|first rest] eqn:Hs;
    [rewrite (find_element_empty h request st Hn Hs) in H1; discriminate|].
  destruct (find_element_found h request st first rest Hn Hs)
    as (cached & Hc & Hf).
  assert (Hext := add_element_extends first true st Hu Hk).
  destruct (extends_search (FindElementRequest.locator request)
              (FindElementRequest.root_widget_id request) _ _ Hext Hn)
    as (Hn1 & Hroot & Hsearch).
  rewrite Hs in Hsearch.
  destruct (find_element_found h request _ first rest Hn1 Hsearch)
    as (cached' & Hc' & Hf').
  assert (Hhit : add_element h first true (snd (add_element h first true st))
                 = (fst (add_element h first true st),
                    snd (add_element h first true st))).
  { unfold add_element at 1. unfold Dict.items.
    now rewrite add_element_found. }
  rewrite Hhit in Hc', Hf'. cbn [fst snd] in Hc', Hf'.
  rewrite Hc in Hc'. injection Hc' as <-.
  rewrite Hroot in Hf'. rewrite <- Hf in Hf'. rewrite H1 in Hf'.
  assert (Hst : snd (add_element h first true st) = st1).
  { rewrite Hf in H1. now apply (f_equal snd) in H1. }
  rewrite Hst in Hf'. exact Hf'.
Qed.

(** X2. While fewer than 50 elements match, asking [find_elements] for the
    same elements again gives the same answer -- every element under the
    identifier it got the first time -- and leaves the cache as the first
    request left it.  (Same provisos as for [find_element].) *)
Theorem find_elements_again (request : FindElementsRequest.t)
  (st st1 : Process) (r : Response) :
  unique_uuid4 h ->
  reachable h st ->
  List.length (searched h (FindElementsRequest.locator request)
                 (FindElementsRequest.root_widget_id request) st) < 50 ->
  find_elements h request st = (Ok r, st1) ->
  find_elements h request st1 = (Ok r, st1).
Proof.
  intros Hu Hr Hlt H1.
  assert (Hk := reachable_keys_drawn h st Hr).
  destruct (root_missing_dec (FindElementsRequest.root_widget_id request) st)
    as [Hm|Hn]; [rewrite (find_elements_missing h request st Hm) in H1;
                  discriminate|].
  remember (searched h (FindElementsRequest.locator request)
              (FindElementsRequest.root_widget_id request) st) as els eqn:Hels.
  assert (Hchk : exists_check_for els = true).
  { unfold exists_check_for. apply Nat.ltb_lt in Hlt. now rewrite Hlt. }
  assert (Hrun : forall t,
             ~ root_missing (FindElementsRequest.root_widget_id request) t ->
             root_of (FindElementsRequest.root_widget_id request) t
             = root_of (FindElementsRequest.root_widget_id request) st ->
             searched h (FindElementsRequest.locator request)
               (FindElementsRequest.root_widget_id request) t = els ->
             els <> [] ->
             find_elements h request t
             = (Ok (FindElementsResponse
                      (responses_of h (FindElementsRequest.locator request)
                         (root_of (FindElementsRequest.root_widget_id request) st)
                         (FindElementsRequest.get_properties request) true els t)
                      (List.length els)),
                add_all h true els t)).
  { intros t Hnt Hroot Hsearch Hne.
    unfold find_elements, bind at 1. rewrite (locate_found h _ _ _ Hnt).
    rewrite Hsearch, Hroot, Hchk. unfold bind.
    rewrite find_elements_loop_responses.
    destruct els as [|e0 rest0]; [congruence|]. unfold ret. repeat f_equal.
    clear. generalize (e0 :: rest0) as l. intros l. revert t.
    induction l as [|e rest IH]; intros t; simpl; [reflexivity|].
    now rewrite IH. }
  destruct els as [|e0 rest0] eqn:Hels0.
  { rewrite (find_elements_empty h request st Hn (eq_sym Hels)) in H1.
    discriminate. }
  rewrite <- Hels0 in *.
  assert (Hne : els <> []) by (rewrite Hels0; discriminate).
  rewrite (Hrun st Hn eq_refl (eq_sym Hels) Hne) in H1.
  injection H1 as <- <-.
  destruct (add_all_extends true els st Hu Hk) as [Hext _].
  destruct (extends_search (FindElementsRequest.locator request)
              (FindElementsRequest.root_widget_id request) _ _ Hext Hn)
    as (Hn1 & Hroot & Hsearch).
  rewrite <- Hels in Hsearch.
  rewrite (Hrun _ Hn1 Hroot Hsearch Hne).
  destruct (second_pass (FindElementsRequest.locator request)
              (root_of (FindElementsRequest.root_widget_id request) st)
              (FindElementsRequest.get_properties request)
              els st _ Hu Hk (extends_refl _)) as [Hstate Hresp].
  now rewrite Hstate, Hresp.
Qed.

End Repeat.

(** ** Refreshing the cache after a scroll *)
Section ScrollFacts.
Import ScrollRefresh.
Context (h : Host).
Variable has_realpath : Ref -> bool.
Variable is_ComboBox : Handle -> bool.

Lemma refresh_entry_rebound (w : string) (m : Dict.t Ref) (k : string) (c : Ref) :
  refresh_entry h has_realpath is_ComboBox w m (k, c)
  = match rebound h has_realpath is_ComboBox w c with
    | Some element => Dict.set k element m
    | None => m
    end.
Proof.
  unfold refresh_entry, rebound.
  now destruct (String.eqb (window_of (path c)) w && has_realpath c).
Qed.

Lemma refresh_fold_keys (w : string) (l : list (string * Ref)) (acc : Dict.t Ref) :
  (forall entry, In entry l -> In (fst entry) (Dict.keys acc)) ->
  Dict.keys (fold_left (refresh_entry h has_realpath is_ComboBox w) l acc)
  = Dict.keys acc.
Proof.
  revert acc. induction l as [|[k c] rest IH]; intros acc Hin; cbn [fold_left];
    [reflexivity|].
  assert (Hk : Dict.keys (refresh_entry h has_realpath is_ComboBox w acc (k, c))
               = Dict.keys acc).
  { rewrite refresh_entry_rebound. destruct (rebound h has_realpath is_ComboBox w c); [|reflexivity].
    apply keys_set_present. apply (Hin (k, c)). now left. }
  rewrite IH; [exact Hk|].
  intros entry He. rewrite Hk. apply Hin. now right.
Qed.

Lemma refresh_fold_get (w : string) (l : list (string * Ref)) (acc : Dict.t Ref)
  (k : string) :
  NoDup (Dict.keys l) ->
  Dict.get k (fold_left (refresh_entry h has_realpath is_ComboBox w) l acc)
  = match Dict.get k l with
    | Some c =>
        match rebound h has_realpath is_ComboBox w c with
        | Some element => Some element
        | None => Dict.get k acc
        end
    | None => Dict.get k acc
    end.
Proof.
  revert acc. induction l as [|[k0 c0] rest IH]; intros acc Hnd;
    cbn [fold_left Dict.get]; [reflexivity|].
  inversion Hnd as [|? ? Hnin Hrest]; subst.
  rewrite (IH _ Hrest), refresh_entry_rebound.
  destruct (String.eqb k k0) eqn:E.
  - apply String.eqb_eq in E. subst k0.
    apply DictFacts.get_None_keys in Hnin. rewrite Hnin.
    destruct (rebound h has_realpath is_ComboBox w c0); [apply DictFacts.get_set_same|reflexivity].
  - apply String.eqb_neq in E.
    assert (Hacc : Dict.get k match rebound h has_realpath is_ComboBox w c0 with
                              | Some element => Dict.set k0 element acc
                              | None => acc
                              end = Dict.get k acc).
    { destruct (rebound h has_realpath is_ComboBox w c0); [|reflexivity].
      apply DictFacts.get_set_other. congruence. }
    now rewrite Hacc.
Qed.

(** X3. [update_cached_elements_after_scroll] neither adds nor drops an
    identifier: the map has the same keys, in the same order, before and
    after it, so a lookup misses after the refresh exactly when it missed
    before. *)
Theorem scroll_refresh_keeps_identifiers (element : Ref) (st : Process) :
  Dict.keys (update_cached_elements_after_scroll h has_realpath is_ComboBox
               element (element_map st))
  = Dict.keys (element_map st)
  /\ forall identifier : string,
       fst (ElementCache.get_cached_element identifier
              (update_cache h has_realpath is_ComboBox element st))
       = Raise KeyError
       <-> fst (ElementCache.get_cached_element identifier st) = Raise KeyError.
Proof.
  assert (Hkeys : Dict.keys (update_cached_elements_after_scroll h has_realpath
                               is_ComboBox element (element_map st))
                  = Dict.keys (element_map st)).
  { unfold update_cached_elements_after_scroll, Dict.items.
    apply refresh_fold_keys. intros entry Hin. now apply in_map. }
  split; [exact Hkeys|].
  assert (Hmiss : forall id s,
             fst (ElementCache.get_cached_element id s) = Raise KeyError
             <-> ~ In id (Dict.keys (element_map s))).
  { intros id s. rewrite <- DictFacts.get_None_keys. split.
    - intros Hr. destruct (Dict.get id (element_map s)) eqn:E; [|reflexivity].
      rewrite (get_cached_element_Some _ _ _ E) in Hr. discriminate.
    - intros Hg. now rewrite (get_cached_element_None _ _ Hg). }
  intros identifier. rewrite !Hmiss. simpl. now rewrite Hkeys.
Qed.

(** X4. After the refresh every identifier maps either to the element it
    mapped to before or to an [OmniElement] around the first result of a
    search; the second only happens for an element of the scrolled window
    that has a realpath.  Elements of other windows are untouched. *)
Theorem scroll_refresh_entries (element : Ref) (st : Process)
  (identifier : string) (cached : Ref) :
  Dict.wf (element_map st) ->
  Dict.get identifier (element_map st) = Some cached ->
  (window_of (path cached) <> window_of (path element) ->
   Dict.get identifier
     (element_map (update_cache h has_realpath is_ComboBox element st))
   = Some cached)
  /\ (Dict.get identifier
        (element_map (update_cache h has_realpath is_ComboBox element st))
      = Some cached
      \/ exists (locator : string) (first : Ref) (others : list Ref),
           ui_test_find_all h locator = first :: others
           /\ window_of (path cached) = window_of (path element)
           /\ has_realpath cached = true
           /\ Dict.get identifier
                (element_map
                   (update_cache h has_realpath is_ComboBox element st))
              = Some (OmniElement first)).
Proof.
  intros Hwf Hg. simpl. unfold update_cached_elements_after_scroll, Dict.items.
  rewrite (refresh_fold_get _ _ _ _ Hwf), Hg.
  unfold rebound. split.
  - intros Hne. apply String.eqb_neq in Hne. now rewrite Hne.
  - destruct (String.eqb (window_of (path cached)) (window_of (path element)))
      eqn:Ew; [|now left].
    destruct (has_realpath cached) eqn:Er; [|now left]. simpl.
    apply String.eqb_eq in Ew. unfold relocated.
    destruct (is_ComboBox (widget cached)).
    + destruct (ui_test_find_all h (path cached)) as [|first others] eqn:Ef;
        [now left|].
      right. now exists (path cached), first, others.
    + destruct (ui_test_find_all h
                  (replace "Frame[0]" "Frame[*]" (realpath h cached)))
        as [|first others] eqn:Ef.
      * destruct (ui_test_find_all h (path cached)) as [|first others] eqn:Ef';
          [now left|].
        right. now exists (path cached), first, others.
      * right. now exists (replace "Frame[0]" "Frame[*]" (realpath h cached)),
                 first, others.
Qed.

End ScrollFacts.

(** ** Key presses *)

Lemma split_on_cons (c : ascii) (s : string) :
  exists piece pieces, split_on c s = piece :: pieces.
Proof.
  induction s as [|a rest IH]; simpl; [now exists EmptyString, []|].
  destruct (Ascii.eqb a c); [now eexists _, _|].
  destruct IH as (piece & pieces & ->). now eexists _, _.
Qed.

Section KeyboardFacts.
Import Keyboard.
Context (h : Host).
Variable KeyboardInput : Type.
Variable members : string -> option KeyboardInput.
Variable keyboard_outcome : KeyboardEventType -> KeyboardInput -> Result unit.

Lemma send_key_press_returns (key : KeyboardInput) (hold release : bool)
  (d : Z) :
  toolkit_returns KeyboardInput keyboard_outcome -> hold && release = false ->
  send_key_press keyboard_outcome key hold release d
  = (presses KeyboardInput hold release d key, Ok tt).
Proof.
  intros Hret Hflags. unfold send_key_press, presses. rewrite Hflags.
  destruct hold; [|destruct release]; unfold call, ebind; now rewrite ?Hret.
Qed.

(** The loop over a run of valid keys, then whatever follows. *)
Lemma press_keys_app (good : list string) (inputs : list KeyboardInput)
  (more : list string) (hold release : bool) (d : Z) :
  toolkit_returns KeyboardInput keyboard_outcome -> hold && release = false ->
  Forall2 (fun key input => members key = Some input) good inputs ->
  press_keys members keyboard_outcome (good ++ more) hold release d
  = (concat (map (presses KeyboardInput hold release d) inputs)
       ++ fst (press_keys members keyboard_outcome more hold release d),
     snd (press_keys members keyboard_outcome more hold release d)).
Proof.
  intros Hret Hflags Hall. induction Hall as [|key input good inputs Hm _ IH].
  - simpl. now destruct (press_keys members keyboard_outcome more hold release d).
  - cbn [app press_keys map concat]. rewrite Hm.
    rewrite (send_key_press_returns _ _ _ _ Hret Hflags), IH.
    unfold ebind. now rewrite app_assoc.
Qed.

Lemma press_keys_both (keys : list string) (d : Z) :
  keys <> [] ->
  fst (press_keys members keyboard_outcome keys true true d) = []
  /\ exists reason,
       snd (press_keys members keyboard_outcome keys true true d)
       = Raise (RuntimeError reason).
Proof.
  destruct keys as [|k rest]; [congruence|]. intros _. cbn [press_keys].
  destruct (members k); simpl; split; eauto.
Qed.

Lemma release_only_when_asked (keys : list string) (hold release : bool)
  (d : Z) (key : KeyboardInput) :
  In (emulate_keyboard KEY_RELEASE key)
     (fst (press_keys members keyboard_outcome keys hold release d)) ->
  release = true /\ hold = false.
Proof.
  induction keys as [|k rest IH]; cbn [press_keys]; [intros []|].
  destruct (members k) as [input|]; [|intros []].
  unfold ebind.
  destruct (send_key_press keyboard_outcome input hold release d)
    as [calls [[]|e]] eqn:Es.
  - destruct (press_keys members keyboard_outcome rest hold release d)
      as [calls' r] eqn:Er.
    cbn [fst] in *. intros Hin. apply in_app_or in Hin.
    destruct Hin as [Hin|Hin]; [|now apply IH].
    revert Es Hin. unfold send_key_press, call, ebind.
    destruct hold, release; simpl;
      repeat match goal with
             | |- context [keyboard_outcome ?t ?k] =>
                 destruct (keyboard_outcome t k) as [[]|?]
             end;
      intros [= <-]; simpl; intuition (try discriminate; auto).
  - cbn [fst]. revert Es. unfold send_key_press, call, ebind.
    destruct hold, release; simpl;
      repeat match goal with
             | |- context [keyboard_outcome ?t ?k] =>
                 destruct (keyboard_outcome t k) as [[]|?]
             end;
      intros [= <- ?]; simpl; intuition (try discriminate; auto).
Qed.

(** X5. With [hold] and [release] both set, [key_events] presses nothing:
    it makes no call to the toolkit, whatever the combo, and answers HTTP
    500. *)
Theorem key_events_hold_and_release (request : KeyPressRequest.t) :
  KeyPressRequest.hold request = true ->
  KeyPressRequest.release request = true ->
  fst (key_events h members keyboard_outcome request) = []
  /\ exists reason : string,
       snd (key_events h members keyboard_outcome request)
       = Raise (HTTPException 500
                  (Text ("Failed to press key combo "
                           ++ KeyPressRequest.combo request ++ " due to "
                           ++ reason ++ "."))).
Proof.
  intros Hh Hr. unfold key_events. rewrite Hh, Hr.
  destruct (split_on_cons "+" (KeyPressRequest.combo request))
    as (k & rest & Hs).
  destruct (press_keys_both (split_on "+" (KeyPressRequest.combo request))
              (KeyPressRequest.hold_duration request))
    as (Hcalls & reason & Hraise); [rewrite Hs; discriminate|].
  destruct (press_keys members keyboard_outcome
              (split_on "+" (KeyPressRequest.combo request)) true true
              (KeyPressRequest.hold_duration request)) as [calls r].
  simpl in Hcalls, Hraise. subst calls r. simpl.
  split; [reflexivity|]. now exists reason.
Qed.

(** X6. [key_events] stops at the first key of the combo that is not a
    member of [KeyboardInput], answering HTTP 500 with that key named; the
    keys before it have been pressed by then and stay so.  (Not both flags
    are set, and the toolkit's calls return.) *)
Theorem key_events_invalid_key (request : KeyPressRequest.t)
  (good : list string) (inputs : list KeyboardInput) (bad : string)
  (rest : list string) :
  toolkit_returns KeyboardInput keyboard_outcome ->
  KeyPressRequest.hold request && KeyPressRequest.release request = false ->
  split_on "+" (KeyPressRequest.combo request) = good ++ bad :: rest ->
  Forall2 (fun key input => members key = Some input) good inputs ->
  members bad = None ->
  key_events h members keyboard_outcome request
  = (concat (map (presses KeyboardInput (KeyPressRequest.hold request)
                    (KeyPressRequest.release request)
                    (KeyPressRequest.hold_duration request)) inputs),
     Raise (HTTPException 500
              (Text ("Failed to press key combo "
                       ++ KeyPressRequest.combo request
                       ++ " due to Invalid key: " ++ bad ++ ".")))).
Proof.
  intros Hret Hflags Hs Hgood Hbad. unfold key_events. rewrite Hs.
  rewrite (press_keys_app _ _ _ _ _ _ Hret Hflags Hgood).
  cbn [press_keys]. rewrite Hbad. simpl. now rewrite !app_nil_r.
Qed.

(** X7. When every key of the combo is a member of [KeyboardInput],
    [key_events] answers with its success message after these calls, key by
    key: one [KEY_PRESS] with [hold]; one [KEY_RELEASE] with [release]; with
    neither, a [KEY_PRESS], the sleep, and a second [KEY_PRESS] -- no
    [KEY_RELEASE].  (Not both flags are set, and the toolkit's calls
    return.) *)
Theorem key_events_pressed (request : KeyPressRequest.t)
  (inputs : list KeyboardInput) :
  toolkit_returns KeyboardInput keyboard_outcome ->
  KeyPressRequest.hold request && KeyPressRequest.release request = false ->
  Forall2 (fun key input => members key = Some input)
    (split_on "+" (KeyPressRequest.combo request)) inputs ->
  key_events h members keyboard_outcome request
  = (concat (map (presses KeyboardInput (KeyPressRequest.hold request)
                    (KeyPressRequest.release request)
                    (KeyPressRequest.hold_duration request)) inputs),
     Ok (MessageResponse
           ("Key combo '" ++ KeyPressRequest.combo request ++ "' pressed."))).
Proof.
  intros Hret Hflags Hall. unfold key_events.
  rewrite <- (app_nil_r (split_on "+" (KeyPressRequest.combo request))).
  rewrite (press_keys_app _ _ _ _ _ _ Hret Hflags Hall).
  simpl. now rewrite !app_nil_r.
Qed.

(** X8. Whatever the toolkit does, [key_events] sends a [KEY_RELEASE] only
    for a request with [release] set and [hold] not set. *)
Theorem key_events_release_discipline (request : KeyPressRequest.t)
  (key : KeyboardInput) :
  In (emulate_keyboard KEY_RELEASE key)
     (fst (key_events h members keyboard_outcome request)) ->
  KeyPressRequest.release request = true
  /\ KeyPressRequest.hold request = false.
Proof.
  unfold key_events. intros Hin.
  apply (release_only_when_asked
           (split_on "+" (KeyPressRequest.combo request)) _ _
           (KeyPressRequest.hold_duration request) key).
  destruct (press_keys members keyboard_outcome
              (split_on "+" (KeyPressRequest.combo request))
              (KeyPressRequest.hold request) (KeyPressRequest.release request)
              (KeyPressRequest.hold_duration request)) as [calls [[]|e]];
    simpl in *; rewrite ?app_nil_r in Hin; exact Hin.
Qed.

End KeyboardFacts.

(** ** Key combos *)
Section KeyComboFacts.
Import Keyboard.
Context (h : Host).
Variable KeyboardInput : Type.
Variable members : string -> option KeyboardInput.
Variable key_combo_outcome : string -> Result unit.
Variable strip upper : string -> string.
Variable len : string -> nat.
Variable isalnum : string -> bool.

Lemma validate_keys_pass (key_combo : string) (keys : list string) :
  forallb (key_passes KeyboardInput members strip upper len) keys = true ->
  validate_keys members strip upper len isalnum key_combo keys
  = ([], Ok tt).
Proof.
  induction keys as [|raw rest IH]; cbn [validate_keys forallb];
    [reflexivity|].
  intros Hall. apply andb_true_iff in Hall. destruct Hall as [Hp Hrest].
  unfold key_passes in Hp.
  destruct (is_member members (upper (strip raw)));
    destruct (in_list (upper (strip raw)) valid_modifiers);
    destruct (Nat.eqb (len (upper (strip raw))) 1);
    destruct (isalnum (upper (strip raw))); simpl in *;
    try discriminate; auto.
Qed.

Lemma validate_keys_fail (key_combo : string) (good : list string)
  (bad : string) (rest : list string) :
  forallb (key_passes KeyboardInput members strip upper len) good = true ->
  key_passes KeyboardInput members strip upper len bad = false ->
  validate_keys members strip upper len isalnum key_combo (good ++ bad :: rest)
  = ([], Raise (HTTPException 400
                  (Text ("Invalid key '" ++ upper (strip bad)
                           ++ "' in key combo '" ++ key_combo
                           ++ "'. Use the key_bindings API to get valid keys.")))).
Proof.
  intros Hgood Hbad. induction good as [|raw good IH];
    cbn [app validate_keys].
  - unfold key_passes in Hbad.
    destruct (is_member members (upper (strip bad)));
      destruct (in_list (upper (strip bad)) valid_modifiers);
      destruct (Nat.eqb (len (upper (strip bad))) 1);
      simpl in *; try discriminate; reflexivity.
  - cbn [forallb] in Hgood. apply andb_true_iff in Hgood.
    destruct Hgood as [Hp Hrest]. specialize (IH Hrest).
    unfold key_passes in Hp.
    destruct (is_member members (upper (strip raw)));
      destruct (in_list (upper (strip raw)) valid_modifiers);
      destruct (Nat.eqb (len (upper (strip raw))) 1);
      destruct (isalnum (upper (strip raw))); simpl in *;
      try discriminate; auto.
Qed.

(** X9. [send_key_combo] of the sample extension sends a combo to the
    toolkit only when every piece of it passes the validation, and then
    exactly once, answering 201 or, if the toolkit raises, 500; at the first
    piece that does not pass it answers HTTP 400 naming that key and calls
    nothing. *)
Theorem send_key_combo_validates (key_combo : string) :
  (forallb (key_passes KeyboardInput members strip upper len) (split_on "+" key_combo) = true ->
   send_key_combo h members key_combo_outcome strip upper len isalnum key_combo
   = ([emulate_key_combo key_combo],
      match key_combo_outcome key_combo with
      | Ok _ =>
          Ok (MessageResponse ("Key combo '" ++ key_combo ++ "' pressed."))
      | Raise e =>
          Raise (HTTPException 500
                   (Text ("Failed to press key combo: " ++ key_combo
                            ++ ". Error: " ++ str_exn h e)))
      end))
  /\ (forall good bad rest,
        split_on "+" key_combo = good ++ bad :: rest ->
        forallb (key_passes KeyboardInput members strip upper len) good = true ->
        key_passes KeyboardInput members strip upper len bad = false ->
        send_key_combo h members key_combo_outcome strip upper len isalnum
          key_combo
        = ([], Raise (HTTPException 400
                        (Text ("Invalid key '" ++ upper (strip bad)
                                 ++ "' in key combo '" ++ key_combo
                                 ++ "'. Use the key_bindings API to get valid keys."))))).
Proof.
  split.
  - intros Hall. unfold send_key_combo.
    rewrite (validate_keys_pass key_combo _ Hall).
    unfold ebind, etry, call, eret, eraise.
    destruct (key_combo_outcome key_combo) as [[]|e]; reflexivity.
  - intros good bad rest Hs Hgood Hbad. unfold send_key_combo.
    rewrite Hs, (validate_keys_fail key_combo good bad rest Hgood Hbad).
    reflexivity.
Qed.

End KeyComboFacts.

(** ** Mouse buttons *)
Section MouseFacts.
Import Mouse.
Variable float : Type.
Variable str_float : float -> string.
Variable mouse_outcome : MouseEventType -> option (float * float) -> Result unit.

(** X10. With [hold] and [release] both set, [send_mouse_events] touches
    nothing -- no move, no button -- and answers HTTP 500 with the detail
    "Internal Server Error". *)
Theorem send_mouse_events_hold_and_release (request : ClickHold float) :
  hold request = true ->
  release request = true ->
  send_mouse_events str_float mouse_outcome request
  = ([], Raise (HTTPException 500 (Text "Internal Server Error"))).
Proof.
  intros Hh Hr. unfold send_mouse_events, send_mouse_event.
  rewrite Hh, Hr. now destruct (right request).
Qed.

(** X11. A request with [hold] followed by one with [release] amounts to a
    plain click at the same place with the same button: the plain request
    makes the calls of the first, then the delay, then the calls of the
    second.  (The toolkit's calls return.) *)
Theorem send_mouse_events_hold_then_release (x y : float) (right : bool) :
  (forall event_type pos, mouse_outcome event_type pos = Ok tt) ->
  fst (send_mouse_events str_float mouse_outcome
         (mkClickHold x y right false false))
  = fst (send_mouse_events str_float mouse_outcome
           (mkClickHold x y right true false))
      ++ [human_delay 5]
      ++ fst (send_mouse_events str_float mouse_outcome
                (mkClickHold x y right false true))
  /\ (forall hold release,
        hold && release = false ->
        exists message,
          snd (send_mouse_events str_float mouse_outcome
                 (mkClickHold x y right hold release))
          = Ok (MessageResponse message)).
Proof.
  intros Hret. split.
  - unfold send_mouse_events, send_mouse_event, call, ebind, etry. simpl.
    destruct right; rewrite !Hret; reflexivity.
  - intros hold release Hflags.
    unfold send_mouse_events, send_mouse_event, call, ebind, etry. simpl.
    rewrite Hflags.
    destruct right, hold, release; try discriminate; rewrite !Hret;
      eexists; reflexivity.
Qed.

End MouseFacts.

(** * Closing and docking windows *)
Section CloseWindowFacts.
Import CloseWindow.

Lemma hide_other (window : Window) (windows : list Window) :
  ~ In (handle window) (map handle windows) -> hide window windows = windows.
Proof.
  induction windows as [|w rest IH]; simpl; [reflexivity|]. intros Hn.
  destruct (Nat.eqb_spec (handle w) (handle window)) as [E|_].
  - exfalso. apply Hn. now left.
  - f_equal. apply IH. intros Hin. apply Hn. now right.
Qed.

Lemma hide_split (window : Window) (before after : list Window) :
  NoDup (map handle (before ++ window :: after)) ->
  hide window (before ++ window :: after) = before ++ hidden window :: after.
Proof.
  intros Hnd. rewrite map_app in Hnd. simpl in Hnd.
  pose proof (NoDup_remove_2 _ _ _ Hnd) as Hnotin.
  unfold hide. rewrite map_app. simpl. rewrite Nat.eqb_refl.
  fold (hide window before). fold (hide window after).
  rewrite !hide_other; [reflexivity| |]; intros Hin; apply Hnotin;
    apply in_or_app; [now right | now left].
Qed.

Lemma find_visible_split (windows : list Window) (window : Window) :
  find visible windows = Some window ->
  exists before after, windows = before ++ window :: after
    /\ visible window = true
    /\ Forall (fun b => visible b = false) before.
Proof.
  induction windows as [|w rest IH]; simpl; [discriminate|].
  destruct (visible w) eqn:Ev.
  - intros [= <-]. now exists [], rest.
  - intros Hf. destruct (IH Hf) as (before & after & -> & Hv & Hall).
    exists (w :: before), after. repeat apply conj; auto.
Qed.

Lemma find_visible_None (windows : list Window) :
  find visible windows = None -> Forall (fun b => visible b = false) windows.
Proof.
  induction windows as [|w rest IH]; simpl; [constructor|].
  destruct (visible w) eqn:Ev; [discriminate|]. intros Hf.
  constructor; auto.
Qed.

(** A window found at some place among those with the title stands at some
    place among all windows, and the titled ones before it are the same. *)
Lemma titled_split (window_name : string) (windows : list Window)
  (tb ta : list Window) (window : Window) :
  titled window_name windows = tb ++ window :: ta ->
  exists before after, windows = before ++ window :: after
    /\ titled window_name before = tb
    /\ titled window_name after = ta
    /\ title window = window_name.
Proof.
  revert tb. induction windows as [|w rest IH]; intros tb; simpl.
  - destruct tb; discriminate.
  - destruct (String.eqb_spec (title w) window_name) as [Et|Et].
    + destruct tb as [|t tb']; simpl.
      * intros [= -> Hrest]. exists [], rest. simpl. auto.
      * intros [= <- Hrest].
        destruct (IH _ Hrest) as (before & after & -> & Hb & Ha & Ht).
        exists (w :: before), after. simpl.
        destruct (String.eqb_spec (title w) window_name); [|congruence].
        repeat apply conj; auto. now f_equal.
    + intros Hrest.
      destruct (IH _ Hrest) as (before & after & -> & Hb & Ha & Ht).
      exists (w :: before), after. simpl.
      destruct (String.eqb_spec (title w) window_name); [congruence|].
      repeat apply conj; auto.
Qed.

Lemma titled_In (window_name : string) (windows : list Window)
  (window : Window) :
  In window (titled window_name windows)
  <-> In window windows /\ title window = window_name.
Proof.
  unfold titled. rewrite filter_In.
  now destruct (String.eqb_spec (title window) window_name).
Qed.

Lemma titled_nil (window_name : string) (windows : list Window) :
  titled window_name windows = [] ->
  Forall (fun b => title b <> window_name) windows.
Proof.
  intros Hn. apply Forall_forall. intros b Hb Ht.
  assert (Hin : In b (titled window_name windows)) by now apply titled_In.
  now rewrite Hn in Hin.
Qed.

Lemma close_window_chosen (window_name : string) (windows : list Window) :
  close_window window_name windows =
  match chosen window_name windows with
  | Some window =>
      (Ok (MessageResponse (window_name ++ " window closed.")),
       hide window windows)
  | None =>
      (Raise (HTTPException HTTP_404_NOT_FOUND
                (Text (LOG_WINDOW_CLOSE_ERROR ++ ": " ++ window_name))),
       windows)
  end.
Proof.
  unfold close_window, close_window_try.
  now destruct (chosen window_name windows).
Qed.

Lemma chosen_None (window_name : string) (windows : list Window) :
  chosen window_name windows = None
  <-> List.length (titled window_name windows) <> 1
      /\ Forall (fun b => visible b = false) (titled window_name windows).
Proof.
  unfold chosen. fold (titled window_name windows).
  destruct (Nat.eqb_spec (List.length (titled window_name windows)) 1)
    as [E|E].
  - split; [|now intros [? _]].
    destruct (titled window_name windows); [discriminate|discriminate].
  - split.
    + intros Hf. split; [assumption|now apply find_visible_None].
    + intros [_ Hall]. destruct (find visible _) eqn:Ef; [|reflexivity].
      apply find_some in Ef. destruct Ef as [Hin Hv].
      rewrite Forall_forall in Hall. rewrite (Hall _ Hin) in Hv.
      discriminate.
Qed.

(** X12. [close_window] fails exactly when the number of windows with the
    title is not one and none of them is visible: a single window with the
    title is closed whether visible or not.  The failure is always the 404
    of the [except] clause ("Error occurred while closing window"), never
    the "Failed to find visible window" raised inside the [try], and it
    leaves the windows as they are. *)
Theorem close_window_fails_iff (window_name : string)
  (windows : list Window) :
  ((exists e, fst (close_window window_name windows) = Raise e)
   <-> List.length (titled window_name windows) <> 1
       /\ Forall (fun b => visible b = false) (titled window_name windows))
  /\ (forall e, fst (close_window window_name windows) = Raise e ->
        e = HTTPException 404
              (Text ("Error occurred while closing window: " ++ window_name))
        /\ snd (close_window window_name windows) = windows).
Proof.
  rewrite close_window_chosen. split.
  - rewrite <- chosen_None.
    destruct (chosen window_name windows); simpl; split.
    + intros [e He]. discriminate.
    + discriminate.
    + reflexivity.
    + intros _. eexists. reflexivity.
  - intros e. destruct (chosen window_name windows); simpl; [discriminate|].
    intros [= <-]. split; reflexivity.
Qed.

(** X13. When [close_window] succeeds and the workspace lists every window
    object once, exactly one window changes: one with the title, which ends
    hidden, all others as before.  It is the only window with the title, or
    else the first visible one with the title. *)
Theorem close_window_hides_one (window_name : string)
  (windows : list Window) (response : Response) :
  NoDup (map handle windows) ->
  fst (close_window window_name windows) = Ok response ->
  response = MessageResponse (window_name ++ " window closed.")
  /\ exists before window after,
       windows = before ++ window :: after
       /\ title window = window_name
       /\ snd (close_window window_name windows)
          = before ++ hidden window :: after
       /\ (Forall (fun b => title b <> window_name) (before ++ after)
           \/ (visible window = true
               /\ Forall (fun b => title b = window_name -> visible b = false)
                    before)).
Proof.
  intros Hnd. rewrite close_window_chosen.
  destruct (chosen window_name windows) as [window|] eqn:Ec; simpl;
    [|discriminate].
  intros [= <-]. split; [reflexivity|].
  unfold chosen in Ec. fold (titled window_name windows) in Ec.
  destruct (Nat.eqb_spec (List.length (titled window_name windows)) 1)
    as [E|E].
  - destruct (titled window_name windows) as [|w [|w' ts]] eqn:Et;
      try discriminate.
    simpl in Ec. injection Ec as ->.
    destruct (titled_split window_name windows [] [] window Et)
      as (before & after & -> & Hb & Ha & Ht).
    exists before, window, after. repeat apply conj; auto.
    + now apply hide_split.
    + left. apply Forall_app. split; now apply titled_nil.
  - destruct (find_visible_split _ _ Ec) as (tb & ta & Et & Hv & Hall).
    destruct (titled_split window_name windows tb ta window Et)
      as (before & after & -> & Hb & Ha & Ht).
    exists before, window, after. repeat apply conj; auto.
    + now apply hide_split.
    + right. split; [assumption|].
      apply Forall_forall. intros b Hb' Htb.
      rewrite Forall_forall in Hall. apply Hall. rewrite <- Hb.
      now apply titled_In.
Qed.

End CloseWindowFacts.

Lemma string_app_assoc (a b c : string) :
  ((a ++ b) ++ c = a ++ (b ++ c))%string.
Proof. induction a as [|x a IH]; simpl; [reflexivity|now rewrite IH]. Qed.

Lemma string_app_nil_r (a : string) : (a ++ "" = a)%string.
Proof. induction a as [|x a IH]; simpl; [reflexivity|now rewrite IH]. Qed.

Section DockWindowFacts.
Import DockWindow.
Variable WindowHandle : Type.
Variable DockPosition : Type.
Variable get_window : string -> option WindowHandle.
Variable DockPosition_members : Dict.t DockPosition.
Variable upper : string -> string.

(** X14. [dock_window] calls [dock_in] only when both windows are found and
    the position, in upper case, is a member of [ui.DockPosition]: then it
    docks once and answers with the message.  If any of the three fails it
    calls nothing and raises a 400.  Its detail is "Bad request - ", the
    errors joined by "; ", and, when a parameter passed, ". Valid
    parameters: " and the passed ones joined by "; ".  Each parameter is in
    exactly one of the two lists, under its own name and value: a window not
    found and an invalid position (with the valid positions) among the
    errors, the others among the valid ones. *)
Theorem dock_window_validates (request : DockWindowRequest.t) :
  (forall window target position,
     get_window (DockWindowRequest.first_window request) = Some window ->
     get_window (DockWindowRequest.second_window request) = Some target ->
     Dict.get (upper (DockWindowRequest.dock_position request))
       DockPosition_members = Some position ->
     dock_window get_window DockPosition_members upper request
     = ([dock_in window target position],
        Ok (MessageResponse
              (DockWindowRequest.first_window request
                 ++ " docked into "
                 ++ DockWindowRequest.second_window request
                 ++ " with dock position as "
                 ++ DockWindowRequest.dock_position request))))
  /\ (failing WindowHandle DockPosition get_window DockPosition_members
        upper request <> 0 ->
      exists errors valid_info,
        dock_window get_window DockPosition_members upper request
        = ([], Raise (HTTPException 400
                        (Text ("Bad request - "
                                 ++ String.concat "; " errors
                                 ++ match valid_info with
                                    | [] => ""
                                    | _ :: _ =>
                                        ". Valid parameters: "
                                          ++ String.concat "; " valid_info
                                    end))))
        /\ List.length errors
           = failing WindowHandle DockPosition get_window
               DockPosition_members upper request
        /\ List.length errors + List.length valid_info = 3
        /\ match get_window (DockWindowRequest.first_window request) with
           | None =>
               In ("first_window '"
                     ++ DockWindowRequest.first_window request
                     ++ "' not found")%string errors
           | Some _ =>
               In ("first_window '"
                     ++ DockWindowRequest.first_window request
                     ++ "' is valid")%string valid_info
           end
        /\ match get_window (DockWindowRequest.second_window request) with
           | None =>
               In ("second_window '"
                     ++ DockWindowRequest.second_window request
                     ++ "' not found")%string errors
           | Some _ =>
               In ("second_window '"
                     ++ DockWindowRequest.second_window request
                     ++ "' is valid")%string valid_info
           end
        /\ match Dict.get (upper (DockWindowRequest.dock_position request))
                   DockPosition_members with
           | None =>
               In ("dock_position '"
                     ++ DockWindowRequest.dock_position request
                     ++ "' is invalid (valid positions: "
                     ++ String.concat ", " (Dict.keys DockPosition_members)
                     ++ ")")%string errors
           | Some _ =>
               In ("dock_position '"
                     ++ DockWindowRequest.dock_position request
                     ++ "' is valid")%string valid_info
           end).
Proof.
  unfold dock_window, failing. split.
  - intros window target position -> -> ->. reflexivity.
  - intros Hn.
    exists (errors_of DockPosition_members request
              (get_window (DockWindowRequest.first_window request))
              (get_window (DockWindowRequest.second_window request))
              (Dict.get (upper (DockWindowRequest.dock_position request))
                 DockPosition_members)),
           (valid_info_of request
              (get_window (DockWindowRequest.first_window request))
              (get_window (DockWindowRequest.second_window request))
              (Dict.get (upper (DockWindowRequest.dock_position request))
                 DockPosition_members)).
    destruct (get_window (DockWindowRequest.first_window request)),
      (get_window (DockWindowRequest.second_window request)),
      (Dict.get (upper (DockWindowRequest.dock_position request))
         DockPosition_members);
      cbn [errors_of valid_info_of app eraise] in *;
      try (now exfalso; apply Hn);
      (repeat apply conj;
       [ rewrite ?string_app_assoc, ?string_app_nil_r; reflexivity
       | reflexivity
       | reflexivity
       | cbn [In]; auto
       | cbn [In]; auto
       | cbn [In]; auto ]).
Qed.

End DockWindowFacts.

(** * Selecting a combobox item *)
Section ComboBoxFacts.
Import ComboBox.
Variable Item : Type.
Variable name_of : Item -> string.
Variable value_of : Item -> string.
Variable set_index_outcome : Z -> Result unit.

Lemma next_index_first (n : string) (before : list Item) (item : Item)
  (after : list Item) (i : nat) :
  Forall (fun b => name_of b <> n) before ->
  name_of item = n ->
  next_index name_of (Some n) (before ++ item :: after) i
  = i + List.length before.
Proof.
  intros Hb Hi. revert i. induction Hb as [|b before Hn _ IH]; intros i; simpl.
  - rewrite <- Hi, String.eqb_refl. lia.
  - destruct (String.eqb_spec n (name_of b)) as [E|_]; [now symmetry in E|].
    rewrite IH. lia.
Qed.

Lemma next_index_none (name : option string) (string_items : list Item)
  (i : nat) :
  (forall n, name = Some n -> Forall (fun b => name_of b <> n) string_items) ->
  next_index name_of name string_items i = i + List.length string_items.
Proof.
  intros Hall. revert i.
  induction string_items as [|b rest IH]; intros i; simpl; [lia|].
  assert (Hrest : forall n, name = Some n ->
                            Forall (fun b => name_of b <> n) rest).
  { intros n Hn. specialize (Hall n Hn). now inversion Hall. }
  destruct name as [n|].
  - specialize (Hall n eq_refl). inversion Hall as [|? ? Hb _]; subst.
    destruct (String.eqb_spec n (name_of b)) as [E|_]; [now symmetry in E|].
    rewrite (IH Hrest). lia.
  - rewrite (IH Hrest). lia.
Qed.

Lemma py_index_middle (before : list Item) (item : Item) (after : list Item) :
  py_index (before ++ item :: after) (Z.of_nat (List.length before))
  = Some item.
Proof.
  unfold py_index.
  destruct (Z.leb_spec 0 (Z.of_nat (List.length before))) as [_|Hneg]; [|lia].
  rewrite Nat2Z.id, nth_error_app2 by lia. now rewrite Nat.sub_diag.
Qed.

(** X15. With no index in the request, [select_combobox_item] selects the
    first item whose name is the request's: it assigns that position to the
    model and answers with the position and the item's value. *)
Theorem select_by_name_first_match (n : string)
  (before : list Item) (item : Item) (after : list Item) :
  Forall (fun b => name_of b <> n) before ->
  name_of item = n ->
  set_index_outcome (Z.of_nat (List.length before)) = Ok tt ->
  select_item name_of value_of set_index_outcome None (Some n)
    (Some (before ++ item :: after))
  = ([set_index (Z.of_nat (List.length before))],
     Ok (MessageResponse
           ("Selected item at index "
              ++ str_int (Z.of_nat (List.length before))
              ++ " with value " ++ value_of item ++ "."))).
Proof.
  intros Hb Hi Hset. unfold select_item.
  rewrite (next_index_first n before item after 0 Hb Hi). simpl Nat.add.
  destruct (Z.leb_spec (Z.of_nat (List.length (before ++ item :: after)))
              (Z.of_nat (List.length before))) as [Hle|_].
  - rewrite length_app in Hle. simpl in Hle. lia.
  - unfold ebind, call. rewrite Hset, py_index_middle. reflexivity.
Qed.

(** X16. [select_combobox_item] answers 404 and leaves the model alone when
    the model has no items to offer under the request: no index and no item
    with the name, or an index at or past the number of items, whatever the
    name. *)
Theorem select_not_present (index : option Z) (name : option string)
  (string_items : list Item) :
  match index with
  | Some i => (Z.of_nat (List.length string_items) <= i)%Z
  | None =>
      forall n, name = Some n -> Forall (fun b => name_of b <> n) string_items
  end ->
  select_item name_of value_of set_index_outcome index name
    (Some string_items)
  = ([], Raise (HTTPException 404
                  (Text ("Item with name " ++ str_opt name ++ " and index "
                           ++ str_opt_int index
                           ++ " not present in combobox.")))).
Proof.
  intros H. unfold select_item. destruct index as [i|].
  - destruct (Z.leb_spec (Z.of_nat (List.length string_items)) i); [|lia].
    reflexivity.
  - rewrite (next_index_none name string_items 0 H). simpl Nat.add.
    rewrite Z.leb_refl. reflexivity.
Qed.

(** X17. An index in the request decides alone: with an index inside the
    list the item at that position is selected and reported, whatever name
    the request carries beside it. *)
Theorem select_index_precedence (i : nat) (name : option string)
  (string_items : list Item) (item : Item) :
  nth_error string_items i = Some item ->
  set_index_outcome (Z.of_nat i) = Ok tt ->
  select_item name_of value_of set_index_outcome (Some (Z.of_nat i)) name
    (Some string_items)
  = ([set_index (Z.of_nat i)],
     Ok (MessageResponse
           ("Selected item at index " ++ str_int (Z.of_nat i)
              ++ " with value " ++ value_of item ++ "."))).
Proof.
  intros Hnth Hset. unfold select_item.
  assert (Hlt : i < List.length string_items).
  { apply nth_error_Some. congruence. }
  destruct (Z.leb_spec (Z.of_nat (List.length string_items)) (Z.of_nat i));
    [lia|].
  unfold ebind, call, py_index. rewrite Hset.
  destruct (Z.leb_spec 0 (Z.of_nat i)); [|lia].
  rewrite Nat2Z.id, Hnth. reflexivity.
Qed.

(** X18. A negative index passes the bound check: the model's index is
    assigned the negative number itself.  The answer then reports the item
    counted from the end of the list, or, when the index reaches before the
    first item, the endpoint fails with the list's own error and not with a
    404. *)
Theorem select_negative_index (i : Z) (name : option string)
  (string_items : list Item) :
  (i < 0)%Z ->
  set_index_outcome i = Ok tt ->
  exists result,
    select_item name_of value_of set_index_outcome (Some i) name
      (Some string_items)
    = ([set_index i], result)
    /\ (forall item,
          nth_error string_items
            (Z.to_nat (Z.of_nat (List.length string_items) + i)) = Some item ->
          (- Z.of_nat (List.length string_items) <= i)%Z ->
          result = Ok (MessageResponse
                         ("Selected item at index " ++ str_int i
                            ++ " with value " ++ value_of item ++ ".")))
    /\ ((i < - Z.of_nat (List.length string_items))%Z ->
        result = Raise (RuntimeError "list index out of range")).
Proof.
  intros Hneg Hset. unfold select_item.
  destruct (Z.leb_spec (Z.of_nat (List.length string_items)) i); [lia|].
  unfold ebind, call, py_index. rewrite Hset.
  destruct (Z.leb_spec 0 i); [lia|].
  destruct (Z.leb_spec (- Z.of_nat (List.length string_items)) i) as [Hin|Hout].
  - destruct (nth_error string_items
                (Z.to_nat (Z.of_nat (List.length string_items) + i)))
      as [item|] eqn:En.
    + eexists. split; [reflexivity|]. split; [|lia].
      now intros item' [= <-] _.
    + eexists. split; [reflexivity|]. split; [discriminate|lia].
  - eexists. split; [reflexivity|]. split; [lia|reflexivity].
Qed.

End ComboBoxFacts.

(** * Prims by visibility *)
Section UsdHelperFacts.
Import UsdHelper.
Variable Prim : Type.
Variable ComputeVisibility : Prim -> string.
Variable GetPath : Prim -> string.
Variable invisible : string.

(** X19. [get_visible_prims] and [get_invisible_prims] share out the
    traversal: every prim's path is in exactly one of the two lists, as
    often as the traversal yields it, so the two lists together are a
    rearrangement of the paths of the traversal. *)
Theorem visible_invisible_partition (stage : list Prim) :
  Permutation
    (get_visible_prims Prim ComputeVisibility GetPath invisible stage
       ++ get_invisible_prims Prim ComputeVisibility GetPath invisible stage)
    (map GetPath stage)
  /\ List.length (get_visible_prims Prim ComputeVisibility GetPath invisible stage)
     + List.length (get_invisible_prims Prim ComputeVisibility GetPath invisible stage)
     = List.length stage.
Proof.
  unfold get_visible_prims, get_invisible_prims.
  assert (HP : Permutation
    (map GetPath (filter (fun prim =>
        negb (String.eqb (ComputeVisibility prim) invisible)) stage)
     ++ map GetPath (filter (fun prim =>
        String.eqb (ComputeVisibility prim) invisible) stage))
    (map GetPath stage)).
  { induction stage as [|prim rest IH]; simpl; [constructor|].
    destruct (String.eqb (ComputeVisibility prim) invisible); simpl.
    - apply Permutation_sym, Permutation_cons_app, Permutation_sym, IH.
    - now constructor. }
  split; [exact HP|].
  apply Permutation_length in HP.
  rewrite length_app, (length_map GetPath stage) in HP. exact HP.
Qed.

End UsdHelperFacts.

(** * Context menu items *)
Section ContextMenuFacts.
Import ContextMenu.

Lemma sub_non_ascii_ascii_only (in_run : bool) (text : string) :
  ascii_only (sub_non_ascii in_run text).
Proof.
  revert in_run. induction text as [|c rest IH]; intros in_run; simpl.
  - constructor.
  - destruct (is_ascii c) eqn:Ec.
    + constructor; [assumption|apply IH].
    + destruct in_run; [apply IH|]. constructor; [reflexivity|apply IH].
Qed.

Lemma lstrip_ascii_only (s : string) : ascii_only s -> ascii_only (lstrip s).
Proof.
  induction s as [|c rest IH]; simpl; [auto|]. intros H.
  destruct (isspace c); [|assumption]. apply IH. now inversion H.
Qed.

Lemma clean_ascii_only (text : string) : ascii_only (clean text).
Proof. apply lstrip_ascii_only, sub_non_ascii_ascii_only. Qed.

Lemma sub_non_ascii_id (in_run : bool) (name : string) :
  ascii_only name -> sub_non_ascii in_run name = name.
Proof.
  revert in_run. induction name as [|c rest IH]; intros in_run H; simpl;
    [reflexivity|].
  inversion H as [|? ? Hc Hrest]; subst. rewrite Hc. f_equal. now apply IH.
Qed.

Lemma sub_non_ascii_icon (icon name : string) :
  non_ascii_only icon -> ascii_only name ->
  sub_non_ascii true (icon ++ name) = name.
Proof.
  intros Hi Hn. induction icon as [|c rest IH]; simpl.
  - now apply sub_non_ascii_id.
  - inversion Hi as [|? ? Hc Hrest]; subst. rewrite Hc. now apply IH.
Qed.

Lemma lstrip_id (name : string) : no_leading_space name -> lstrip name = name.
Proof. destruct name as [|c rest]; simpl; [auto|]. now intros ->. Qed.

Lemma lstrip_spaces (spaces name : string) :
  Forall (fun c => isspace c = true) (list_ascii_of_string spaces) ->
  lstrip (spaces ++ name) = lstrip name.
Proof.
  induction spaces as [|c rest IH]; simpl; [reflexivity|]. intros H.
  inversion H as [|? ? Hc Hrest]; subst. rewrite Hc. now apply IH.
Qed.

(** X20. The text of a menu item is compared without its icon: characters
    outside ASCII at the start of the text, and the white space after them,
    do not count, so a name of ASCII characters is what remains of the text
    "<icon><spaces><name>". *)
Theorem clean_drops_icon (icon spaces name : string) :
  non_ascii_only icon ->
  Forall (fun c => isspace c = true) (list_ascii_of_string spaces) ->
  ascii_only name ->
  no_leading_space name ->
  clean (icon ++ spaces ++ name) = name.
Proof.
  intros Hi Hs Hn Hl. unfold clean.
  assert (Hsp : ascii_only spaces).
  { unfold ascii_only. eapply Forall_impl; [|exact Hs].
    intros [b0 b1 b2 b3 b4 b5 b6 b7]. destruct b7; [|reflexivity].
    intros Hc. exfalso. revert Hc. unfold isspace.
    destruct b0, b1, b2, b3, b4, b5, b6; vm_compute; discriminate. }
  assert (Hsn : ascii_only (spaces ++ name)).
  { unfold ascii_only in *. clear Hs Hl Hi.
    induction spaces as [|c rest IH]; simpl; [assumption|].
    inversion Hsp; subst. constructor; auto. }
  destruct icon as [|c rest].
  - simpl. rewrite sub_non_ascii_id by assumption.
    rewrite lstrip_spaces by assumption. now apply lstrip_id.
  - inversion Hi as [|? ? Hc Hrest]; subst.
    cbn [append sub_non_ascii]. rewrite Hc.
    rewrite sub_non_ascii_icon by assumption.
    change (lstrip (String " " (spaces ++ name)))
      with (lstrip (spaces ++ name)).
    rewrite lstrip_spaces by assumption. now apply lstrip_id.
Qed.

Section WithHost.
Variable MenuWidget : Type.
Variable get_children : MenuWidget -> list MenuWidget.
Variable is_menu : MenuWidget -> bool.
Variable text : MenuWidget -> string.

Lemma find_menu_item_Some (query : string) (menu_root child : MenuWidget) :
  find_menu_item MenuWidget get_children is_menu text query menu_root
  = Some child ->
  In child (get_children menu_root) /\ is_menu child = true
  /\ clean (text child) = query.
Proof.
  unfold find_menu_item. intros Hf. apply find_some in Hf.
  destruct Hf as [Hin Hb]. apply andb_prop in Hb. destruct Hb as [Hm He].
  apply String.eqb_eq in He. auto.
Qed.

Lemma descend_reaches (tokens : list string) (root item : MenuWidget) :
  descend MenuWidget get_children is_menu text tokens root = Some item ->
  reaches MenuWidget get_children is_menu text tokens root item.
Proof.
  revert root. induction tokens as [|token rest IH]; intros root; simpl.
  - intros [= <-]. constructor.
  - destruct (find_menu_item MenuWidget get_children is_menu text token root)
      as [child|] eqn:Ef; [|discriminate].
    intros Hd. apply find_menu_item_Some in Ef.
    destruct Ef as (Hin & Hm & Hc).
    econstructor; eauto.
Qed.

(** X21. An item [find_context_menu_item] returns is reached from the root
    of the menu along the pieces of the query between its slashes: each
    piece is the cleaned text of a child that is a menu or a menu item. *)
Theorem find_context_menu_item_sound (query : string)
  (menu_root item : MenuWidget) :
  find_context_menu_item MenuWidget get_children is_menu text query menu_root
  = Some item ->
  reaches MenuWidget get_children is_menu text (split_on "/" query)
    menu_root item.
Proof. unfold find_context_menu_item. apply descend_reaches. Qed.

Lemma split_on_non_ascii (query : string) (c : ascii) :
  In c (list_ascii_of_string query) -> is_ascii c = false ->
  exists token, In token (split_on "/" query)
    /\ In c (list_ascii_of_string token).
Proof.
  intros Hin Hc. induction query as [|a rest IH]; simpl in *; [contradiction|].
  destruct (Ascii.eqb_spec a "/"%char) as [Ea|Ea].
  - destruct Hin as [->|Hin]; [subst; discriminate|].
    destruct (IH Hin) as (token & Ht & Hct). exists token. split; auto.
    now right.
  - destruct (split_on_cons "/" rest) as (piece & pieces & Hs).
    rewrite Hs in *. destruct Hin as [->|Hin].
    + exists (String c piece). split; [now left|now left].
    + destruct (IH Hin) as (token & [<-|Ht] & Hct).
      * exists (String a piece). split; [now left|now right].
      * exists token. split; [now right|assumption].
Qed.

Lemma descend_unmatched (tokens : list string) (root : MenuWidget)
  (token : string) :
  In token tokens ->
  (forall w, clean (text w) <> token) ->
  descend MenuWidget get_children is_menu text tokens root = None.
Proof.
  intros Hin Hno. revert root.
  induction tokens as [|t rest IH]; intros root; simpl; [contradiction|].
  destruct (find_menu_item MenuWidget get_children is_menu text t root)
    as [child|] eqn:Ef; [|reflexivity].
  destruct Hin as [->|Hin]; [|now apply IH].
  apply find_menu_item_Some in Ef. destruct Ef as (_ & _ & Hc).
  exfalso. exact (Hno _ Hc).
Qed.

(** X22. A query with a character outside ASCII finds nothing, whatever the
    menu shows: the texts of the menu are compared with such characters
    replaced. *)
Theorem non_ascii_query_finds_nothing (query : string) (c : ascii)
  (menu_root : MenuWidget) :
  In c (list_ascii_of_string query) ->
  is_ascii c = false ->
  find_context_menu_item MenuWidget get_children is_menu text query menu_root
  = None.
Proof.
  intros Hin Hc. unfold find_context_menu_item.
  destruct (split_on_non_ascii query c Hin Hc) as (token & Ht & Hct).
  apply (descend_unmatched _ _ token Ht).
  intros w Hw. pose proof (clean_ascii_only (text w)) as Ha.
  rewrite Hw in Ha. unfold ascii_only in Ha. rewrite Forall_forall in Ha.
  rewrite (Ha _ Hct) in Hc. discriminate.
Qed.

End WithHost.
End ContextMenuFacts.

(** ** The further statements at work *)

Lemma find_element_again_witness :
  exists r st1,
    Query.find_element Demo.host (FindElementRequest.mk "Stage" None)
      Demo.one_button = (Ok r, st1)
    /\ Query.find_element Demo.host (FindElementRequest.mk "Stage" None) st1
       = (Ok r, st1).
Proof.
  assert (H : exists r st1,
             Query.find_element Demo.host (FindElementRequest.mk "Stage" None)
               Demo.one_button = (Ok r, st1))
    by (eexists _, _; vm_compute; reflexivity).
  destruct H as (r & st1 & H). exists r, st1. split; [exact H|].
  exact (find_element_again Demo.host (FindElementRequest.mk "Stage" None)
           Demo.one_button st1 r demo_uuid4_unique demo_one_button_reachable
           H).
Defined.

(** The two buttons of the first row, found twice. *)
Lemma find_elements_again_witness :
  exists r st1,
    Query.find_elements Demo.host
      (FindElementsRequest.mk "Stage//Frame/HStack[0]/Button[*]" None true)
      Demo.one_button = (Ok r, st1)
    /\ Query.find_elements Demo.host
         (FindElementsRequest.mk "Stage//Frame/HStack[0]/Button[*]" None true)
         st1 = (Ok r, st1).
Proof.
  assert (H : exists r st1,
             Query.find_elements Demo.host
               (FindElementsRequest.mk "Stage//Frame/HStack[0]/Button[*]"
                  None true)
               Demo.one_button = (Ok r, st1))
    by (eexists _, _; vm_compute; reflexivity).
  destruct H as (r & st1 & H). exists r, st1. split; [exact H|].
  apply (find_elements_again Demo.host
           (FindElementsRequest.mk "Stage//Frame/HStack[0]/Button[*]" None true)
           Demo.one_button st1 r demo_uuid4_unique demo_one_button_reachable);
    [vm_compute; lia|exact H].
Defined.

(** The cached button after a scroll in its own window. *)
Lemma scroll_refresh_entries_witness :
  Dict.wf (element_map Demo.one_button)
  /\ (Dict.get "uuid-0"
        (element_map
           (ScrollRefresh.update_cache Demo.host (fun _ => true)
              (fun _ => false) Demo.stage_window Demo.one_button))
      = Some (OmniElement (Demo.button 0 "Stage//Frame/Button[0]"))
      \/ exists locator first others,
           ui_test_find_all Demo.host locator = first :: others
           /\ ScrollRefresh.window_of
                (path (OmniElement (Demo.button 0 "Stage//Frame/Button[0]")))
              = ScrollRefresh.window_of (path Demo.stage_window)
           /\ true = true
           /\ Dict.get "uuid-0"
                (element_map
                   (ScrollRefresh.update_cache Demo.host (fun _ => true)
                      (fun _ => false) Demo.stage_window Demo.one_button))
              = Some (OmniElement first)).
Proof.
  assert (Hwf : Dict.wf (element_map Demo.one_button)).
  { vm_compute. constructor; [intros []|constructor]. }
  split; [exact Hwf|].
  exact (proj2 (scroll_refresh_entries Demo.host (fun _ => true)
                  (fun _ => false) Demo.stage_window Demo.one_button "uuid-0"
                  (OmniElement (Demo.button 0 "Stage//Frame/Button[0]"))
                  Hwf eq_refl)).
Defined.

Lemma key_events_hold_and_release_witness :
  fst (Keyboard.key_events Demo.host demo_members demo_keyboard_outcome
         (KeyPressRequest.mk "CTRL+A" true true 5)) = []
  /\ exists reason,
       snd (Keyboard.key_events Demo.host demo_members demo_keyboard_outcome
              (KeyPressRequest.mk "CTRL+A" true true 5))
       = Raise (HTTPException 500
                  (Text ("Failed to press key combo " ++ "CTRL+A"
                           ++ " due to " ++ reason ++ "."))).
Proof.
  exact (key_events_hold_and_release Demo.host string demo_members
           demo_keyboard_outcome (KeyPressRequest.mk "CTRL+A" true true 5)
           eq_refl eq_refl).
Defined.

Lemma key_events_invalid_key_witness :
  split_on "+" "CTRL+Q1+A" = ["CTRL"] ++ "Q1" :: ["A"]
  /\ Keyboard.key_events Demo.host demo_members demo_keyboard_outcome
       (KeyPressRequest.mk "CTRL+Q1+A" true false 5)
     = ([Keyboard.emulate_keyboard Keyboard.KEY_PRESS "CTRL"],
        Raise (HTTPException 500
                 (Text ("Failed to press key combo " ++ "CTRL+Q1+A"
                          ++ " due to Invalid key: " ++ "Q1" ++ ".")))).
Proof.
  split; [reflexivity|].
  apply (key_events_invalid_key Demo.host string demo_members
           demo_keyboard_outcome
           (KeyPressRequest.mk "CTRL+Q1+A" true false 5)
           ["CTRL"] ["CTRL"] "Q1" ["A"]).
  - intros event_type key. reflexivity.
  - reflexivity.
  - reflexivity.
  - constructor; [reflexivity|constructor].
  - reflexivity.
Defined.

Lemma key_events_pressed_witness :
  Keyboard.key_events Demo.host demo_members demo_keyboard_outcome
    (KeyPressRequest.mk "CTRL+A" false false 5)
  = ([Keyboard.emulate_keyboard Keyboard.KEY_PRESS "CTRL";
      Keyboard.sleep 5;
      Keyboard.emulate_keyboard Keyboard.KEY_PRESS "CTRL";
      Keyboard.emulate_keyboard Keyboard.KEY_PRESS "A";
      Keyboard.sleep 5;
      Keyboard.emulate_keyboard Keyboard.KEY_PRESS "A"],
     Ok (MessageResponse ("Key combo '" ++ "CTRL+A" ++ "' pressed."))).
Proof.
  apply (key_events_pressed Demo.host string demo_members
           demo_keyboard_outcome
           (KeyPressRequest.mk "CTRL+A" false false 5) ["CTRL"; "A"]).
  - intros event_type key. reflexivity.
  - reflexivity.
  - constructor; [reflexivity|]. constructor; [reflexivity|constructor].
Defined.

Lemma key_events_release_discipline_witness :
  In (Keyboard.emulate_keyboard Keyboard.KEY_RELEASE "A")
     (fst (Keyboard.key_events Demo.host demo_members demo_keyboard_outcome
             (KeyPressRequest.mk "CTRL+A" false true 5)))
  /\ KeyPressRequest.release (KeyPressRequest.mk "CTRL+A" false true 5) = true
  /\ KeyPressRequest.hold (KeyPressRequest.mk "CTRL+A" false true 5) = false.
Proof.
  assert (H : In (Keyboard.emulate_keyboard Keyboard.KEY_RELEASE "A")
                (fst (Keyboard.key_events Demo.host demo_members
                        demo_keyboard_outcome
                        (KeyPressRequest.mk "CTRL+A" false true 5)))).
  { right. left. reflexivity. }
  split; [exact H|].
  exact (key_events_release_discipline Demo.host string demo_members
           demo_keyboard_outcome
           (KeyPressRequest.mk "CTRL+A" false true 5) "A" H).
Defined.

Lemma send_mouse_events_hold_and_release_witness :
  Mouse.send_mouse_events demo_str_float demo_mouse_outcome
    (Mouse.mkClickHold 10 20 false true true)
  = ([], Raise (HTTPException 500 (Text "Internal Server Error"))).
Proof.
  exact (send_mouse_events_hold_and_release nat demo_str_float
           demo_mouse_outcome (Mouse.mkClickHold 10 20 false true true)
           eq_refl eq_refl).
Defined.

Lemma send_mouse_events_hold_then_release_witness :
  fst (Mouse.send_mouse_events demo_str_float demo_mouse_outcome
         (Mouse.mkClickHold 10 20 false false false))
  = fst (Mouse.send_mouse_events demo_str_float demo_mouse_outcome
           (Mouse.mkClickHold 10 20 false true false))
    ++ [Mouse.human_delay 5]
    ++ fst (Mouse.send_mouse_events demo_str_float demo_mouse_outcome
              (Mouse.mkClickHold 10 20 false false true)).
Proof.
  exact (proj1 (send_mouse_events_hold_then_release nat demo_str_float
                  demo_mouse_outcome 10 20 false
                  (fun _ _ => eq_refl))).
Defined.

Lemma close_window_hides_one_witness :
  NoDup (map CloseWindow.handle demo_windows)
  /\ exists before window after,
       demo_windows = before ++ window :: after
       /\ CloseWindow.title window = "Content"
       /\ snd (CloseWindow.close_window "Content" demo_windows)
          = before ++ hidden window :: after
       /\ (Forall (fun b => CloseWindow.title b <> "Content") (before ++ after)
           \/ (CloseWindow.visible window = true
               /\ Forall (fun b => CloseWindow.title b = "Content" ->
                                   CloseWindow.visible b = false) before)).
Proof.
  assert (Hnd : NoDup (map CloseWindow.handle demo_windows)).
  { repeat constructor; simpl; intuition discriminate. }
  split; [exact Hnd|].
  exact (proj2 (close_window_hides_one "Content" demo_windows
                  (MessageResponse ("Content" ++ " window closed."))
                  Hnd eq_refl)).
Defined.

Lemma select_by_name_first_match_witness :
  ComboBox.select_item fst snd demo_set_index_outcome None (Some "High")
    (Some demo_items)
  = ([ComboBox.set_index 1],
     Ok (MessageResponse "Selected item at index 1 with value 0.75.")).
Proof.
  apply (select_by_name_first_match (string * string) fst snd
           demo_set_index_outcome "High" [("Low", "0.25")] ("High", "0.75")
           [("High", "1.0")]).
  - constructor; [discriminate|constructor].
  - reflexivity.
  - reflexivity.
Defined.

Lemma select_not_present_witness :
  ComboBox.select_item fst snd demo_set_index_outcome None (Some "Ultra")
    (Some demo_items)
  = ([], Raise (HTTPException 404
                  (Text "Item with name Ultra and index None not present in combobox.")))
  /\ ComboBox.select_item fst snd demo_set_index_outcome (Some 3%Z)
       (Some "Low") (Some demo_items)
     = ([], Raise (HTTPException 404
                     (Text "Item with name Low and index 3 not present in combobox."))).
Proof.
  split.
  - apply (select_not_present (string * string) fst snd
             demo_set_index_outcome None (Some "Ultra") demo_items).
    intros n [= <-]. repeat constructor; discriminate.
  - apply (select_not_present (string * string) fst snd
             demo_set_index_outcome (Some 3%Z) (Some "Low") demo_items).
    simpl. lia.
Defined.

Lemma select_index_precedence_witness :
  ComboBox.select_item fst snd demo_set_index_outcome (Some 2%Z) (Some "Low")
    (Some demo_items)
  = ([ComboBox.set_index 2],
     Ok (MessageResponse "Selected item at index 2 with value 1.0.")).
Proof.
  exact (select_index_precedence (string * string) fst snd
           demo_set_index_outcome 2 (Some "Low") demo_items ("High", "1.0")
           eq_refl eq_refl).
Defined.

Lemma select_negative_index_witness :
  exists result,
    ComboBox.select_item fst snd demo_set_index_outcome (Some (-1)%Z) None
      (Some demo_items)
    = ([ComboBox.set_index (-1)], result)
    /\ result
       = Ok (MessageResponse "Selected item at index -1 with value 1.0.").
Proof.
  destruct (select_negative_index (string * string) fst snd
              demo_set_index_outcome (-1)%Z None demo_items)
    as (result & Hrun & Hin & _); [lia|reflexivity|].
  exists result. split; [exact Hrun|].
  apply (Hin ("High", "1.0")); [reflexivity|simpl; lia].
Defined.

Lemma clean_drops_icon_witness :
  ContextMenu.clean (demo_icon ++ " " ++ "Copy Prim Path") = "Copy Prim Path".
Proof.
  apply (clean_drops_icon demo_icon " " "Copy Prim Path").
  - repeat constructor.
  - repeat constructor.
  - repeat constructor.
  - reflexivity.
Defined.

Lemma find_context_menu_item_sound_witness :
  ContextMenu.find_context_menu_item nat demo_menu_children (fun _ => true)
    demo_menu_text "File/Open" 0 = Some 3
  /\ reaches nat demo_menu_children (fun _ => true) demo_menu_text
       (split_on "/" "File/Open") 0 3.
Proof.
  split; [reflexivity|].
  exact (find_context_menu_item_sound nat demo_menu_children (fun _ => true)
           demo_menu_text "File/Open" 0 3 eq_refl).
Defined.

Lemma non_ascii_query_finds_nothing_witness :
  ContextMenu.find_context_menu_item nat demo_menu_children (fun _ => true)
    demo_menu_text ("File/" ++ demo_icon ++ " Open") 0 = None.
Proof.
  apply (non_ascii_query_finds_nothing nat demo_menu_children (fun _ => true)
           demo_menu_text ("File/" ++ demo_icon ++ " Open")
           (ascii_of_nat 226) 0).
  - do 5 right. left. reflexivity.
  - reflexivity.
Defined.
